(** * FitLife Pro: a shallow embedding of the health tracker's core

    The development follows the two Python programs of the repository:

    - [p3.py]: the catalogue loader [load_data_safe], the target calculator
      [save_profile], the streak counter [calculate_streak] and the meal
      planner [generate_meal_plan]; and the files they live on:
      [initialize_databases], [load_profile], [log_data],
      [log_beverage_advanced], [load_databases] and the reset of the
      settings page;
    - [chatbot.py]: the symptom matcher [Matcher] and one turn of the
      [Chatbot] loop.

    Python's [float] (and numpy's [float64]) is IEEE 754 binary64, which is
    exactly the kernel's primitive type [float]; every arithmetic operation
    below is the correctly rounded binary64 operation the interpreter
    performs.  Python's unbounded [int] is [Z].  A raised exception is a
    value of the error type [exn]; code that can raise lives in the error
    monad [result]. *)

From Stdlib Require Import ZArith List String Ascii Floats QArith Lia Lqa Permutation Sorted.
From Stdlib Require Uint63.
From stdpp Require Import gmap strings pretty.
Import ListNotations.

Set Warnings "-inexact-float".

(** ** Python values and built-ins *)

Module Py.

(** The exceptions the modelled code can raise. *)
Inductive exn : Type :=
| IndexError
| KeyError
| ValueError
| OverflowError
| EmptyDataError
| ParserError.

(** [inl e] is "raised [e]"; [inr v] is "returned [v]". *)
Definition result (A : Type) : Type := (exn + A)%type.

Definition ret {A : Type} (a : A) : result A := inr a.
Definition raise {A : Type} (e : exn) : result A := inl e.

Definition bind {A B : Type} (m : result A) (k : A -> result B) : result B :=
  match m with
  | inl e => inl e
  | inr a => k a
  end.

Definition rmap {A B : Type} (f : A -> B) (m : result A) : result B :=
  bind m (fun a => ret (f a)).

Definition returns {A : Type} (m : result A) : Prop := exists a, m = ret a.

End Py.

Import Py.

Notation "x <- m ;; k" := (bind m (fun x => k))
  (at level 100, m at next level, right associativity).

(** *** Floats *)

Module PyFloat.

Local Open Scope float_scope.

(** The correctly rounded binary64 value of an integer (round to nearest,
    ties to even): numpy's cast of an [int64] to [float64]. *)
Definition of_Z (z : Z) : float := SF2Prim (binary_normalize prec emax z 0 false).

(** Python's conversion of an [int] operand in mixed arithmetic
    ([PyLong_AsDouble]): the same rounding, and [OverflowError] once the
    rounded value would reach [2^1024]. *)
Definition float_of_int (z : Z) : result float :=
  if (Z.abs z <? 2 ^ 1024 - 2 ^ 970)%Z then ret (of_Z z) else raise OverflowError.

(** [int(x)]: truncation toward zero; [ValueError] on NaN and
    [OverflowError] on an infinity. *)
Definition py_int (x : float) : result Z :=
  match Prim2SF x with
  | S754_nan => raise ValueError
  | S754_infinity _ => raise OverflowError
  | S754_zero _ => ret 0%Z
  | S754_finite s m e => ret (cond_Zopp s (Z.shiftl (Zpos m) e))
  end.

(** The builtins [min(a, b)] and [max(a, b)] on two arguments: the first
    argument is kept unless the second compares strictly better. *)
Definition py_min (a b : float) : float := if b <? a then b else a.
Definition py_max (a b : float) : float := if a <? b then b else a.

(** The nearest integer to [m / 2^k], ties to even. *)
Definition round_half_even (m : Z) (k : Z) : Z :=
  let q := Z.shiftr m k in
  let r := Z.land m (Z.ones k) in
  let half := Z.shiftl 1 (k - 1) in
  match (r ?= half)%Z with
  | Lt => q
  | Gt => (q + 1)%Z
  | Eq => if Z.even q then q else (q + 1)%Z
  end.

(** [numpy.rint]: round to the nearest integral float, ties to even, the
    sign kept. *)
Definition rint (x : float) : float :=
  match Prim2SF x with
  | S754_finite s m e =>
      if (0 <=? e)%Z then x
      else let r := of_Z (round_half_even (Zpos m) (- e)) in
           if s then - r else r
  | _ => x
  end.

(** [round(x, 1)] on a numpy [float64] scalar: numpy scales by ten, rounds
    with [rint] and scales back. *)
Definition np_round1 (x : float) : float := rint (x * 10) / 10.

(** Two values compare (neither is a NaN). *)
Definition comparable (x y : float) : bool :=
  match SFcompare (Prim2SF x) (Prim2SF y) with
  | Some _ => true
  | None => false
  end.

(** A zero, or a finite number below [2^bound] in magnitude: the digits of
    the mantissa plus the exponent stay within [bound]. *)
Definition small (bound : Z) (x : spec_float) : Prop :=
  match x with
  | S754_zero _ => True
  | S754_finite _ m e => (Zpos (digits2_pos m) + e <= bound)%Z
  | _ => False
  end.

(** The range of an [int64]. *)
Definition is_int64 (z : Z) : Prop := (- 2 ^ 63 <= z < 2 ^ 63)%Z.

End PyFloat.

Import PyFloat.

(** *** Strings *)

Module PyStr.

Local Open Scope string_scope.

(** Text is a string of bytes.  The methods below are Python's on ASCII
    text, the text [s.isascii()] accepts; Python also knows the whitespace
    and the letters of Unicode, which they do not.  A statement that
    depends on what they compute is therefore made for ASCII text. *)

(** [s.isascii()]: every character is below 128. *)
Fixpoint isascii (s : string) : bool :=
  match s with
  | EmptyString => true
  | String c rest => (nat_of_ascii c <? 128)%nat && isascii rest
  end.

(** ASCII whitespace as [str.split] and [str.strip] see it. *)
Definition isspace (c : ascii) : bool :=
  let n := nat_of_ascii c in
  ((9 <=? n) && (n <=? 13) || (28 <=? n) && (n <=? 32))%nat.

Definition isupper (c : ascii) : bool :=
  let n := nat_of_ascii c in ((65 <=? n) && (n <=? 90))%nat.

Definition islower (c : ascii) : bool :=
  let n := nat_of_ascii c in ((97 <=? n) && (n <=? 122))%nat.

Definition upper (c : ascii) : ascii :=
  if islower c then ascii_of_nat (nat_of_ascii c - 32) else c.

Definition lower (c : ascii) : ascii :=
  if isupper c then ascii_of_nat (nat_of_ascii c + 32) else c.

Definition is_empty (s : string) : bool :=
  match s with EmptyString => true | String _ _ => false end.

(** [s.split()]: the maximal runs of non-whitespace characters, in order.
    [cur] is the word being read. *)
Fixpoint split_from (cur : string) (s : string) : list string :=
  match s with
  | EmptyString => if is_empty cur then [] else [cur]
  | String c rest =>
      if isspace c
      then (if is_empty cur then split_from "" rest else cur :: split_from "" rest)
      else split_from (cur ++ String c "") rest
  end.

Definition split (s : string) : list string := split_from "" s.

(** [l[i]] for a non-negative index. *)
Definition getitem {A : Type} (l : list A) (i : nat) : result A :=
  match nth_error l i with
  | Some a => ret a
  | None => raise IndexError
  end.

Fixpoint lstrip (s : string) : string :=
  match s with
  | EmptyString => ""
  | String c rest => if isspace c then lstrip rest else s
  end.

Fixpoint rstrip (s : string) : string :=
  match s with
  | EmptyString => ""
  | String c rest =>
      let rest' := rstrip rest in
      if isspace c && is_empty rest' then "" else String c rest'
  end.

Definition strip (s : string) : string := rstrip (lstrip s).

(** [s.title()] on ASCII text: a letter that follows a letter is lowered,
    any other letter is raised. *)
Fixpoint title_from (prev_cased : bool) (s : string) : string :=
  match s with
  | EmptyString => ""
  | String c rest =>
      String (if prev_cased then lower c else upper c)
             (title_from (isupper c || islower c) rest)
  end.

Definition title (s : string) : string := title_from false s.

(** [s.lower()]. *)
Fixpoint str_lower (s : string) : string :=
  match s with
  | EmptyString => ""
  | String c rest => String (lower c) (str_lower rest)
  end.

(** [needle in hay] on strings: [needle] occurs in [hay]. *)
Fixpoint str_in (needle hay : string) : bool :=
  String.prefix needle hay
  || match hay with
     | EmptyString => false
     | String _ rest => str_in needle rest
     end.

End PyStr.

Import PyStr.

(** [d.get(k, default)] on a dictionary. *)
Definition dict_get {V : Type} (d : gmap string V) (k : string) (dflt : V) : V :=
  default dflt (d !! k).

(** ** p3.py: the target calculator *)

Module FitLife.

Local Open Scope string_scope.
Local Open Scope float_scope.

Record targets : Type := {
  Calories : Z;
  Protein : Z;
  Water : Z;
  Macros_Split : Z * Z * Z
}.

Record profile : Type := {
  Name : string;
  Age : Z;
  Gender : string;
  Height : float;
  Start_Weight : float;
  Current_Weight : float;
  Activity : string;
  Goal : string;
  Targets : targets
}.

(** [macros[1]]. *)
Definition macros_1 (macros : Z * Z * Z) : Z := snd (fst macros).

Definition act_map : gmap string float :=
  <["Sedentary" := 1.2]> (<["Lightly" := 1.375]> (<["Moderately" := 1.55]>
  (<["Very" := 1.725]> (<["Super" := 1.9]> ∅)))).

(** [save_profile]: the profile dictionary that is written to the profile
    file and to the session.  The numeric form fields arrive as Python
    ints (set-up form) or floats (settings form); [height] and [weight] are
    taken as the binary64 value of the field, on which [10 * weight] and
    [6.25 * height] are the same number in both cases for every value the
    forms admit, and [age] is the int it always is. *)
Definition save_profile (name : string) (age : Z) (gender : string)
    (height weight : float) (activity goal : string) (water_goal : Z)
    : result profile :=
  age5 <- float_of_int (5 * age) ;;
  let bmr :=
    if String.eqb gender "Male"
    then (10 * weight) + (6.25 * height) - age5 + 5
    else (10 * weight) + (6.25 * height) - age5 - 161 in
  word <- getitem (split activity) 0 ;;
  let tdee := bmr * dict_get act_map word 1.2 in
  let '(target, macros) :=
    if String.eqb goal "Weight Loss" then (tdee - 500, (40, 40, 20)%Z)
    else if String.eqb goal "Weight Gain" then (tdee + 500, (50, 25, 25)%Z)
    else if String.eqb goal "Muscle Gain" then (tdee + 250, (45, 35, 20)%Z)
    else (tdee, (50, 20, 30)%Z) in
  rec_prot <- py_int ((target * (of_Z (macros_1 macros) / 100)) / 4) ;;
  calories <- py_int target ;;
  ret {| Name := name; Age := age; Gender := gender; Height := height;
         Start_Weight := weight; Current_Weight := weight;
         Activity := activity; Goal := goal;
         Targets := {| Calories := calories; Protein := rec_prot;
                       Water := water_goal; Macros_Split := macros |} |}.

(** ** p3.py: the meal planner *)

(** A row of the food catalogue, with the columns the planner reads.
    [Calories per Serving] is an [int64] column (the default data and the
    custom-food form both store ints); [Serving Unit] is absent for custom
    foods. *)
Record food_row : Type := {
  Dish_Name : string;
  Calories_per_Serving : Z;
  Protein_per_Serving : float;
  Diet : string;
  Serving_Unit : option string
}.

(** One entry of [day_meals]. *)
Record meal : Type := {
  Type_ : string;
  Dish : string;
  Qty : float;
  Unit : string;
  Cals : Z;
  meal_Diet : string
}.

(** The value stored under ["Day n"]. *)
Record day_plan : Type := {
  Meals : list meal;
  Total : Z
}.

(** The food catalogue [initialize_databases] writes when none exists. *)
Definition default_food_db : list food_row :=
  let row name cals prot diet unit_ :=
    {| Dish_Name := name; Calories_per_Serving := cals; Protein_per_Serving := prot;
       Diet := diet; Serving_Unit := Some unit_ |} in
  [ row "Roti" 120%Z 3 "Veg" "1 piece";
    row "Dal Fry" 150%Z 8 "Veg" "1 bowl";
    row "Rice" 130%Z 2 "Veg" "1 bowl";
    row "Paneer Butter Masala" 350%Z 12 "Veg" "1 bowl";
    row "Chicken Curry" 400%Z 25 "Non-Veg" "1 bowl";
    row "Egg Curry" 250%Z 14 "Non-Veg" "1 bowl";
    row "Dosa" 180%Z 4 "Veg" "1 piece";
    row "Idli" 60%Z 2 "Veg" "1 piece";
    row "Upma" 200%Z 5 "Veg" "1 plate";
    row "Poha" 180%Z 4 "Veg" "1 plate";
    row "Sandwich (Veg)" 220%Z 6 "Veg" "1 piece";
    row "Oats" 150%Z 5 "Veg" "1 bowl" ].

(** A food added through the custom-food form (no serving unit), and the
    catalogue [load_databases] builds from it: custom foods first. *)
Definition custom_khakhra : food_row :=
  {| Dish_Name := "Khakhra"; Calories_per_Serving := 275; Protein_per_Serving := 6;
     Diet := "Veg"; Serving_Unit := None |}.

Definition catalog_with_custom : list food_row := custom_khakhra :: default_food_db.

(** The [budgets] dictionary, in insertion order (the order in which
    [budgets.items()] yields it). *)
Definition budgets : list (string * float) :=
  [("Breakfast", 0.25); ("Lunch", 0.35); ("Dinner", 0.30); ("Snack", 0.10)].

(** [DataFrame.sort_values] on one key, as an insertion sort driven by the
    order [le] of the keys.  pandas does not fix the order of rows with
    equal keys; this sort keeps them in their original order. *)
Fixpoint insert_by {A : Type} (le : A -> A -> bool) (x : A) (l : list A) : list A :=
  match l with
  | [] => [x]
  | y :: rest => if le x y then x :: l else y :: insert_by le x rest
  end.

Definition sort_values {A : Type} (le : A -> A -> bool) (l : list A) : list A :=
  fold_right (insert_by le) [] l.

(** The catalogue the loops work on: the diet filter, then the ranking. *)
Definition diet_filter (df_food : list food_row) (diet_pref : string) : list food_row :=
  if String.eqb diet_pref "Vegetarian"
  then List.filter (fun row => String.eqb (Diet row) "Veg") df_food
  else df_food.

Definition rank (df_food : list food_row) (goal : string) : list food_row :=
  if String.eqb goal "Muscle Gain"
  then sort_values (fun a b => Protein_per_Serving b <=? Protein_per_Serving a) df_food
  else if String.eqb goal "Weight Loss"
  then sort_values (fun a b => (Calories_per_Serving a <=? Calories_per_Serving b)%Z) df_food
  else df_food.

(** The mask [(cps >= budget - 150) & (cps <= budget + 150)]; the int64
    column is compared as float64. *)
Definition within_budget (budget : float) (row : food_row) : bool :=
  (budget - 150 <=? of_Z (Calories_per_Serving row))
  && (of_Z (Calories_per_Serving row) <=? budget + 150).

(** [candidates], after the fallback. *)
Definition candidates_for (df_food : list food_row) (budget : float) : list food_row :=
  let candidates := List.filter (within_budget budget) df_food in
  match candidates with
  | [] => df_food
  | _ :: _ => candidates
  end.

(** The serving quantity of a row under a budget. *)
Definition quantity (budget : float) (selected : food_row) : float :=
  py_max 0.5 (py_min (np_round1 (budget / of_Z (Calories_per_Serving selected))) 3.0).

Section Planner.

(** The random source: [draws k] is the raw outcome of the [k]-th call
    of [sample], reduced to a row position below. *)
Variable draws : nat -> nat.

(** [candidates.sample(1).iloc[0]]: [ValueError] on an empty frame. *)
Definition sample1 (k : nat) (candidates : list food_row) : result food_row :=
  match nth_error candidates (draws k mod length candidates) with
  | Some row => ret row
  | None => raise ValueError
  end.

(** The body of the inner loop: one meal slot. *)
Definition plan_meal (df_food : list food_row) (target_cals : Z) (k : nat)
    (slot : string * float) : result meal :=
  let '(meal_name, ratio) := slot in
  t <- float_of_int target_cals ;;
  let budget := t * ratio in
  selected <- sample1 k (candidates_for df_food budget) ;;
  let qty := quantity budget selected in
  cals <- py_int (of_Z (Calories_per_Serving selected) * qty) ;;
  ret {| Type_ := meal_name; Dish := Dish_Name selected; Qty := qty;
         Unit := default "svg" (Serving_Unit selected); Cals := cals;
         meal_Diet := Diet selected |}.

(** The inner loop over [budgets.items()], with its two accumulators;
    [k] counts the calls of [sample] made so far. *)
Fixpoint day_loop (df_food : list food_row) (target_cals : Z) (k : nat)
    (slots : list (string * float)) (day_meals : list meal) (total_day : Z)
    : result (list meal * Z) :=
  match slots with
  | [] => ret (day_meals, total_day)
  | slot :: rest =>
      m <- plan_meal df_food target_cals k slot ;;
      day_loop df_food target_cals (S k) rest (day_meals ++ [m]) (total_day + Cals m)%Z
  end.

(** The outer loop over [range(1, days + 1)]; [plan] is the dictionary
    built so far, in insertion order. *)
Fixpoint plan_loop (df_food : list food_row) (target_cals : Z) (k : nat)
    (days : list nat) (plan : list (string * day_plan))
    : result (list (string * day_plan)) :=
  match days with
  | [] => ret plan
  | day :: rest =>
      r <- day_loop df_food target_cals k budgets [] 0%Z ;;
      plan_loop df_food target_cals (k + length budgets) rest
        (plan ++ [("Day " ++ pretty day, {| Meals := fst r; Total := snd r |})])
  end.

Definition generate_meal_plan (df_food : list food_row) (target_cals : Z)
    (goal diet_pref : string) (days : Z) : result (list (string * day_plan)) :=
  let df_food := rank (diet_filter df_food diet_pref) goal in
  plan_loop df_food target_cals 0 (seq 1 (Z.to_nat days)) [].

End Planner.

(** ** p3.py: tables, the loader and the streak counter *)

(** A cell of a log table.  A [datetime64] cell holds nanoseconds since the
    epoch, [None] being [NaT]. *)
Inductive cell : Type :=
| CStr (s : string)
| CNum (x : float)
| CTime (t : option Z).

(** A pandas [DataFrame]: the length of its index and its columns by
    name. *)
Record DataFrame : Type := {
  nrows : nat;
  columns : gmap string (list cell)
}.

(** [df.empty]: some axis has length zero. *)
Definition df_empty (df : DataFrame) : bool :=
  (nrows df =? 0)%nat || bool_decide (dom (columns df) = ∅).

(** [df[name] = values]. *)
Definition set_column (df : DataFrame) (name : string) (values : list cell) : DataFrame :=
  {| nrows := nrows df; columns := <[name := values]> (columns df) |}.

(** The files of the working directory: path to content. *)
Abbreviation files := (gmap string string).

(** Python objects are shared by reference: the frames live in a heap and
    a variable holds a location ([None] is Python's [None]). *)
Abbreviation heap := (gmap nat DataFrame).

Definition nanoseconds_per_day : Z := 86400000000000.

(** [Timestamp.date()], as days since the epoch. *)
Definition date_of (t : Z) : Z := (t / nanoseconds_per_day)%Z.

(** [Series.dropna()] on a datetime column. *)
Definition dropna (col : list (option Z)) : list Z := omap id col.

(** [unique()]: first occurrences, in order. *)
Fixpoint unique (seen : list Z) (l : list Z) : list Z :=
  match l with
  | [] => []
  | d :: rest =>
      if existsb (Z.eqb d) seen then unique seen rest
      else d :: unique (d :: seen) rest
  end.

(** [x in valid_dates]. *)
Definition contains (valid_dates : list Z) (x : Z) : bool :=
  existsb (Z.eqb x) valid_dates.

(** The [while] loop of [calculate_streak]; [None] when [fuel] iterations
    did not reach the exit. *)
Fixpoint streak_loop (fuel : nat) (valid_dates : list Z) (check_date : Z)
    (streak : Z) : option Z :=
  match fuel with
  | O => None
  | S fuel' =>
      if contains valid_dates check_date
      then streak_loop fuel' valid_dates (check_date - 1)%Z (streak + 1)%Z
      else Some streak
  end.

Section Pandas.

(** [pd.read_csv] on the content of a file: the parsed frame, or the
    exception it raises. *)
Variable read_csv : string -> result DataFrame.

(** [pd.to_datetime(column, errors='coerce')]: one timestamp or [NaT] per
    cell. *)
Variable to_datetime : list cell -> list (option Z).

(** [load_data_safe]: only [EmptyDataError] is caught. *)
Definition load_data_safe (fs : files) (filepath : string) : result (option DataFrame) :=
  match fs !! filepath with
  | Some content =>
      match read_csv content with
      | inr df => if df_empty df then ret None else ret (Some df)
      | inl EmptyDataError => ret None
      | inl e => raise e
      end
  | None => ret None
  end.

(** The distinct calendar days of a [Date] column that parse:
    [df["DateObj"].dropna().dt.date.unique()]. *)
Definition logged_days (dates : list cell) : list Z :=
  unique [] (map date_of (dropna (to_datetime dates))).

(** [calculate_streak], run on the heap [h] with [today] for
    [datetime.now().date()].  The result pairs what the call returns or
    raises with the heap it leaves.  The outer [None] means no outcome:
    the loop is out of fuel, or the location is not in the heap (which a
    live reference never is). *)
Definition calculate_streak (fuel : nat) (today : Z) (df_food : option nat) (h : heap)
    : option (result Z * heap) :=
  match df_food with
  | None => Some (ret 0%Z, h)
  | Some l =>
      df ← h !! l;
      if df_empty df then Some (ret 0%Z, h)
      else
        match columns df !! "Date" with
        | None => Some (raise KeyError, h)
        | Some dates =>
            let h := <[l := set_column df "DateObj" (map CTime (to_datetime dates))]> h in
            let valid_dates := logged_days dates in
            if (length valid_dates =? 0)%nat then Some (ret 0%Z, h)
            else
              let valid_dates := sort_values Z.leb valid_dates in
              let streak := 0%Z in
              let check_date := today in
              if negb (contains valid_dates check_date)
              then
                let check_date := (check_date - 1)%Z in
                if negb (contains valid_dates check_date) then Some (ret 0%Z, h)
                else
                  streak ← streak_loop fuel valid_dates check_date streak;
                  Some (ret streak, h)
              else
                streak ← streak_loop fuel valid_dates check_date streak;
                Some (ret streak, h)
        end
  end.

End Pandas.

(** ** p3.py: the files of the application *)

(** [FILES]: the path of each file, by role, in the order of the
    dictionary. *)
Definition FILES : list (string * string) :=
  [("profile", "user_profile.json");
   ("food_log", "food_log.csv");
   ("exercise_log", "exercise_log.csv");
   ("water_log", "water_log_detailed.csv");
   ("weight_log", "weight_log.csv");
   ("custom_food", "custom_foods.csv");
   ("food_db", "Enhanced_Indian_Food_Nutrition.csv");
   ("exercise_db", "Compendium_of_Physical_Activities_2024.csv");
   ("symptom_db", "symptom_database.csv")].

(** [FILES[key]], for the keys the program uses. *)
Definition FILES_at (key : string) : string :=
  default "" ((list_to_map FILES : gmap string string) !! key).

Definition HYDRATION_FACTORS : gmap string float :=
  <["Water" := 1.0]> (<["Milk" := 0.99]> (<["Tea" := 0.98]> (<["Coffee" := 0.90]>
  (<["Juice" := 0.95]> (<["Soda" := 0.90]> (<["Alcohol" := 0.80]>
  (<["Sports Drink" := 1.0]> ∅))))))).

(** [os.path.exists]. *)
Definition path_exists (fs : files) (path : string) : bool :=
  bool_decide (is_Some (fs !! path)).

(** A value of a record that is logged: a string, an [int] or a [float]. *)
Inductive value : Type :=
| VStr (s : string)
| VInt (n : Z)
| VFloat (x : float).

(** A table under construction, as [pd.DataFrame] is given it: the columns
    in order, each with its values. *)
Definition frame : Type := list (string * list value).

(** [pd.DataFrame(columns=names)]: columns without rows. *)
Definition frame_of_columns (names : list string) : frame :=
  map (fun name => (name, [])) names.

(** [pd.DataFrame([data_dict])]: one row. *)
Definition frame_of_record (data_dict : list (string * value)) : frame :=
  map (fun kv => (fst kv, [snd kv])) data_dict.

(** The default symptom table. *)
Definition default_symptoms : frame :=
  [("Symptom",
    map VStr ["Headache"; "Fever"; "Cold"; "Indigestion"; "Sore Throat"; "Fatigue";
              "Acidity"; "Insomnia"; "Muscle Pain"]);
   ("Possible Causes",
    map VStr ["Dehydration, Stress"; "Viral Infection"; "Virus"; "Overeating";
              "Infection"; "Lack of Sleep"; "Spicy Food"; "Stress/Screen Time";
              "Overexertion"]);
   ("Remedies",
    map VStr ["Drink Water, Rest"; "Paracetamol"; "Steam"; "Ginger Tea"; "Salt Gargle";
              "Sleep"; "Cold Milk"; "Meditation"; "Hot Compress"]);
   ("Foods to Avoid",
    map VStr ["Caffeine"; "Cold Water"; "Ice Cream"; "Oily Food"; "Cold Drinks"; "Sugar";
              "Fried Food"; "Caffeine at night"; "Processed Food"]);
   ("Preferred Indian Meal",
    map VStr ["Khichdi"; "Moong Dal Soup"; "Hot Soup"; "Curd Rice"; "Warm Turmeric Milk";
              "Dal Chawal"; "Banana/Toast"; "Warm Milk"; "Protein Salad"]);
   ("Tips / General Medicine",
    map VStr ["Sleep well"; "Monitor temp"; "Stay warm"; "Walk after meal"; "Rest voice";
              "Avoid screens"; "Sit upright"; "No screens 1hr before bed";
              "Stretch gently"]);
   ("Screen Time Link",
    map VStr ["High impact (Eye strain)"; "No direct link"; "No direct link";
              "Snacking while watching TV"; "No direct link";
              "Blue light disrupts sleep"; "Sedentary lifestyle";
              "Blue light blocks melatonin"; "Poor posture"]);
   ("Severity Level",
    map VStr ["Mild"; "Moderate"; "Mild"; "Mild"; "Mild"; "Moderate"; "Mild"; "Moderate";
              "Mild"]);
   ("Time to Relief",
    map VStr ["2-4 hours"; "3-5 days"; "1 week"; "1 day"; "2 days"; "2 days"; "2 hours";
              "Varies"; "2-3 days"]);
   ("Home Remedy Option",
    map VStr ["Lemon water"; "Tulsi Tea"; "Turmeric Milk"; "Ajwain Water"; "Honey Ginger";
              "Ashwagandha"; "Fennel Seeds"; "Chamomile Tea"; "Turmeric Paste"])].

(** The default food catalogue, with all its columns. *)
Definition default_foods : frame :=
  [("Dish Name",
    map VStr ["Roti"; "Dal Fry"; "Rice"; "Paneer Butter Masala"; "Chicken Curry";
              "Egg Curry"; "Dosa"; "Idli"; "Upma"; "Poha"; "Sandwich (Veg)"; "Oats"]);
   ("Calories per Serving",
    map VInt [120; 150; 130; 350; 400; 250; 180; 60; 200; 180; 220; 150]%Z);
   ("Protein per Serving (g)", map VInt [3; 8; 2; 12; 25; 14; 4; 2; 5; 4; 6; 5]%Z);
   ("Carbohydrates (g)", map VInt [20; 15; 28; 10; 5; 3; 25; 12; 30; 35; 30; 25]%Z);
   ("Fats (g)", map VInt [1; 5; 0; 25; 20; 18; 6; 0; 7; 5; 8; 3]%Z);
   ("Diet",
    map VStr ["Veg"; "Veg"; "Veg"; "Veg"; "Non-Veg"; "Non-Veg"; "Veg"; "Veg"; "Veg";
              "Veg"; "Veg"; "Veg"]);
   ("Serving Unit",
    map VStr ["1 piece"; "1 bowl"; "1 bowl"; "1 bowl"; "1 bowl"; "1 bowl"; "1 piece";
              "1 piece"; "1 plate"; "1 plate"; "1 piece"; "1 bowl"]);
   ("Serving Weight (g)",
    map VInt [40; 150; 150; 200; 250; 200; 80; 40; 150; 150; 120; 150]%Z)].

(** The default exercise table. *)
Definition default_exercises : frame :=
  [("Description",
    map VStr ["Running (6mph)"; "Walking (brisk)"; "Yoga"; "Cycling"; "Weight Lifting";
              "Swimming"]);
   ("MET Value", map VFloat [9.8; 3.5; 2.5; 7.5; 3.5; 8.0])].

Section Logs.

(** [frame.to_csv(path, header=..., index=False)]: the text pandas writes
    for a table, with or without the line of column names. *)
Variable to_csv : bool -> frame -> string.

(** [initialize_databases]: each file is written only when there is none. *)
Definition initialize_databases (fs : files) : files :=
  let fs :=
    if negb (path_exists fs (FILES_at "water_log"))
    then <[FILES_at "water_log" :=
             to_csv true (frame_of_columns
               ["Date"; "Time"; "Beverage"; "Volume_ml"; "Effective_Hydration_ml"])]> fs
    else fs in
  let fs :=
    if negb (path_exists fs (FILES_at "weight_log"))
    then <[FILES_at "weight_log" := to_csv true (frame_of_columns ["Date"; "Weight"])]> fs
    else fs in
  let fs :=
    if negb (path_exists fs (FILES_at "food_log"))
    then <[FILES_at "food_log" :=
             to_csv true (frame_of_columns
               ["Date"; "Time"; "Dish"; "Meal Type"; "Quantity"; "Calories"; "Protein";
                "Carbs"; "Fats"])]> fs
    else fs in
  let fs :=
    if negb (path_exists fs (FILES_at "exercise_log"))
    then <[FILES_at "exercise_log" :=
             to_csv true (frame_of_columns
               ["Date"; "Time"; "Activity"; "Duration"; "Calories Burnt"])]> fs
    else fs in
  let fs :=
    if negb (path_exists fs (FILES_at "symptom_db"))
    then <[FILES_at "symptom_db" := to_csv true default_symptoms]> fs
    else fs in
  let fs :=
    if negb (path_exists fs (FILES_at "food_db"))
    then <[FILES_at "food_db" := to_csv true default_foods]> fs
    else fs in
  if negb (path_exists fs (FILES_at "exercise_db"))
  then <[FILES_at "exercise_db" := to_csv true default_exercises]> fs
  else fs.

(** The files [initialize_databases] writes when they are missing, in the
    order of its tests, each with the text it is given. *)
Definition default_files : list (string * string) :=
  [(FILES_at "water_log",
    to_csv true (frame_of_columns
      ["Date"; "Time"; "Beverage"; "Volume_ml"; "Effective_Hydration_ml"]));
   (FILES_at "weight_log", to_csv true (frame_of_columns ["Date"; "Weight"]));
   (FILES_at "food_log",
    to_csv true (frame_of_columns
      ["Date"; "Time"; "Dish"; "Meal Type"; "Quantity"; "Calories"; "Protein"; "Carbs";
       "Fats"]));
   (FILES_at "exercise_log",
    to_csv true (frame_of_columns
      ["Date"; "Time"; "Activity"; "Duration"; "Calories Burnt"]));
   (FILES_at "symptom_db", to_csv true default_symptoms);
   (FILES_at "food_db", to_csv true default_foods);
   (FILES_at "exercise_db", to_csv true default_exercises)].

(** [log_data]: the record opens the file, under its column names, when
    the file is missing or of size zero; otherwise its row is appended. *)
Definition log_data (file : string) (data_dict : list (string * value)) (fs : files)
    : files :=
  let df_new := frame_of_record data_dict in
  match fs !! file with
  | Some content =>
      if (String.length content =? 0)%nat
      then <[file := to_csv true df_new]> fs
      else <[file := content ++ to_csv false df_new]> fs
  | None => <[file := to_csv true df_new]> fs
  end.

(** [log_beverage_advanced]; [date] and [time] are the two [strftime]
    strings, [volume] the [int] of the form. *)
Definition log_beverage_advanced (date time : string) (beverage : string) (volume : Z)
    (fs : files) : result files :=
  let factor := dict_get HYDRATION_FACTORS beverage 1.0 in
  v <- float_of_int volume ;;
  let eff_vol := v * factor in
  ret (log_data (FILES_at "water_log")
         [("Date", VStr date); ("Time", VStr time); ("Beverage", VStr beverage);
          ("Volume_ml", VInt volume); ("Effective_Hydration_ml", VFloat eff_vol)] fs).

End Logs.

(** The handler of the reset button: every file of [FILES] whose path does
    not contain ["db"] is removed when it exists. *)
Definition reset_all_data (fs : files) : files :=
  fold_left
    (fun fs f => if negb (str_in "db" f) && path_exists fs f then delete f fs else fs)
    (map snd FILES) fs.

(** ** p3.py: the stored profile *)

(** A JSON value. *)
#[warnings="-register-all"]
Inductive json : Type :=
| JNull
| JBool (b : bool)
| JInt (n : Z)
| JFloat (x : float)
| JStr (s : string)
| JList (items : list json)
| JObj (members : list (string * json)).

Section Profile.

(** [json.load] on the text of a file holding an object (a failure is a
    [ValueError], of which [JSONDecodeError] is a subclass), and
    [json.dump]. *)
Variable json_load : string -> result (gmap string json).
Variable json_dump : gmap string json -> string.

(** [load_profile]: the stored profile, repaired and written back when it
    has no [Start_Weight].  The result pairs what the call returns or
    raises with the files it leaves. *)
Definition load_profile (fs : files) : result (option (gmap string json)) * files :=
  match fs !! FILES_at "profile" with
  | Some content =>
      match json_load content with
      | inr profile =>
          if negb (bool_decide (is_Some (profile !! "Start_Weight")))
          then
            let profile :=
              <["Start_Weight" := default (JInt 70) (profile !! "Weight")]> profile in
            let profile :=
              <["Current_Weight" := default (JInt 70) (profile !! "Weight")]> profile in
            (ret (Some profile), <[FILES_at "profile" := json_dump profile]> fs)
          else (ret (Some profile), fs)
      | inl e => (raise e, fs)
      end
  | None => (ret None, fs)
  end.

End Profile.

(** ** p3.py: the catalogues *)

(** The missing value pandas fills with. *)
Definition NaN : cell := CNum nan.

(** [pd.concat([a, b], ignore_index=True)]: the rows of [a], then those of
    [b], over the columns of both; a column one table lacks is filled with
    missing values there. *)
Definition pd_concat (a b : DataFrame) : DataFrame :=
  {| nrows := nrows a + nrows b;
     columns :=
       merge (fun ca cb =>
                match ca, cb with
                | Some x, Some y => Some (x ++ y)%list
                | Some x, None => Some (x ++ replicate (nrows b) NaN)%list
                | None, Some y => Some (replicate (nrows a) NaN ++ y)%list
                | None, None => None
                end) (columns a) (columns b) |}.

(** The diet class inferred from a dish name [x] (already a string). *)
Definition infer_diet (x : string) : string :=
  if existsb (fun k => str_in k (str_lower x)) ["chicken"; "egg"; "fish"; "mutton"]
  then "Non-Veg" else "Veg".

(** The food table of [load_databases] once the custom foods are put in
    front of the catalogue: both, either, or none. *)
Definition combined_food (df_food df_custom : option DataFrame) : option DataFrame :=
  match df_food, df_custom with
  | Some food, Some custom => Some (pd_concat custom food)
  | None, Some custom => Some custom
  | _, None => df_food
  end.

Section Catalogues.

Variable read_csv : string -> result DataFrame.

(** [str(x)] on a cell. *)
Variable py_str : cell -> string.

(** [load_databases]: the food catalogue (custom foods first), the
    exercise table and the symptom table. *)
Definition load_databases (fs : files)
    : result (option DataFrame * option DataFrame * option DataFrame) :=
  df_food <- load_data_safe read_csv fs (FILES_at "food_db") ;;
  df_custom <- load_data_safe read_csv fs (FILES_at "custom_food") ;;
  let df_food := combined_food df_food df_custom in
  df_ex <- load_data_safe read_csv fs (FILES_at "exercise_db") ;;
  df_sym <- load_data_safe read_csv fs (FILES_at "symptom_db") ;;
  df_food <-
    match df_food with
    | Some food =>
        if negb (bool_decide (is_Some (columns food !! "Diet")))
        then
          match columns food !! "Dish Name" with
          | Some names =>
              ret (Some (set_column food "Diet"
                           (map (fun x => CStr (infer_diet (py_str x))) names)))
          | None => raise KeyError
          end
        else ret (Some food)
    | None => ret None
    end ;;
  ret (df_food, df_ex, df_sym).

End Catalogues.

End FitLife.

(** ** chatbot.py: the symptom matcher *)

Module Chatbot.

Local Open Scope string_scope.
Local Open Scope Q_scope.

(** [df['Symptom'].str.title()]: the column as the matcher sees it; a
    missing name stays missing. *)
Definition load_symptoms (raw : list (option string)) : list (option string) :=
  map (option_map title) raw.

(** What one turn of the loop does with a line of input. *)
Inductive reply : Type :=
| Goodbye
| Advice (idx : nat)
| NoMatch.

Section Matcher.

(** rapidfuzz's default scorer ([WRatio], with the default processor), a
    similarity between 0 and 100. *)
Variable scorer : string -> string -> Q.

(** A scorer called with [score_cutoff] reports 0 below the cutoff. *)
Definition score_with_cutoff (query choice : string) (score_cutoff : Q) : Q :=
  let score := scorer query choice in
  if Qle_bool score_cutoff score then score else 0.

(** The loop of [process.extractOne] over [choices.items()], from position
    [key] on: a choice replaces the result when its score reaches the
    cutoff and beats the result; the cutoff then rises to that score; the
    loop stops at the optimal score 100. *)
Fixpoint extractOne_from (query : string) (key : nat) (choices : list (option string))
    (score_cutoff : Q) (result : option (string * Q * nat)) : option (string * Q * nat) :=
  match choices with
  | [] => result
  | None :: rest => extractOne_from query (S key) rest score_cutoff result
  | Some choice :: rest =>
      let score := score_with_cutoff query choice score_cutoff in
      let better :=
        Qle_bool score_cutoff score
        && match result with
           | None => true
           | Some (_, best, _) => negb (Qle_bool score best)
           end in
      let score_cutoff' := if better then score else score_cutoff in
      let result' := if better then Some (choice, score, key) else result in
      if Qeq_bool score 100 then result'
      else extractOne_from query (S key) rest score_cutoff' result'
  end.

Definition extractOne (query : string) (choices : list (option string)) (score_cutoff : Q)
    : option (string * Q * nat) :=
  extractOne_from query 0 choices score_cutoff None.

(** What is known of the loop's state once the choices [seen] have been
    scored: without a result, none of them reaches 70; with a result, it
    is the first of the best-scoring choices seen, and the cutoff is its
    score. *)
Definition loop_state (query : string) (seen : list (option string)) (score_cutoff : Q)
    (result : option (string * Q * nat)) : Prop :=
  match result with
  | None =>
      score_cutoff == 70 /\
      forall j name, seen !! j = Some (Some name) -> scorer query name < 70
  | Some (name, best, idx) =>
      score_cutoff == best /\ 70 <= best /\ best = scorer query name /\
      seen !! idx = Some (Some name) /\
      (forall j other, seen !! j = Some (Some other) -> scorer query other <= best) /\
      (forall j other, (j < idx)%nat -> seen !! j = Some (Some other) ->
                       scorer query other < best)
  end.

(** [Matcher], over the loaded [Symptom] column. *)
Definition Matcher (symptoms : list (option string)) (inp : string) : option nat :=
  match extractOne inp symptoms 70 with
  | Some (symptom, confidence, idx) => Some idx
  | None => None
  end.

(** The normalisation [Chatbot] applies to a line. *)
Definition clean_input (inp : string) : string := title (strip inp).

(** One iteration of the [while True] loop of [Chatbot]. *)
Definition Chatbot_turn (symptoms : list (option string)) (inp : string) : reply :=
  let clean_input := clean_input inp in
  if String.eqb clean_input "Exit" then Goodbye
  else match Matcher symptoms clean_input with
       | Some idx => Advice idx
       | None => NoMatch
       end.

End Matcher.

End Chatbot.

Import FitLife.

(** * Instances of the pandas readers, for the worked examples

    [pd.to_datetime] and [pd.read_csv] are library code; the theorems take
    them as parameters.  The two readers below are simple instances (ISO
    dates only, comma-separated text with no quoting), on which the
    examples run. *)

Module Examples.

Local Open Scope string_scope.
Local Open Scope Z_scope.

Definition digit (c : ascii) : option Z :=
  let n := nat_of_ascii c in
  if ((48 <=? n) && (n <=? 57))%nat then Some (Z.of_nat (n - 48)) else None.

Fixpoint number (acc : Z) (s : string) : option Z :=
  match s with
  | EmptyString => Some acc
  | String c rest => d ← digit c; number (10 * acc + d) rest
  end.

Definition is_leap (y : Z) : bool :=
  (y mod 4 =? 0) && (negb (y mod 100 =? 0) || (y mod 400 =? 0)).

Definition days_in_month (y m : Z) : Z :=
  if (m =? 2) then (if is_leap y then 29 else 28)
  else if (m =? 4) || (m =? 6) || (m =? 9) || (m =? 11) then 30
  else 31.

(** Days since 1970-01-01 of a date of the Gregorian calendar. *)
Definition days_from_civil (y m d : Z) : Z :=
  let y := if m <=? 2 then y - 1 else y in
  let era := y / 400 in
  let yoe := y - era * 400 in
  let mp := (m + 9) mod 12 in
  let doy := (153 * mp + 2) / 5 + d - 1 in
  let doe := yoe * 365 + yoe / 4 - yoe / 100 + doy in
  era * 146097 + doe - 719468.

(** A [YYYY-MM-DD] string as a timestamp at midnight; anything else is
    [NaT]. *)
Definition parse_iso_date (s : string) : option Z :=
  if (String.length s =? 10)%nat
     && String.eqb (substring 4 1 s) "-" && String.eqb (substring 7 1 s) "-"
  then
    y ← number 0 (substring 0 4 s);
    m ← number 0 (substring 5 2 s);
    d ← number 0 (substring 8 2 s);
    if (1 <=? m) && (m <=? 12) && (1 <=? d) && (d <=? days_in_month y m)
    then Some (days_from_civil y m d * nanoseconds_per_day)
    else None
  else None.

Definition iso_to_datetime (column : list cell) : list (option Z) :=
  map (fun c => match c with
                | CStr s => parse_iso_date s
                | CTime t => t
                | CNum _ => None
                end) column.

(** The pieces of [s] between occurrences of [sep]. *)
Fixpoint pieces (sep : ascii) (cur : string) (s : string) : list string :=
  match s with
  | EmptyString => [cur]
  | String c rest =>
      if Ascii.eqb c sep then cur :: pieces sep "" rest
      else pieces sep (cur ++ String c "") rest
  end.

(** The lines of a text, a final newline not opening a line. *)
Definition text_lines (content : string) : list string :=
  List.filter (fun line => negb (is_empty line)) (pieces "010"%char "" content).

(** A reader of comma-separated text: the first line names the columns,
    every cell is a string; [EmptyDataError] when there is no line. *)
Definition simple_read_csv (content : string) : result DataFrame :=
  match text_lines content with
  | [] => raise EmptyDataError
  | header :: rows =>
      let names := pieces ","%char "" header in
      let column i := map (fun row => CStr (nth i (pieces ","%char "" row) "")) rows in
      ret {| nrows := length rows;
             columns := list_to_map (imap (fun i name => (name, column i)) names) |}
  end.

(** A food log of three entries, the second with a malformed date. *)
Definition food_log_csv : string :=
  "Date,Dish,Calories" ++ String "010" "" ++
  "2024-03-09,Roti,120" ++ String "010" "" ++
  "09/03/2024,Rice,130" ++ String "010" "" ++
  "2024-03-10,Idli,60" ++ String "010" "".

Definition header_only_csv : string := "Date,Dish,Calories" ++ String "010" "".

Definition food_log : DataFrame :=
  {| nrows := 3;
     columns := list_to_map
       [("Date", [CStr "2024-03-09"; CStr "09/03/2024"; CStr "2024-03-10"]);
        ("Dish", [CStr "Roti"; CStr "Rice"; CStr "Idli"]);
        ("Calories", [CStr "120"; CStr "130"; CStr "60"])] |}.

(** A stand-in for the scorer: 100 for equal strings, 80 when the query
    begins the choice, 10 otherwise. *)
Definition prefix_scorer (query choice : string) : Q :=
  if String.eqb query choice then 100%Q
  else if String.prefix query choice then 80%Q
  else 10%Q.

(** The [Symptom] column of the default symptom table, with one name
    missing. *)
Definition symptom_column : list (option string) :=
  [Some "headache"; Some "fever"; None; Some "cold"; Some "sore throat";
   Some "muscle pain"].

(** A working directory: a food log, a zero-length exercise log, and a
    water log with its header only. *)
Definition working_directory : gmap string string :=
  <["food_log.csv" := food_log_csv]>
  (<["exercise_log.csv" := ""]>
  (<["water_log_detailed.csv" := header_only_csv]> ∅)).

(** A heap that holds the food log at location 1. *)
Definition heap_with_log : gmap nat DataFrame := {[ 1%nat := food_log ]}.

(** 2024-03-10, in days since the epoch. *)
Definition march_10 : Z := 19792.

(** A drink without calories, as the custom-food form admits one. *)
Definition black_coffee : food_row :=
  {| Dish_Name := "Black Coffee"; Calories_per_Serving := 0;
     Protein_per_Serving := 0%float; Diet := "Veg"; Serving_Unit := None |}.

(** The example log again, its rows in another order, one of them twice,
    with an entry dated after 2024-03-10. *)
Definition food_log_reordered : DataFrame :=
  {| nrows := 5;
     columns := list_to_map
       [("Date", [CStr "2024-03-10"; CStr "2024-03-09"; CStr "2024-03-10";
                  CStr "2024-03-15"; CStr "tomorrow"]);
        ("Dish", [CStr "Idli"; CStr "Roti"; CStr "Poha"; CStr "Oats"; CStr "Rice"])] |}.

(** A stand-in for the text pandas writes: values joined by commas, one
    line per row, a float written by its whole part. *)
Definition render (v : value) : string :=
  match v with
  | VStr s => s
  | VInt n => pretty n
  | VFloat x => match py_int x with
                | inr n => pretty n
                | inl _ => "nan"
                end
  end.

Definition csv_line (fields : list string) : string :=
  String.concat "," fields ++ String "010" "".

Definition simple_to_csv (header : bool) (df : frame) : string :=
  let height := match df with
                | [] => 0%nat
                | (_, column) :: _ => length column
                end in
  let row i := csv_line (map (fun col => render (nth i (snd col) (VStr ""))) df) in
  (if header then csv_line (map fst df) else "")
  ++ fold_right String.append "" (map row (seq 0 height)).

(** A meal and a drink, as the logging pages record them. *)
Definition idli_record : list (string * value) :=
  [("Date", VStr "2024-03-10"); ("Dish", VStr "Idli"); ("Calories", VInt 60)].

Definition roti_record : list (string * value) :=
  [("Date", VStr "2024-03-10"); ("Dish", VStr "Roti"); ("Calories", VInt 120)].

(** A stand-in for the JSON library, which knows two documents: a profile
    of an earlier version of the program, and that profile repaired. *)
Definition old_profile : gmap string json :=
  list_to_map [("Name", JStr "Asha"); ("Weight", JInt 82); ("Goal", JStr "Maintain")].

Definition repaired_profile : gmap string json :=
  <["Current_Weight" := JInt 82]> (<["Start_Weight" := JInt 82]> old_profile).

Definition example_json_load (text : string) : result (gmap string json) :=
  if String.eqb text "{Name: Asha, Weight: 82, Goal: Maintain}" then ret old_profile
  else if String.eqb text "{repaired}" then ret repaired_profile
  else raise ValueError.

Definition example_json_dump (profile : gmap string json) : string := "{repaired}".

(** [str] on the cells of the examples, which are strings or missing. *)
Definition cell_text (c : cell) : string :=
  match c with
  | CStr s => s
  | _ => "nan"
  end.

(** A catalogue without diet classes, a catalogue that names its dishes
    differently, and custom foods with diet classes. *)
Definition plain_catalogue_csv : string :=
  "Dish Name,Calories per Serving" ++ String "010" "" ++
  "Egg Curry,250" ++ String "010" "" ++
  "Dal Fry,150" ++ String "010" "".

Definition foreign_catalogue_csv : string :=
  "Name,Calories" ++ String "010" "" ++
  "Roti,120" ++ String "010" "".

Definition custom_foods_csv : string :=
  "Dish Name,Calories per Serving,Diet" ++ String "010" "" ++
  "Khakhra,275,Veg" ++ String "010" "".

(** The two tables as the simple reader parses them, every cell a
    string. *)
Definition plain_catalogue : DataFrame :=
  {| nrows := 2;
     columns := list_to_map
       [("Dish Name", [CStr "Egg Curry"; CStr "Dal Fry"]);
        ("Calories per Serving", [CStr "250"; CStr "150"])] |}.

Definition custom_foods : DataFrame :=
  {| nrows := 1;
     columns := list_to_map
       [("Dish Name", [CStr "Khakhra"]);
        ("Calories per Serving", [CStr "275"]);
        ("Diet", [CStr "Veg"])] |}.

(** Three directories: the plain catalogue alone, the foreign catalogue
    alone, and the plain catalogue with the custom foods. *)
Definition plain_directory : gmap string string :=
  <["Enhanced_Indian_Food_Nutrition.csv" := plain_catalogue_csv]> ∅.

Definition foreign_directory : gmap string string :=
  <["Enhanced_Indian_Food_Nutrition.csv" := foreign_catalogue_csv]> ∅.

Definition custom_directory : gmap string string :=
  <["Enhanced_Indian_Food_Nutrition.csv" := plain_catalogue_csv]>
  (<["custom_foods.csv" := custom_foods_csv]> ∅).

(** A directory that holds only a profile of the earlier version. *)
Definition old_profile_directory : gmap string string :=
  <["user_profile.json" := "{Name: Asha, Weight: 82, Goal: Maintain}"]> ∅.

End Examples.

(** * The specification's reading of the calculator

    These definitions follow the words of the specification, not the code;
    the theorems below compare them with [save_profile]. *)

Module Spec.

Local Open Scope string_scope.
Local Open Scope float_scope.

(** Mifflin-St Jeor: [10 x weight + 6.25 x height - 5 x age + 5] for male,
    [-161] in place of [+5] otherwise; [age5] is [5 x age]. *)
Definition basal_rate (age5 : float) (gender : string) (height weight : float) : float :=
  let common := 10 * weight + 6.25 * height - age5 in
  if String.eqb gender "Male" then common + 5 else common - 161.

(** The activity multiplier, keyed by the first word of the label. *)
Definition activity_factor (word : string) : float :=
  if String.eqb word "Sedentary" then 1.2
  else if String.eqb word "Lightly" then 1.375
  else if String.eqb word "Moderately" then 1.55
  else if String.eqb word "Very" then 1.725
  else if String.eqb word "Super" then 1.9
  else 1.2.

(** The goal's offset on the total energy expenditure. *)
Definition goal_adjust (goal : string) (tdee : float) : float :=
  if String.eqb goal "Weight Loss" then tdee - 500
  else if String.eqb goal "Weight Gain" then tdee + 500
  else if String.eqb goal "Muscle Gain" then tdee + 250
  else tdee.

(** The goal's macro triple, in the order the goal table lists it. *)
Definition goal_macros (goal : string) : Z * Z * Z :=
  if String.eqb goal "Weight Loss" then (40, 40, 20)%Z
  else if String.eqb goal "Weight Gain" then (50, 25, 25)%Z
  else if String.eqb goal "Muscle Gain" then (45, 35, 20)%Z
  else (50, 20, 30)%Z.

(** Basal rate, times the activity factor, offset by the goal. *)
Definition target_energy (age5 : float) (gender : string) (height weight : float)
    (word goal : string) : float :=
  goal_adjust goal (basal_rate age5 gender height weight * activity_factor word).

(** The first component of a triple: the protein share as the
    specification reads the table. *)
Definition first_component (macros : Z * Z * Z) : Z := fst (fst macros).

(** Python's one-argument [round]: nearest integer, ties to even. *)
Definition py_round (x : float) : result Z := py_int (rint x).

(** [round(targetCalories x proteinPercent / 100 / 4)]. *)
Definition protein_grams_as_specified (targetCalories proteinPercent : Z) : result Z :=
  py_round (of_Z (targetCalories * proteinPercent) / 100 / 4).

(** The protein grams the code derives from the un-truncated target and a
    percentage: [int(target x (percent / 100) / 4)]. *)
Definition protein_grams_truncated (target : float) (percent : Z) : result Z :=
  py_int (target * (of_Z percent / 100) / 4).

(** What the planner promises of one meal [m] planned for [slot] from
    [catalog]: some row of the candidate set of the slot's budget was
    selected, and the meal records that row. *)
Definition planned_meal (catalog : list food_row) (target_cals : Z)
    (slot : string * float) (m : meal) : Prop :=
  exists t selected,
    float_of_int target_cals = ret t /\
    In selected (candidates_for catalog (t * snd slot)) /\
    Type_ m = fst slot /\
    Dish m = Dish_Name selected /\
    Qty m = quantity (t * snd slot) selected /\
    py_int (of_Z (Calories_per_Serving selected) * Qty m) = ret (Cals m) /\
    Unit m = default "svg" (Serving_Unit selected) /\
    meal_Diet m = Diet selected.

(** A day of the plan: one planned meal per slot, in the order of the
    slots, and their calories summed. *)
Definition planned_day (catalog : list food_row) (target_cals : Z) (d : day_plan) : Prop :=
  Forall2 (planned_meal catalog target_cals) budgets (Meals d) /\
  Total d = fold_right Z.add 0%Z (map Cals (Meals d)).

End Spec.

(** * Facts *)

(** ** The error monad *)

Lemma bind_ret_inv {A B : Type} (m : result A) (k : A -> result B) (b : B) :
  bind m k = ret b -> exists a, m = ret a /\ k a = ret b.
Proof. destruct m as [e | a]; cbn; [discriminate | eauto]. Qed.

Lemma getitem_0 {A : Type} (l : list A) (a : A) :
  getitem l 0 = ret a <-> nth_error l 0 = Some a.
Proof.
  unfold getitem. destruct (nth_error l 0); cbn; split; intros H;
    try discriminate; injection H as ->; reflexivity.
Qed.

Tactic Notation "bind_inv" hyp(H) "as" ident(a) ident(Ha) :=
  apply bind_ret_inv in H; destruct H as (a & Ha & H).

(** ** Binary64: comparisons *)

Section FloatOrder.

Local Open Scope float_scope.

Lemma SFcompare_swap (x y : spec_float) :
  SFcompare y x = option_map CompOpp (SFcompare x y).
Proof.
  destruct x as [sx | sx | | sx mx ex], y as [sy | sy | | sy my ey];
    try destruct sx; try destruct sy; try reflexivity; cbn.
  all: rewrite (Z.compare_antisym ex ey); destruct (ex ?= ey)%Z; cbn; try reflexivity.
  all: rewrite (Pos.compare_cont_antisym mx my Eq); cbn; rewrite ?CompOpp_involutive; reflexivity.
Qed.

Lemma ltb_leb (x y : float) : (x <? y) = true -> (x <=? y) = true.
Proof.
  rewrite ltb_spec, leb_spec. unfold SFltb, SFleb.
  destruct (SFcompare (Prim2SF x) (Prim2SF y)) as [[]|]; congruence.
Qed.

Lemma ltb_swap (x y : float) : (x <? y) = true -> (y <? x) = false.
Proof.
  rewrite !ltb_spec. unfold SFltb. rewrite (SFcompare_swap (Prim2SF x) (Prim2SF y)).
  destruct (SFcompare (Prim2SF x) (Prim2SF y)) as [[]|]; cbn; congruence.
Qed.

Lemma leb_swap (x y : float) : (x <=? y) = true -> (y <? x) = false.
Proof.
  rewrite ltb_spec, leb_spec. unfold SFltb, SFleb. rewrite (SFcompare_swap (Prim2SF x) (Prim2SF y)).
  destruct (SFcompare (Prim2SF x) (Prim2SF y)) as [[]|]; cbn; congruence.
Qed.

Lemma ltb_comparable x y : (x <? y) = true -> comparable x y = true.
Proof. rewrite ltb_spec. unfold SFltb, comparable. destruct SFcompare as [[]|]; congruence. Qed.

Lemma not_ltb_leb (x y : float) :
  comparable x y = true -> (y <? x) = false -> (x <=? y) = true.
Proof.
  rewrite ltb_spec, leb_spec. unfold SFltb, SFleb, comparable. rewrite (SFcompare_swap (Prim2SF x) (Prim2SF y)).
  destruct (SFcompare (Prim2SF x) (Prim2SF y)) as [[]|]; cbn; congruence.
Qed.

Lemma comparable_trans_const (x : float) (a b : float) :
  comparable a x = true -> comparable a b = true -> comparable x b = true.
Proof.
  unfold comparable. destruct (Prim2SF a), (Prim2SF x), (Prim2SF b); cbn; congruence.
Qed.

Lemma leb_not_ltb_eq (x y : float) :
  (x <=? y) = true -> (x <? y) = false -> SFcompare (Prim2SF x) (Prim2SF y) = Some Eq.
Proof.
  rewrite ltb_spec, leb_spec. unfold SFltb, SFleb.
  destruct (SFcompare (Prim2SF x) (Prim2SF y)) as [[]|]; cbn; congruence.
Qed.

Lemma SFcompare_Eq_finite s m e (y : spec_float) :
  SFcompare (S754_finite s m e) y = Some Eq -> y = S754_finite s m e.
Proof.
  destruct y as [sy | sy | | sy my ey]; cbn; try (destruct s; discriminate); try (destruct sy; discriminate).
  destruct s, sy; try discriminate; destruct (e ?= ey)%Z eqn:E; try discriminate;
  apply Z.compare_eq in E; subst; intros H; injection H as H.
  - apply (f_equal CompOpp) in H. rewrite CompOpp_involutive in H. cbn in H.
    apply Pos.compare_eq in H. congruence.
  - apply Pos.compare_eq in H. congruence.
Qed.

Lemma clamp_bounds (r : float) :
  let q := py_max 0.5 (py_min r 3.0) in
  (0.5 <=? q) = true /\ (q <=? 3.0) = true.
Proof.
  cbn zeta. unfold py_min, py_max.
  destruct (3.0 <? r) eqn:H3.
  - split; reflexivity.
  - destruct (0.5 <? r) eqn:H05.
    + split; [now apply ltb_leb|].
      apply not_ltb_leb; [|exact H3].
      apply ltb_comparable in H05.
      now apply (comparable_trans_const r 0.5 3.0).
    + split; reflexivity.
Qed.

Lemma clamp_cases (r : float) :
  ((0.5 <=? r) = true -> (r <=? 3.0) = true -> py_max 0.5 (py_min r 3.0) = r) /\
  ((r <? 0.5) = true -> py_max 0.5 (py_min r 3.0) = 0.5) /\
  ((3.0 <? r) = true -> py_max 0.5 (py_min r 3.0) = 3.0).
Proof.
  unfold py_max, py_min. repeat split.
  - intros Hlo Hhi. rewrite (leb_swap _ _ Hhi).
    destruct (0.5 <? r) eqn:E; [reflexivity |].
    apply Prim2SF_inj. symmetry.
    apply (SFcompare_Eq_finite false 4503599627370496 (-53)).
    exact (leb_not_ltb_eq _ _ Hlo E).
  - intros Hlt. pose proof (ltb_swap _ _ Hlt) as H1.
    destruct (3.0 <? r) eqn:E; [| now rewrite H1].
    exfalso. apply ltb_leb in Hlt. apply ltb_leb in E.
    revert Hlt E. rewrite !leb_spec. unfold SFleb.
    change (Prim2SF 0.5) with (S754_finite false 4503599627370496 (-53)).
    change (Prim2SF 3.0) with (S754_finite false 6755399441055744 (-51)).
    destruct (Prim2SF r) as [[] | [] | | [] m e]; cbn [SFcompare]; try discriminate.
    destruct (e ?= -53)%Z eqn:E1, (-51 ?= e)%Z eqn:E2; try discriminate;
      rewrite ?Z.compare_eq_iff, ?Z.compare_lt_iff, ?Z.compare_gt_iff in *; lia.
  - intros Hgt. now rewrite Hgt.
Qed.

End FloatOrder.

(** ** Binary64: rounding never overflows on small magnitudes *)

Section FloatRounding.

Local Open Scope Z_scope.

Lemma Zdigits2_log2 (z : Z) : 0 < z -> Zdigits2 z = Z.log2 z + 1.
Proof.
  destruct z as [| p | p]; try lia. intros _. cbn [Zdigits2].
  assert (H : forall q, digits2_pos q = Pos.size q) by (induction q; cbn; congruence).
  rewrite H. destruct p; cbn; lia.
Qed.

Lemma Zdigits2_nonneg (z : Z) : 0 <= Zdigits2 z.
Proof. destruct z; cbn; lia. Qed.

Lemma Zdigits2_lt (z : Z) : 0 <= z -> z < 2 ^ Zdigits2 z.
Proof.
  intros Hz. destruct (Z.eq_dec z 0) as [-> | Hne]; [reflexivity |].
  rewrite Zdigits2_log2 by lia. apply Z.log2_spec. lia.
Qed.

Lemma Zdigits2_le (z k : Z) : 0 <= k -> 0 <= z < 2 ^ k -> Zdigits2 z <= k.
Proof.
  intros Hk [Hz Hlt]. destruct (Z.eq_dec z 0) as [-> | Hne]; [cbn; lia |].
  rewrite Zdigits2_log2 by lia.
  apply Z.log2_lt_pow2 in Hlt; lia.
Qed.

Lemma div_pow2_lt (m n d : Z) :
  0 <= m < 2 ^ d -> 0 <= n -> 0 <= d -> 0 <= m / 2 ^ n < 2 ^ Z.max (d - n) 0.
Proof.
  intros [Hm Hlt] Hn Hd.
  assert (0 < 2 ^ n) by (apply Z.pow_pos_nonneg; lia).
  split; [apply Z.div_pos; lia |].
  destruct (Z.le_gt_cases n d) as [Hle | Hgt].
  - rewrite Z.max_l by lia. apply Z.div_lt_upper_bound; [lia |].
    rewrite <- Z.pow_add_r by lia. replace (n + (d - n)) with d by lia. exact Hlt.
  - rewrite Z.max_r by lia. rewrite Z.div_small; [reflexivity |].
    split; [lia |]. eapply Z.lt_le_trans; [exact Hlt |].
    apply Z.pow_le_mono_r; lia.
Qed.

Lemma shr_1_m (mrs : shr_record) :
  0 <= shr_m mrs -> shr_m (shr_1 mrs) = shr_m mrs / 2.
Proof.
  destruct mrs as [m r s]. rewrite <- Z.div2_div.
  destruct m as [| [p | p |] | p]; cbn; try reflexivity; lia.
Qed.

Lemma iter_shr_1_m (p : positive) :
  forall mrs, 0 <= shr_m mrs ->
    shr_m (SpecFloat.iter_pos shr_1 p mrs) = shr_m mrs / 2 ^ Zpos p.
Proof.
  assert (Hpos : forall q, 0 < 2 ^ Zpos q) by (intros; apply Z.pow_pos_nonneg; lia).
  induction p as [p IH | p IH |]; intros mrs Hm; cbn [SpecFloat.iter_pos].
  - assert (H1 : 0 <= shr_m (shr_1 mrs)) by (rewrite shr_1_m by lia; apply Z.div_pos; lia).
    assert (H2 : 0 <= shr_m (SpecFloat.iter_pos shr_1 p (shr_1 mrs)))
      by (rewrite IH by lia; apply Z.div_pos; [lia | apply Hpos]).
    rewrite IH, IH, shr_1_m by lia.
    rewrite !Z.div_div by (pose proof (Hpos p); lia).
    f_equal. replace (Z.pos p~1) with (1 + Z.pos p + Z.pos p) by lia.
    rewrite !Z.pow_add_r, Z.pow_1_r by lia. ring.
  - assert (H2 : 0 <= shr_m (SpecFloat.iter_pos shr_1 p mrs))
      by (rewrite IH by lia; apply Z.div_pos; [lia | apply Hpos]).
    rewrite IH, IH by lia.
    rewrite !Z.div_div by (pose proof (Hpos p); lia).
    f_equal. replace (Z.pos p~0) with (Z.pos p + Z.pos p) by lia.
    rewrite !Z.pow_add_r by lia. ring.
  - rewrite shr_1_m by lia. reflexivity.
Qed.

(** What [shr] does to a non-negative mantissa and its exponent. *)
Lemma shr_spec (mrs : shr_record) (e n : Z) :
  0 <= shr_m mrs ->
  shr_m (fst (shr mrs e n)) = shr_m mrs / 2 ^ Z.max n 0 /\
  snd (shr mrs e n) = e + Z.max n 0.
Proof.
  intros Hm. destruct n as [| p | p]; cbn [shr fst snd].
  - rewrite Z.div_1_r. split; lia.
  - rewrite iter_shr_1_m by lia. rewrite Z.max_l by lia. split; reflexivity.
  - rewrite Z.max_r by lia. rewrite Z.div_1_r. split; lia.
Qed.

Lemma shr_record_of_loc_m (m : Z) (l : location) : shr_m (shr_record_of_loc m l) = m.
Proof. destruct l as [| []]; reflexivity. Qed.

Lemma round_nearest_even_bounds (m : Z) (l : location) :
  m <= round_nearest_even m l <= m + 1.
Proof. destruct l as [| []]; cbn; try destruct (Z.even m); lia. Qed.

(** Rounding a non-negative mantissa that is well below the overflow
    threshold yields a zero or a finite number, of about the same
    magnitude. *)
Lemma binary_round_aux_finite (s : bool) (m : positive) (e : Z) :
  e <= 971 -> Zpos (digits2_pos m) + e <= 1023 ->
  match binary_round_aux prec emax s (Zpos m) e loc_Exact with
  | S754_zero _ => True
  | S754_finite _ m' e' =>
      Zpos (digits2_pos m') + e' <= Z.max (Zpos (digits2_pos m) + e + 1) (-1073)
  | _ => False
  end.
Proof.
  intros He Hmag. unfold binary_round_aux, shr_fexp.
  set (n1 := fexp prec emax (Zdigits2 (Zpos m) + e) - e).
  destruct (shr_spec (shr_record_of_loc (Zpos m) loc_Exact) e n1) as [Hm1 He1];
    [cbn; lia |].
  destruct (shr (shr_record_of_loc (Zpos m) loc_Exact) e n1) as [mrs1 e1].
  cbn [fst snd] in Hm1, He1. rewrite shr_record_of_loc_m in Hm1.
  set (m1 := round_nearest_even (shr_m mrs1) (loc_of_shr_record mrs1)).
  pose proof (round_nearest_even_bounds (shr_m mrs1) (loc_of_shr_record mrs1)) as Hr.
  fold m1 in Hr.
  set (n2 := fexp prec emax (Zdigits2 m1 + e1) - e1).
  pose proof (Zdigits2_lt (Zpos m) ltac:(lia)) as Hd. cbn [Zdigits2] in Hd.
  set (d := Zpos (digits2_pos m)) in *.
  assert (Hdpos : 1 <= d) by (unfold d; lia).
  pose proof (div_pow2_lt (Zpos m) (Z.max n1 0) d ltac:(lia) ltac:(lia) ltac:(lia)) as Hq.
  rewrite <- Hm1 in Hq.
  assert (Hm1lt : 0 <= m1 < 2 ^ (Z.max (d - Z.max n1 0) 0 + 1)).
  { rewrite Z.pow_add_r, Z.pow_1_r by lia.
    pose proof (Z.pow_pos_nonneg 2 (Z.max (d - Z.max n1 0) 0)). lia. }
  pose proof (Zdigits2_le m1 (Z.max (d - Z.max n1 0) 0 + 1) ltac:(lia) Hm1lt) as HD1.
  pose proof (Zdigits2_nonneg m1) as HD1'.
  destruct (shr_spec (shr_record_of_loc m1 loc_Exact) e1 n2) as [Hm2 He2];
    [cbn; lia |].
  destruct (shr (shr_record_of_loc m1 loc_Exact) e1 n2) as [mrs2 e2].
  cbn [fst snd] in Hm2, He2. rewrite shr_record_of_loc_m in Hm2.
  pose proof (Zdigits2_lt m1 ltac:(lia)) as Hd1.
  pose proof (div_pow2_lt m1 (Z.max n2 0) (Zdigits2 m1) ltac:(lia) ltac:(lia) ltac:(lia)) as Hq2.
  rewrite <- Hm2 in Hq2.
  assert (Hn1 : n1 = Z.max (d + e - 53) (-1074) - e) by reflexivity.
  assert (Hn2 : n2 = Z.max (Zdigits2 m1 + e1 - 53) (-1074) - e1) by reflexivity.
  clearbody n1 n2 m1 d.
  destruct (shr_m mrs2) as [| p | p] eqn:Em; [exact I | | lia].
  assert (He2' : e2 <= 971) by lia.
  change (emax - prec) with 971.
  apply Z.leb_le in He2'. rewrite He2'.
  pose proof (Zdigits2_le (Zpos p) (Z.max (Zdigits2 m1 - Z.max n2 0) 0) ltac:(lia) Hq2) as HD2. cbn [Zdigits2] in HD2.
  lia.
Qed.

Lemma binary_round_aux_valid_sign (s s' : bool) (m e : Z) (l : location) :
  valid_binary (binary_round_aux prec emax s m e l) =
  valid_binary (binary_round_aux prec emax s' m e l).
Proof.
  unfold binary_round_aux. destruct (shr_fexp prec emax m e l) as [mrs1 e1].
  destruct (shr_fexp prec emax _ e1 loc_Exact) as [mrs2 e2].
  destruct (shr_m mrs2); try reflexivity.
  destruct (e2 <=? emax - prec); reflexivity.
Qed.

(** The binary64 value of an [int64] is what [binary_normalize] says. *)
Lemma Prim2SF_of_Z (z : Z) :
  Z.abs z < 2 ^ 63 -> Prim2SF (of_Z z) = binary_normalize prec emax z 0 false.
Proof.
  intros Hz. unfold of_Z. apply Prim2SF_SF2Prim.
  assert (Hpos : forall p, Zpos p < 2 ^ 63 ->
            valid_binary (binary_normalize prec emax (Zpos p) 0 false) = true).
  { intros p Hp. rewrite <- (Z.mod_small (Zpos p) Uint63.wB) by (change Uint63.wB with (2 ^ 63); lia).
    rewrite <- Uint63.of_Z_spec, <- of_uint63_spec. apply Prim2SF_valid. }
  destruct z as [| p | p]; [reflexivity | apply Hpos; lia |].
  cbn [binary_normalize]. unfold binary_round.
  destruct (shl_align p 0 _) as [mz ez] eqn:E.
  rewrite (binary_round_aux_valid_sign true false).
  specialize (Hpos p ltac:(lia)). cbn [binary_normalize] in Hpos.
  unfold binary_round in Hpos. rewrite E in Hpos. exact Hpos.
Qed.

Lemma digits2_pos_iter_xO (m d : positive) :
  Zpos (digits2_pos (Pos.iter xO m d)) = Zpos (digits2_pos m) + Zpos d.
Proof.
  induction d as [| d IH] using Pos.peano_ind.
  - cbn. lia.
  - rewrite Pos.iter_succ. cbn [digits2_pos]. lia.
Qed.

Lemma binary_normalize_small (z : Z) :
  Z.abs z < 2 ^ 63 -> small 64 (binary_normalize prec emax z 0 false).
Proof.
  intros Hz.
  assert (H : forall s p, Zpos p < 2 ^ 63 -> small 64 (binary_round prec emax s p 0)).
  { intros s p Hp. unfold binary_round.
    pose proof (Zdigits2_le (Zpos p) 63 ltac:(lia) ltac:(lia)) as Hd. cbn [Zdigits2] in Hd.
    destruct (shl_align p 0 _) as [mz ez] eqn:E.
    assert (Hmz : ez <= 0 /\ Zpos (digits2_pos mz) + ez = Zpos (digits2_pos p)).
    { unfold shl_align in E.
      destruct (fexp prec emax (Zpos (digits2_pos p) + 0) - 0) as [| q | q] eqn:Eq;
        injection E as <- <-; try lia.
      rewrite digits2_pos_iter_xO. rewrite ?Z.add_0_r in *. lia. }
    pose proof (binary_round_aux_finite s mz ez ltac:(lia) ltac:(lia)) as Hr.
    unfold small. destruct (binary_round_aux prec emax s (Zpos mz) ez loc_Exact); auto. lia. }
  destruct z as [| p | p]; [exact I | apply H; lia | apply H; lia].
Qed.

Lemma valid_digits (s : bool) (m : positive) (e : Z) :
  valid_binary (S754_finite s m e) = true ->
  e = Z.max (Zpos (digits2_pos m) + e - 53) (-1074).
Proof.
  cbn. unfold bounded, canonical_mantissa, fexp. intros H.
  apply andb_prop in H as [H _]. apply Z.eqb_eq in H.
  symmetry. exact H.
Qed.

Lemma SFmul_small (x y : spec_float) (bx by_ : Z) :
  small bx x -> small by_ y -> valid_binary x = true -> valid_binary y = true ->
  bx + by_ <= 1023 -> bx <= 900 -> by_ <= 900 ->
  small (Z.max (bx + by_ + 1) (-1073)) (SFmul prec emax x y).
Proof.
  intros Hx Hy Vx Vy Hb Hbx Hby.
  destruct x as [sx | sx | | sx mx ex], y as [sy | sy | | sy my ey]; cbn [small] in Hx, Hy; try tauto;
    try exact I.
  cbn [SFmul].
  pose proof (valid_digits _ _ _ Vx) as Dx. pose proof (valid_digits _ _ _ Vy) as Dy.
  pose proof (Zdigits2_lt (Zpos mx) ltac:(lia)) as Lx. cbn [Zdigits2] in Lx.
  pose proof (Zdigits2_lt (Zpos my) ltac:(lia)) as Ly. cbn [Zdigits2] in Ly.
  assert (Hprod : Zpos (digits2_pos (mx * my)) <= Zpos (digits2_pos mx) + Zpos (digits2_pos my)).
  { apply (Zdigits2_le (Zpos (mx * my))); [lia |]. split; [lia |].
    rewrite Z.pow_add_r by lia. rewrite Pos2Z.inj_mul. nia. }
  assert (He : ex + ey <= 971) by lia.
  assert (Hm : Zpos (digits2_pos (mx * my)) + (ex + ey) <= 1023) by lia.
  pose proof (binary_round_aux_finite (xorb sx sy) (mx * my) (ex + ey) He Hm) as Hr.
  unfold small. destruct (binary_round_aux prec emax (xorb sx sy) (Zpos (mx * my)) (ex + ey) loc_Exact); auto.
  lia.
Qed.

Lemma py_int_small (bound : Z) (x : float) :
  small bound (Prim2SF x) -> returns (py_int x).
Proof.
  unfold py_int, small, returns. destruct (Prim2SF x); try tauto; intros _; eexists; reflexivity.
Qed.

(** A float between 0.5 and 3 is a positive finite number below 4. *)
Lemma between_half_three_small (q : float) :
  (0.5 <=? q)%float = true -> (q <=? 3.0)%float = true -> small 2 (Prim2SF q).
Proof.
  rewrite !leb_spec. unfold SFleb.
  change (Prim2SF 0.5%float) with (S754_finite false 4503599627370496 (-53)).
  change (Prim2SF 3.0%float) with (S754_finite false 6755399441055744 (-51)).
  pose proof (Prim2SF_valid q) as V.
  destruct (Prim2SF q) as [[] | [] | | [] m e]; cbn [SFcompare]; try discriminate.
  intros _ H. apply valid_digits in V. cbn [small].
  destruct (e ?= -51) eqn:E; try discriminate;
    rewrite ?Z.compare_eq_iff, ?Z.compare_lt_iff in E; lia.
Qed.

(** Scaling an [int64] by a factor between 0.5 and 3 gives a finite float,
    which [int] converts. *)
Lemma of_Z_int64_small (z : Z) : is_int64 z -> small 64 (Prim2SF (of_Z z)).
Proof.
  unfold is_int64. intros Hz.
  destruct (Z.eq_dec z (- 2 ^ 63)) as [-> | Hne].
  - vm_compute. discriminate.
  - assert (Habs : Z.abs z < 2 ^ 63) by lia.
    rewrite Prim2SF_of_Z by exact Habs. now apply binary_normalize_small.
Qed.

Lemma py_int_scaled_returns (z : Z) (q : float) :
  is_int64 z -> (0.5 <=? q)%float = true -> (q <=? 3.0)%float = true ->
  returns (py_int (of_Z z * q)%float).
Proof.
  intros Hz Hlo Hhi.
  apply (py_int_small 67). rewrite mul_spec.
  apply (SFmul_small _ _ 64 2); try lia.
  - now apply of_Z_int64_small.
  - now apply between_half_three_small.
  - apply Prim2SF_valid.
  - apply Prim2SF_valid.
Qed.

Lemma Zdigits2_ge (z : Z) : 0 < z -> 2 ^ (Zdigits2 z - 1) <= z.
Proof.
  intros Hz. rewrite Zdigits2_log2 by lia.
  replace (Z.log2 z + 1 - 1) with (Z.log2 z) by lia. apply Z.log2_spec. lia.
Qed.

Lemma Zdigits2_eq (z k : Z) : 0 < k -> 2 ^ (k - 1) <= z < 2 ^ k -> Zdigits2 z = k.
Proof.
  intros Hk [Hlo Hhi].
  assert (Hz : 0 < z) by (pose proof (Z.pow_pos_nonneg 2 (k - 1)); lia).
  rewrite Zdigits2_log2 by lia.
  rewrite (Z.log2_unique z (k - 1)); [lia | lia |].
  replace (Z.succ (k - 1)) with k by lia. lia.
Qed.

(** A mantissa of 53 digits in the normal range is its own rounding. *)
Lemma binary_round_aux_exact (s : bool) (m : positive) (e : Z) :
  Zpos (digits2_pos m) = 53 -> -1074 <= e <= 971 ->
  binary_round_aux prec emax s (Zpos m) e loc_Exact = S754_finite s m e.
Proof.
  intros Hd He. unfold binary_round_aux, shr_fexp. cbn [Zdigits2]. rewrite Hd.
  assert (Hn : fexp prec emax (53 + e) - e = 0)
    by (unfold fexp, SpecFloat.emin; change prec with 53; change emax with 1024; lia).
  rewrite Hn. cbn [shr shr_record_of_loc shr_m loc_of_shr_record round_nearest_even].
  cbn [Zdigits2]. rewrite Hd, Hn. cbn [shr shr_record_of_loc shr_m].
  change (emax - prec) with 971.
  destruct (Z.leb_spec e 971); [reflexivity | lia].
Qed.

Lemma Zpos_iter_xO (m k : positive) :
  Zpos (Pos.iter xO m k) = Zpos m * 2 ^ Zpos k.
Proof.
  induction k as [| k IH] using Pos.peano_ind.
  - cbn. lia.
  - rewrite Pos.iter_succ, Pos2Z.inj_xO, IH, Pos2Z.inj_succ, Z.pow_succ_r by lia. ring.
Qed.

(** The float of a positive integer below [2^53] is that integer. *)
Lemma binary_normalize_exact (p : positive) :
  Zpos p < 2 ^ 53 ->
  exists m e,
    binary_normalize prec emax (Zpos p) 0 false = S754_finite false m e /\
    Zpos (digits2_pos m) = 53 /\ -52 <= e <= 0 /\ Zpos m = Zpos p * 2 ^ (- e).
Proof.
  intros Hp. cbn [binary_normalize]. unfold binary_round.
  pose proof (Zdigits2_le (Zpos p) 53 ltac:(lia) ltac:(lia)) as Hd. cbn [Zdigits2] in Hd.
  set (d := Zpos (digits2_pos p)) in *.
  assert (Hd1 : 1 <= d) by (unfold d; lia).
  assert (Hf : fexp prec emax (d + 0) = d - 53)
    by (unfold fexp, SpecFloat.emin; change prec with 53; change emax with 1024; lia).
  rewrite Hf. unfold shl_align.
  destruct (d - 53 - 0) as [| q | q] eqn:Eq; try lia.
  - exists p, 0. rewrite binary_round_aux_exact by (fold d; lia).
    repeat split; lia.
  - assert (Hdig : Zpos (digits2_pos (Pos.iter xO p q)) = 53)
      by (rewrite digits2_pos_iter_xO; fold d; lia).
    exists (Pos.iter xO p q), (d - 53).
    rewrite binary_round_aux_exact by (try exact Hdig; lia).
    repeat split; try lia; try exact Hdig.
    rewrite Zpos_iter_xO. f_equal. f_equal. lia.
Qed.

(** A float between 0.5 and 3: a normal positive number [m * 2^e] with
    [0.5 <= m * 2^e <= 3]. *)
Lemma between_half_three_shape (q : float) :
  (0.5 <=? q)%float = true -> (q <=? 3.0)%float = true ->
  exists m e,
    Prim2SF q = S754_finite false m e /\
    Zpos (digits2_pos m) = 53 /\ -53 <= e <= -51 /\
    2 ^ (- e - 1) <= Zpos m <= 3 * 2 ^ (- e).
Proof.
  rewrite !leb_spec. unfold SFleb.
  change (Prim2SF 0.5%float) with (S754_finite false 4503599627370496 (-53)).
  change (Prim2SF 3.0%float) with (S754_finite false 6755399441055744 (-51)).
  pose proof (Prim2SF_valid q) as V.
  destruct (Prim2SF q) as [[] | [] | | [] m e]; cbn [SFcompare]; try discriminate.
  intros Hlo Hhi. apply valid_digits in V.
  pose proof (Zdigits2_lt (Zpos m) ltac:(lia)) as Hm. cbn [Zdigits2] in Hm.
  assert (He : -53 <= e <= -51).
  { destruct (-53 ?= e) eqn:E1; try discriminate; destruct (e ?= -51) eqn:E2; try discriminate;
      rewrite ?Z.compare_eq_iff, ?Z.compare_lt_iff in *; lia. }
  assert (Hd : Zpos (digits2_pos m) = 53) by lia.
  rewrite Hd in Hm.
  pose proof (Zdigits2_ge (Zpos m) ltac:(lia)) as Hge. cbn [Zdigits2] in Hge.
  rewrite Hd in Hge. change (2 ^ (53 - 1)) with 4503599627370496 in Hge.
  change (2 ^ 53) with 9007199254740992 in Hm.
  exists m, e. split; [reflexivity |]. split; [exact Hd |]. split; [exact He |].
  assert (Hcases : e = -53 \/ e = -52 \/ e = -51) by lia.
  destruct Hcases as [-> | [-> | ->]].
  - change (2 ^ (- -53 - 1)) with 4503599627370496.
    change (2 ^ (- -53)) with 9007199254740992. lia.
  - change (2 ^ (- -52 - 1)) with 2251799813685248.
    change (2 ^ (- -52)) with 4503599627370496. lia.
  - change (2 ^ (- -51 - 1)) with 1125899906842624.
    change (2 ^ (- -51)) with 2251799813685248.
    rewrite Z.compare_refl in Hhi.
    rewrite Pos.compare_cont_spec in Hhi. cbn [Pos.switch_Eq] in Hhi.
    destruct (Pos.compare_spec m 6755399441055744) as [E | E | E]; try discriminate.
    + subst m. lia.
    + apply Pos2Z.pos_lt_pos in E. lia.
Qed.

(** Rounding a product in the normal range and below [2^52]: the integer
    part of the result is the integer part of the product's leading 53
    digits, possibly raised by one unit in the last place. *)
Lemma binary_round_aux_trunc (m : positive) (e : Z) :
  let d := Zpos (digits2_pos m) in
  53 < d -> -1074 <= d + e - 53 -> d + e <= 52 ->
  exists m2 e2 m1,
    binary_round_aux prec emax false (Zpos m) e loc_Exact = S754_finite false m2 e2 /\
    Zpos m / 2 ^ (d - 53) <= m1 <= Zpos m / 2 ^ (d - 53) + 1 /\
    Z.shiftl (Zpos m2) e2 = m1 / 2 ^ (53 - d - e).
Proof.
  intros d Hd Hlo Hhi. unfold binary_round_aux, shr_fexp.
  assert (Hn1 : fexp prec emax (Zdigits2 (Zpos m) + e) - e = d - 53).
  { cbn [Zdigits2]. fold d. unfold fexp, SpecFloat.emin.
    change prec with 53. change emax with 1024. lia. }
  rewrite Hn1.
  destruct (shr_spec (shr_record_of_loc (Zpos m) loc_Exact) e (d - 53)) as [Hm1 He1];
    [cbn; lia |].
  destruct (shr (shr_record_of_loc (Zpos m) loc_Exact) e (d - 53)) as [mrs1 e1].
  cbn [fst snd] in Hm1, He1. rewrite shr_record_of_loc_m in Hm1.
  rewrite Z.max_l in Hm1, He1 by lia.
  set (m1 := round_nearest_even (shr_m mrs1) (loc_of_shr_record mrs1)).
  pose proof (round_nearest_even_bounds (shr_m mrs1) (loc_of_shr_record mrs1)) as Hr.
  fold m1 in Hr. rewrite Hm1 in Hr.
  (* the leading digits have 53 bits *)
  pose proof (Zdigits2_lt (Zpos m) ltac:(lia)) as Hlt. cbn [Zdigits2] in Hlt. fold d in Hlt.
  pose proof (Zdigits2_ge (Zpos m) ltac:(lia)) as Hge. cbn [Zdigits2] in Hge. fold d in Hge.
  assert (Hpow : 0 < 2 ^ (d - 53)) by (apply Z.pow_pos_nonneg; lia).
  assert (Hq : 2 ^ 52 <= Zpos m / 2 ^ (d - 53) < 2 ^ 53).
  { split.
    - apply Z.div_le_lower_bound; [lia |].
      rewrite <- Z.pow_add_r by lia. replace (d - 53 + 52) with (d - 1) by lia. exact Hge.
    - apply Z.div_lt_upper_bound; [lia |].
      rewrite <- Z.pow_add_r by lia. replace (d - 53 + 53) with d by lia. exact Hlt. }
  set (q := Zpos m / 2 ^ (d - 53)) in *.
  set (s := 53 - d - e). assert (Hs : 1 <= s) by (unfold s; lia).
  assert (He1' : e1 = - s) by (unfold s; lia).
  destruct (Z.eq_dec m1 (2 ^ 53)) as [Htop | Hntop].
  - (* the rounding carried into a 54th digit *)
    assert (Hn2 : fexp prec emax (Zdigits2 m1 + e1) - e1 = 1).
    { rewrite Htop. change (Zdigits2 (2 ^ 53)) with 54. unfold fexp, SpecFloat.emin.
      change prec with 53. change emax with 1024. lia. }
    rewrite Hn2. rewrite Htop.
    cbn [shr shr_record_of_loc SpecFloat.iter_pos shr_1 shr_m].
    change (shr_m (shr_1 {| shr_m := 2 ^ 53; shr_r := false; shr_s := false |}))
      with 4503599627370496.
    change (emax - prec) with 971.
    destruct (Z.leb_spec (e1 + 1) 971); [| lia].
    exists 4503599627370496%positive, (e1 + 1), m1.
    split; [reflexivity |]. split; [exact Hr |].
    rewrite Htop, He1', Z.shiftl_div_pow2 by lia.
    replace (- (- s + 1)) with (s - 1) by lia.
    replace (2 ^ s) with (2 * 2 ^ (s - 1))
      by (rewrite <- Z.pow_succ_r by lia; f_equal; lia).
    rewrite <- Z.div_div by (try apply Z.pow_pos_nonneg; lia). reflexivity.
  - assert (Hdig : Zdigits2 m1 = 53).
    { apply Zdigits2_eq; [lia |]. change (2 ^ (53 - 1)) with (2 ^ 52). lia. }
    assert (Hn2 : fexp prec emax (Zdigits2 m1 + e1) - e1 = 0).
    { rewrite Hdig. unfold fexp, SpecFloat.emin.
      change prec with 53. change emax with 1024. lia. }
    rewrite Hn2. cbn [shr]. rewrite shr_record_of_loc_m.
    destruct m1 as [| p | p] eqn:Em1; try (pose proof (Z.pow_pos_nonneg 2 52); lia).
    change (emax - prec) with 971.
    destruct (Z.leb_spec e1 971); [| lia].
    exists p, e1, (Zpos p). split; [reflexivity |]. split; [exact Hr |].
    rewrite He1', Z.shiftl_div_pow2 by lia. f_equal. f_equal. lia.
Qed.

(** The integer part of an integer below [2^50] scaled by a factor between
    0.5 and 3 stays between half the integer, rounded down, and three
    times the integer. *)
Lemma py_int_scaled_bounds (z : Z) (q : float) (c : Z) :
  0 <= z < 2 ^ 50 ->
  (0.5 <=? q)%float = true -> (q <=? 3.0)%float = true ->
  py_int (of_Z z * q)%float = ret c ->
  z <= 2 * c + 1 /\ c <= 3 * z.
Proof.
  intros Hz Hlo Hhi Hc.
  destruct (between_half_three_shape q Hlo Hhi) as (mq & eq & Eq & Dq & Heq & Hq).
  unfold py_int in Hc. rewrite mul_spec, Eq in Hc.
  rewrite Prim2SF_of_Z in Hc by (change (2 ^ 63) with 9223372036854775808;
                                  change (2 ^ 50) with 1125899906842624 in Hz; lia).
  destruct z as [| p | p]; [| | lia].
  - cbn in Hc. injection Hc as <-. lia.
  - destruct (binary_normalize_exact p) as (mx & ex & Ex & Dx & Hex & Hx).
    { change (2 ^ 50) with 1125899906842624 in Hz.
      change (2 ^ 53) with 9007199254740992. lia. }
    rewrite Ex in Hc. cbn [SF64mul SFmul xorb] in Hc.
    set (m := (mx * mq)%positive) in *. set (e := ex + eq) in *.
    set (d := Zpos (digits2_pos m)).
    assert (Hpe : 0 < 2 ^ (- ex)) by (apply Z.pow_pos_nonneg; lia).
    assert (Hpq : 0 < 2 ^ (- eq)) by (apply Z.pow_pos_nonneg; lia).
    assert (Hpow : 2 ^ (- e) = 2 ^ (- ex) * 2 ^ (- eq))
      by (unfold e; rewrite <- Z.pow_add_r by lia; f_equal; lia).
    assert (Hpow' : 2 ^ (- eq) = 2 * 2 ^ (- eq - 1))
      by (rewrite <- Z.pow_succ_r by lia; f_equal; lia).
    assert (Hm : Zpos m = Zpos p * 2 ^ (- ex) * Zpos mq)
      by (unfold m; rewrite Pos2Z.inj_mul, Hx; reflexivity).
    assert (Hup : Zpos m <= 3 * Zpos p * 2 ^ (- e)) by (rewrite Hm, Hpow; nia).
    assert (Hdn : Zpos p * 2 ^ (- ex) * 2 ^ (- eq - 1) <= Zpos m) by (rewrite Hm; nia).
    (* the digits of the product *)
    assert (Hd1 : 53 < d).
    { destruct (Z.le_gt_cases d 53) as [Hle | Hgt]; [exfalso | lia].
      pose proof (Zdigits2_lt (Zpos m) ltac:(lia)) as Hlt. cbn [Zdigits2] in Hlt. fold d in Hlt.
      assert (2 ^ d <= 2 ^ 53) by (apply Z.pow_le_mono_r; lia).
      pose proof (Zdigits2_ge (Zpos mx) ltac:(lia)) as Gx. cbn [Zdigits2] in Gx.
      pose proof (Zdigits2_ge (Zpos mq) ltac:(lia)) as Gq. cbn [Zdigits2] in Gq.
      rewrite Dx in Gx. rewrite Dq in Gq.
      change (2 ^ (53 - 1)) with 4503599627370496 in Gx, Gq.
      change (2 ^ 53) with 9007199254740992 in H.
      unfold m in Hlt. rewrite Pos2Z.inj_mul in Hlt. nia. }
    assert (Hd2 : d + e <= 52).
    { assert (Hlt : Zpos m < 2 ^ (52 - e)).
      { replace (52 - e) with (52 + - e) by lia. rewrite Z.pow_add_r by lia.
        assert (0 < 2 ^ (- e)) by (apply Z.pow_pos_nonneg; lia).
        change (2 ^ 50) with 1125899906842624 in Hz.
        change (2 ^ 52) with 4503599627370496. nia. }
      pose proof (Zdigits2_le (Zpos m) (52 - e) ltac:(lia) ltac:(lia)) as Hle.
      cbn [Zdigits2] in Hle. fold d in Hle. lia. }
    destruct (binary_round_aux_trunc m e ltac:(fold d; lia) ltac:(fold d; lia)
                ltac:(fold d; lia)) as (m2 & e2 & m1 & Hres & Hm1 & Hsh).
    fold d in Hm1, Hsh. rewrite Hres in Hc. cbn [cond_Zopp] in Hc.
    injection Hc as <-. rewrite Hsh.
    set (s := 53 - d - e) in *. assert (Hs : 1 <= s) by (unfold s; lia).
    assert (HA : 0 < 2 ^ (d - 53)) by (apply Z.pow_pos_nonneg; lia).
    assert (HB : 0 < 2 ^ (s - 1)) by (apply Z.pow_pos_nonneg; lia).
    assert (HBs : 2 ^ s = 2 * 2 ^ (s - 1))
      by (rewrite <- Z.pow_succ_r by lia; f_equal; lia).
    assert (Hsplit : 2 ^ (- e) = 2 ^ s * 2 ^ (d - 53))
      by (rewrite <- Z.pow_add_r by lia; f_equal; unfold s; lia).
    assert (Hsplit' : 2 ^ (- ex) * 2 ^ (- eq - 1) = 2 ^ (s - 1) * 2 ^ (d - 53)).
    { rewrite <- !Z.pow_add_r by lia. f_equal. unfold s, e. lia. }
    assert (Hq_up : Zpos m / 2 ^ (d - 53) <= 3 * Zpos p * 2 ^ s).
    { apply Z.div_le_upper_bound; [lia |]. rewrite Hsplit in Hup. nia. }
    assert (Hq_dn : Zpos p * 2 ^ (s - 1) <= Zpos m / 2 ^ (d - 53)).
    { apply Z.div_le_lower_bound; [lia |].
      replace (2 ^ (d - 53) * (Zpos p * 2 ^ (s - 1)))
        with (Zpos p * (2 ^ (s - 1) * 2 ^ (d - 53))) by ring.
      rewrite <- Hsplit'. lia. }
    split.
    + assert (Zpos p * 2 ^ (s - 1) / 2 ^ s <= m1 / 2 ^ s)
        by (apply Z.div_le_mono; lia).
      rewrite HBs in H at 1.
      rewrite Z.div_mul_cancel_r in H by lia.
      pose proof (Z.div_mod (Zpos p) 2 ltac:(lia)).
      pose proof (Z.mod_pos_bound (Zpos p) 2 ltac:(lia)). lia.
    + assert (m1 / 2 ^ s <= (3 * Zpos p * 2 ^ s + 1) / 2 ^ s)
        by (apply Z.div_le_mono; lia).
      rewrite Z.div_add_l in H by lia.
      rewrite (Z.div_small 1 (2 ^ s)) in H by lia. lia.
Qed.

End FloatRounding.

(** ** The target calculator *)

Section SaveProfile.

Local Open Scope string_scope.
Local Open Scope float_scope.

Lemma act_map_factor (word : string) :
  dict_get act_map word 1.2 = Spec.activity_factor word.
Proof.
  unfold dict_get, Spec.activity_factor, act_map.
  destruct (String.eqb_spec word "Sedentary") as [-> | ?]; [reflexivity |].
  rewrite lookup_insert_ne by congruence.
  destruct (String.eqb_spec word "Lightly") as [-> | ?]; [reflexivity |].
  rewrite lookup_insert_ne by congruence.
  destruct (String.eqb_spec word "Moderately") as [-> | ?]; [reflexivity |].
  rewrite lookup_insert_ne by congruence.
  destruct (String.eqb_spec word "Very") as [-> | ?]; [reflexivity |].
  rewrite lookup_insert_ne by congruence.
  destruct (String.eqb_spec word "Super") as [-> | ?]; [reflexivity |].
  rewrite lookup_insert_ne by congruence.
  now rewrite lookup_empty.
Qed.

(** The code's branch on the goal is the table of offsets and triples. *)
Lemma save_profile_unfold (name : string) (age : Z) (gender : string)
    (height weight : float) (activity goal : string) (water_goal : Z) :
  save_profile name age gender height weight activity goal water_goal =
  (age5 <- float_of_int (5 * age) ;;
   word <- getitem (split activity) 0 ;;
   let target := Spec.target_energy age5 gender height weight word goal in
   rec_prot <- Spec.protein_grams_truncated target (macros_1 (Spec.goal_macros goal)) ;;
   calories <- py_int target ;;
   ret {| Name := name; Age := age; Gender := gender; Height := height;
          Start_Weight := weight; Current_Weight := weight;
          Activity := activity; Goal := goal;
          Targets := {| Calories := calories; Protein := rec_prot;
                        Water := water_goal;
                        Macros_Split := Spec.goal_macros goal |} |}).
Proof.
  unfold save_profile, Spec.target_energy, Spec.goal_adjust, Spec.goal_macros,
    Spec.basal_rate, Spec.protein_grams_truncated.
  destruct (float_of_int (5 * age)) as [e | age5]; [reflexivity | cbn].
  destruct (getitem (split activity) 0) as [e | word]; [reflexivity | cbn].
  rewrite act_map_factor.
  destruct (String.eqb gender "Male");
    destruct (String.eqb goal "Weight Loss"); [reflexivity | | reflexivity | ];
    (destruct (String.eqb goal "Weight Gain"); [reflexivity |]);
    (destruct (String.eqb goal "Muscle Gain"); reflexivity).
Qed.

(** A profile is produced exactly when the three conversions succeed and
    the label has a first word. *)
Lemma save_profile_returns (name : string) (age : Z) (gender : string)
    (height weight : float) (activity goal : string) (water_goal : Z) :
  returns (save_profile name age gender height weight activity goal water_goal) <->
  exists age5 word,
    float_of_int (5 * age) = ret age5 /\
    nth_error (split activity) 0 = Some word /\
    returns (Spec.protein_grams_truncated
               (Spec.target_energy age5 gender height weight word goal)
               (macros_1 (Spec.goal_macros goal))) /\
    returns (py_int (Spec.target_energy age5 gender height weight word goal)).
Proof.
  rewrite save_profile_unfold. unfold returns. split.
  - intros [p H]. bind_inv H as age5 Ha. bind_inv H as word Hw. cbn zeta in H.
    bind_inv H as prot Hp. bind_inv H as cal Hc. apply getitem_0 in Hw.
    exists age5, word. eauto 8.
  - intros (age5 & word & Ha & Hw & [prot Hp] & [cal Hc]).
    apply getitem_0 in Hw. rewrite Ha. cbn. rewrite Hw. cbn.
    rewrite Hp. cbn. rewrite Hc. cbn. eauto.
Qed.

Lemma save_profile_fields (name : string) (age : Z) (gender : string)
    (height weight : float) (activity goal : string) (water_goal : Z) (p : profile) :
  save_profile name age gender height weight activity goal water_goal = ret p ->
  exists age5 word,
    float_of_int (5 * age) = ret age5 /\
    nth_error (split activity) 0 = Some word /\
    Spec.protein_grams_truncated
      (Spec.target_energy age5 gender height weight word goal)
      (macros_1 (Spec.goal_macros goal)) = ret (Protein (Targets p)) /\
    py_int (Spec.target_energy age5 gender height weight word goal)
      = ret (Calories (Targets p)) /\
    Macros_Split (Targets p) = Spec.goal_macros goal.
Proof.
  rewrite save_profile_unfold. intros H.
  bind_inv H as age5 Ha. bind_inv H as word Hw. cbn zeta in H.
  bind_inv H as prot Hp. bind_inv H as cal Hc. apply getitem_0 in Hw.
  injection H as <-. cbn. exists age5, word. auto.
Qed.

Lemma save_profile_no_word (name : string) (age : Z) (gender : string)
    (height weight : float) (activity goal : string) (water_goal : Z) :
  split activity = [] -> returns (float_of_int (5 * age)) ->
  save_profile name age gender height weight activity goal water_goal = raise IndexError.
Proof.
  intros Hs [age5 Ha]. rewrite save_profile_unfold, Ha, Hs. reflexivity.
Qed.

(** C1, counterexample.  With a goal other than weight loss the protein
    grams are not those of the first component: for a 25-year-old man of
    170 cm and 70 kg, moderately active, gaining weight, the profile holds
    3045 kcal and 190 g, where the stated formula gives 381 g.  And the
    value is truncated, not rounded: lightly active and losing weight, the
    profile holds 1758 kcal and 175 g, where rounding gives 176 g. *)
Lemma save_profile_protein_not_as_specified :
  (exists p,
     save_profile "User" 25 "Male" 170 70 "Moderately Active" "Weight Gain" 2500 = ret p /\
     Calories (Targets p) = 3045%Z /\ Protein (Targets p) = 190%Z /\
     Spec.protein_grams_as_specified (Calories (Targets p))
       (Spec.first_component (Macros_Split (Targets p))) = ret 381%Z) /\
  (exists p,
     save_profile "User" 25 "Male" 170 70 "Lightly Active" "Weight Loss" 2500 = ret p /\
     Calories (Targets p) = 1758%Z /\ Protein (Targets p) = 175%Z /\
     Spec.protein_grams_as_specified (Calories (Targets p))
       (Spec.first_component (Macros_Split (Targets p))) = ret 176%Z).
Proof.
  split; eexists; (split; [vm_compute; reflexivity |]); cbn; repeat split; vm_compute; reflexivity.
Qed.

(** C1, as the code has it.  Whenever [save_profile] produces a profile,
    its protein grams are [int(target x (percent / 100) / 4)]: the target
    energy before truncation, times the second component of the goal's
    triple (40, 25, 35 and 20 for the four goals), truncated toward zero;
    and a profile is produced exactly when the label has a first word and
    the conversions succeed. *)
Theorem save_profile_protein_grams (name : string) (age : Z) (gender : string)
    (height weight : float) (activity goal : string) (water_goal : Z) :
  (forall p,
     save_profile name age gender height weight activity goal water_goal = ret p ->
     exists age5 word,
       float_of_int (5 * age) = ret age5 /\
       nth_error (split activity) 0 = Some word /\
       Spec.protein_grams_truncated
         (Spec.target_energy age5 gender height weight word goal)
         (snd (fst (Macros_Split (Targets p)))) = ret (Protein (Targets p)) /\
       Macros_Split (Targets p) = Spec.goal_macros goal) /\
  (returns (save_profile name age gender height weight activity goal water_goal) <->
   exists age5 word,
     float_of_int (5 * age) = ret age5 /\
     nth_error (split activity) 0 = Some word /\
     returns (Spec.protein_grams_truncated
                (Spec.target_energy age5 gender height weight word goal)
                (snd (fst (Spec.goal_macros goal)))) /\
     returns (py_int (Spec.target_energy age5 gender height weight word goal))) /\
  snd (fst (Spec.goal_macros "Weight Loss")) = 40%Z /\
  snd (fst (Spec.goal_macros "Weight Gain")) = 25%Z /\
  snd (fst (Spec.goal_macros "Muscle Gain")) = 35%Z /\
  snd (fst (Spec.goal_macros "Maintain")) = 20%Z.
Proof.
  split; [| split; [apply save_profile_returns | repeat split]].
  intros p H. destruct (save_profile_fields _ _ _ _ _ _ _ _ _ H)
    as (age5 & word & Ha & Hw & Hp & _ & Hm).
  exists age5, word. rewrite Hm. auto.
Qed.

(** C2, counterexample.  The worked example does not come out as stated:
    the profile of a 25-year-old man of 170 cm and 70 kg, moderately
    active and losing weight, holds 2045 kcal and 204 g of protein, not
    2093 kcal and 209 g (the basal rate is 1642.5, not 1673.5).  And a
    label without a word is not given the default factor: the call raises
    [IndexError]. *)
Lemma save_profile_example_not_2093 :
  rmap (fun p => (Calories (Targets p), Protein (Targets p)))
    (save_profile "User" 25 "Male" 170 70 "Moderately Active" "Weight Loss" 2500)
    = ret (2045, 204)%Z /\
  rmap (fun p => (Calories (Targets p), Protein (Targets p)))
    (save_profile "User" 25 "Male" 170 70 "Moderately Active" "Weight Loss" 2500)
    <> ret (2093, 209)%Z /\
  Spec.basal_rate (of_Z (5 * 25)) "Male" 170 70 = 1642.5 /\
  save_profile "User" 25 "Male" 170 70 "" "Weight Loss" 2500 = raise IndexError.
Proof.
  repeat split; try (vm_compute; reflexivity).
  vm_compute. discriminate.
Qed.

(** C2, as the code has it.  Whenever [save_profile] produces a profile,
    its target calories are the truncation of the Mifflin-St Jeor basal
    rate, times the factor of the label's first word, offset by the goal;
    a profile is produced exactly when the label has a first word and the
    conversions succeed, a label with no word raising [IndexError]; and the
    worked example yields 2045 kcal and 204 g of protein. *)
Theorem save_profile_target_calories (name : string) (age : Z) (gender : string)
    (height weight : float) (activity goal : string) (water_goal : Z) :
  (forall p,
     save_profile name age gender height weight activity goal water_goal = ret p ->
     exists age5 word,
       float_of_int (5 * age) = ret age5 /\
       nth_error (split activity) 0 = Some word /\
       py_int (Spec.target_energy age5 gender height weight word goal)
         = ret (Calories (Targets p))) /\
  (returns (save_profile name age gender height weight activity goal water_goal) <->
   exists age5 word,
     float_of_int (5 * age) = ret age5 /\
     nth_error (split activity) 0 = Some word /\
     returns (Spec.protein_grams_truncated
                (Spec.target_energy age5 gender height weight word goal)
                (snd (fst (Spec.goal_macros goal)))) /\
     returns (py_int (Spec.target_energy age5 gender height weight word goal))) /\
  (split activity = [] -> returns (float_of_int (5 * age)) ->
   save_profile name age gender height weight activity goal water_goal = raise IndexError) /\
  rmap (fun p => (Calories (Targets p), Protein (Targets p)))
    (save_profile "User" 25 "Male" 170 70 "Moderately Active" "Weight Loss" 2500)
    = ret (2045, 204)%Z.
Proof.
  split; [| split; [apply save_profile_returns | split; [apply save_profile_no_word |]]].
  - intros p H. destruct (save_profile_fields _ _ _ _ _ _ _ _ _ H)
      as (age5 & word & Ha & Hw & _ & Hc & _).
    exists age5, word. auto.
  - vm_compute. reflexivity.
Qed.

End SaveProfile.

(** ** The meal planner *)

Section PlannerFacts.

Local Open Scope string_scope.
Local Open Scope float_scope.

Variable draws : nat -> nat.

Lemma insert_by_perm {A : Type} (le : A -> A -> bool) (x : A) (l : list A) :
  Permutation (insert_by le x l) (x :: l).
Proof.
  induction l as [| y l IH]; cbn; [reflexivity |].
  destruct (le x y); [reflexivity |].
  rewrite IH. apply perm_swap.
Qed.

Lemma sort_values_perm {A : Type} (le : A -> A -> bool) (l : list A) :
  Permutation (sort_values le l) l.
Proof.
  induction l as [| x l IH]; cbn; [reflexivity |].
  rewrite insert_by_perm. now constructor.
Qed.

Lemma rank_perm (df_food : list food_row) (goal : string) :
  Permutation (rank df_food goal) df_food.
Proof.
  unfold rank.
  destruct (String.eqb goal "Muscle Gain"); [apply sort_values_perm |].
  destruct (String.eqb goal "Weight Loss"); [apply sort_values_perm | reflexivity].
Qed.

Lemma diet_filter_In (df_food : list food_row) (diet_pref : string) (row : food_row) :
  In row (diet_filter df_food diet_pref) <->
  In row df_food /\ (diet_pref = "Vegetarian" -> Diet row = "Veg").
Proof.
  unfold diet_filter. destruct (String.eqb_spec diet_pref "Vegetarian") as [-> | Hne].
  - rewrite filter_In. split; intros [Hin Hd]; split; auto.
    + intros _. now apply String.eqb_eq.
    + apply String.eqb_eq. auto.
  - tauto.
Qed.

(** The catalogue the loops work on holds exactly the rows the diet filter
    keeps. *)
Lemma catalog_In (df_food : list food_row) (goal diet_pref : string) (row : food_row) :
  In row (rank (diet_filter df_food diet_pref) goal) <->
  In row df_food /\ (diet_pref = "Vegetarian" -> Diet row = "Veg").
Proof.
  rewrite <- diet_filter_In. split; apply Permutation_in;
    [| symmetry]; apply rank_perm.
Qed.

(** The candidate set is the budget window when some row falls in it, and
    the whole catalogue otherwise. *)
Lemma candidates_for_cases (catalog : list food_row) (budget : float) :
  (List.filter (within_budget budget) catalog <> [] /\
   candidates_for catalog budget = List.filter (within_budget budget) catalog) \/
  (List.filter (within_budget budget) catalog = [] /\
   candidates_for catalog budget = catalog).
Proof.
  unfold candidates_for. destruct (List.filter (within_budget budget) catalog);
    [right | left]; split; congruence.
Qed.

(** With a row in the window the candidate set is the window. *)
Lemma candidates_for_window (catalog : list food_row) (budget : float) :
  (exists row, In row catalog /\ within_budget budget row = true) ->
  candidates_for catalog budget = List.filter (within_budget budget) catalog.
Proof.
  intros (row & Hin & Hw).
  destruct (candidates_for_cases catalog budget) as [[_ Hc] | [He _]]; [exact Hc |].
  assert (Hf : In row (List.filter (within_budget budget) catalog))
    by (apply filter_In; auto).
  rewrite He in Hf. destruct Hf.
Qed.

(** With no row in the window it is the whole catalogue. *)
Lemma candidates_for_fallback (catalog : list food_row) (budget : float) :
  (forall row, In row catalog -> within_budget budget row = false) ->
  candidates_for catalog budget = catalog.
Proof.
  intros Hnone.
  destruct (candidates_for_cases catalog budget) as [[Hf Hc] | [He Hc]]; [| assumption].
  exfalso. destruct (List.filter (within_budget budget) catalog) as [| row rest] eqn:E;
    [congruence |].
  assert (Hin : In row (List.filter (within_budget budget) catalog))
    by (rewrite E; now left).
  apply filter_In in Hin as [Hin Hw]. rewrite (Hnone row Hin) in Hw. discriminate.
Qed.

(** The mask of the budget window is the conjunction of its two
    comparisons. *)
Lemma within_budget_window (budget : float) (row : food_row) :
  within_budget budget row = true <->
  (budget - 150 <=? of_Z (Calories_per_Serving row)) = true /\
  (of_Z (Calories_per_Serving row) <=? budget + 150) = true.
Proof. unfold within_budget. apply andb_true_iff. Qed.

Lemma candidates_for_in_window (catalog : list food_row) (budget : float) :
  (exists row, In row catalog /\
     (budget - 150 <=? of_Z (Calories_per_Serving row)) = true /\
     (of_Z (Calories_per_Serving row) <=? budget + 150) = true) ->
  forall row,
    In row (candidates_for catalog budget) <->
    In row catalog /\
    (budget - 150 <=? of_Z (Calories_per_Serving row)) = true /\
    (of_Z (Calories_per_Serving row) <=? budget + 150) = true.
Proof.
  intros (row' & Hin & Hw) row. apply within_budget_window in Hw.
  rewrite (candidates_for_window catalog budget) by eauto.
  rewrite filter_In, within_budget_window. tauto.
Qed.

Lemma candidates_for_no_window (catalog : list food_row) (budget : float) :
  (forall row, In row catalog ->
     ~ ((budget - 150 <=? of_Z (Calories_per_Serving row)) = true /\
        (of_Z (Calories_per_Serving row) <=? budget + 150) = true)) ->
  candidates_for catalog budget = catalog.
Proof.
  intros Hnone. apply candidates_for_fallback. intros row Hin.
  destruct (within_budget budget row) eqn:E; [| reflexivity].
  apply within_budget_window in E. destruct (Hnone row Hin E).
Qed.

Lemma candidates_for_In (catalog : list food_row) (budget : float) (row : food_row) :
  In row (candidates_for catalog budget) -> In row catalog.
Proof.
  destruct (candidates_for_cases catalog budget) as [[_ ->] | [_ ->]]; [| auto].
  rewrite filter_In. tauto.
Qed.

Lemma candidates_for_nonempty (catalog : list food_row) (budget : float) :
  catalog <> [] -> candidates_for catalog budget <> [].
Proof.
  destruct (candidates_for_cases catalog budget) as [[H ->] | [_ ->]]; auto.
Qed.

(** Sampling a non-empty frame never fails and yields one of its rows. *)
Lemma sample1_returns (k : nat) (candidates : list food_row) :
  candidates <> [] ->
  exists row, sample1 draws k candidates = ret row /\ In row candidates.
Proof.
  intros Hne. unfold sample1.
  destruct (nth_error candidates (draws k mod length candidates)) as [row |] eqn:E.
  - exists row. split; [reflexivity | eapply nth_error_In; eauto].
  - apply nth_error_None in E.
    assert (length candidates <> 0%nat) by (destruct candidates; cbn; congruence).
    pose proof (Nat.mod_upper_bound (draws k) (length candidates)). lia.
Qed.

Lemma sample1_In (k : nat) (candidates : list food_row) (row : food_row) :
  sample1 draws k candidates = ret row -> In row candidates.
Proof.
  unfold sample1.
  destruct (nth_error candidates (draws k mod length candidates)) as [r |] eqn:E;
    [| discriminate].
  intros H. injection H as <-. eapply nth_error_In; eauto.
Qed.

Lemma plan_meal_planned (catalog : list food_row) (target_cals : Z) (k : nat)
    (slot : string * float) (m : meal) :
  plan_meal draws catalog target_cals k slot = ret m ->
  Spec.planned_meal catalog target_cals slot m.
Proof.
  unfold plan_meal. destruct slot as [meal_name ratio]. intros H.
  bind_inv H as t Ht. bind_inv H as selected Hs. cbn zeta in H. bind_inv H as cals Hc.
  injection H as <-. exists t, selected. cbn.
  repeat split; auto. eapply sample1_In; eauto.
Qed.

Lemma day_loop_planned (catalog : list food_row) (target_cals : Z)
    (slots : list (string * float)) :
  forall (k : nat) (day_meals : list meal) (total_day : Z) (r : list meal * Z),
    day_loop draws catalog target_cals k slots day_meals total_day = ret r ->
    exists new_meals,
      fst r = (day_meals ++ new_meals)%list /\
      Forall2 (Spec.planned_meal catalog target_cals) slots new_meals /\
      snd r = (total_day + fold_right Z.add 0 (map Cals new_meals))%Z.
Proof.
  induction slots as [| slot rest IH]; intros k day_meals total_day r H; cbn [day_loop] in H.
  - injection H as <-. exists []. cbn. rewrite app_nil_r. repeat split; [constructor | lia].
  - bind_inv H as m Hm. apply IH in H as (new_meals & Hf & Hall & Hs).
    exists (m :: new_meals). rewrite Hf, Hs, <- app_assoc. cbn.
    repeat split; [| lia]. constructor; [| assumption].
    eapply plan_meal_planned; eauto.
Qed.

Lemma plan_loop_planned (catalog : list food_row) (target_cals : Z) (days : list nat) :
  forall (k : nat) (plan plan' : list (string * day_plan)),
    plan_loop draws catalog target_cals k days plan = ret plan' ->
    exists new_days,
      plan' = (plan ++ new_days)%list /\
      Forall2 (fun day entry =>
                 fst entry = "Day " ++ pretty day /\
                 Spec.planned_day catalog target_cals (snd entry)) days new_days.
Proof.
  induction days as [| day rest IH]; intros k plan plan' H; cbn [plan_loop] in H.
  - injection H as <-. exists []. rewrite app_nil_r. split; [reflexivity | constructor].
  - bind_inv H as r Hr. apply IH in H as (new_days & -> & Hall).
    apply day_loop_planned in Hr as (new_meals & Hf & Hm & Hs). cbn in Hf.
    eexists (_ :: new_days). rewrite <- app_assoc. split; [reflexivity |].
    constructor; [| assumption]. cbn. split; [reflexivity |].
    split; cbn; rewrite Hf; [assumption | rewrite Hs; lia].
Qed.

(** Every plan the planner returns has one entry per day, each a planned
    day over the filtered and ranked catalogue. *)
Lemma generate_meal_plan_planned (df_food : list food_row) (target_cals : Z)
    (goal diet_pref : string) (days : Z) (plan : list (string * day_plan)) :
  generate_meal_plan draws df_food target_cals goal diet_pref days = ret plan ->
  Forall2 (fun day entry =>
             fst entry = "Day " ++ pretty day /\
             Spec.planned_day (rank (diet_filter df_food diet_pref) goal)
               target_cals (snd entry))
    (seq 1 (Z.to_nat days)) plan.
Proof.
  unfold generate_meal_plan. intros H.
  apply plan_loop_planned in H as (new_days & -> & Hall). exact Hall.
Qed.

End PlannerFacts.

(** ** The meal planner: the claims *)

Section PlannerClaims.

Local Open Scope string_scope.
Local Open Scope float_scope.

Variable draws : nat -> nat.

Lemma Forall2_In_r {A B : Type} (P : A -> B -> Prop) (l : list A) (l' : list B) (y : B) :
  Forall2 P l l' -> In y l' -> exists x, In x l /\ P x y.
Proof.
  induction 1 as [| x y' l l' Hxy _ IH]; cbn; [tauto |].
  intros [-> | Hin]; [eauto |].
  destruct (IH Hin) as (x' & Hx' & HP). eauto.
Qed.

Lemma quantity_bounds (budget : float) (selected : food_row) :
  (0.5 <=? quantity budget selected) = true /\ (quantity budget selected <=? 3.0) = true.
Proof. apply clamp_bounds. Qed.

(** The quantity is the rounded ratio, clamped: kept inside the range,
    replaced by the nearer end outside it. *)
Lemma quantity_clamped (budget : float) (selected : food_row) :
  let r := np_round1 (budget / of_Z (Calories_per_Serving selected)) in
  ((0.5 <=? r) = true -> (r <=? 3.0) = true -> quantity budget selected = r) /\
  ((r <? 0.5) = true -> quantity budget selected = 0.5) /\
  ((3.0 <? r) = true -> quantity budget selected = 3.0).
Proof. apply clamp_cases. Qed.

Lemma plan_meal_returns (catalog : list food_row) (target_cals : Z) (k : nat)
    (slot : string * float) :
  catalog <> [] ->
  Forall (fun row => is_int64 (Calories_per_Serving row)) catalog ->
  returns (float_of_int target_cals) ->
  returns (plan_meal draws catalog target_cals k slot).
Proof.
  intros Hne Hint [t Ht]. unfold plan_meal. destruct slot as [meal_name ratio].
  rewrite Ht. cbn [bind ret].
  destruct (sample1_returns draws k (candidates_for catalog (t * ratio))) as (row & Hs & Hin);
    [now apply candidates_for_nonempty |].
  rewrite Hs. cbn [bind ret].
  apply candidates_for_In in Hin. rewrite List.Forall_forall in Hint.
  destruct (quantity_bounds (t * ratio) row) as [Hlo Hhi].
  destruct (py_int_scaled_returns (Calories_per_Serving row) (quantity (t * ratio) row)
              (Hint row Hin) Hlo Hhi) as [cals Hc].
  rewrite Hc. cbn. eexists. reflexivity.
Qed.

Lemma day_loop_returns (catalog : list food_row) (target_cals : Z)
    (slots : list (string * float)) :
  catalog <> [] ->
  Forall (fun row => is_int64 (Calories_per_Serving row)) catalog ->
  returns (float_of_int target_cals) ->
  forall (k : nat) (day_meals : list meal) (total_day : Z),
    returns (day_loop draws catalog target_cals k slots day_meals total_day).
Proof.
  intros Hne Hint Ht. induction slots as [| slot rest IH]; intros k day_meals total_day;
    cbn [day_loop].
  - eexists. reflexivity.
  - destruct (plan_meal_returns catalog target_cals k slot Hne Hint Ht) as [m ->].
    cbn [bind ret]. apply IH.
Qed.

Lemma plan_loop_returns (catalog : list food_row) (target_cals : Z) (days : list nat) :
  (days = [] \/ catalog <> []) ->
  Forall (fun row => is_int64 (Calories_per_Serving row)) catalog ->
  returns (float_of_int target_cals) ->
  forall (k : nat) (plan : list (string * day_plan)),
    returns (plan_loop draws catalog target_cals k days plan).
Proof.
  intros Hne Hint Ht. induction days as [| day rest IH]; intros k plan; cbn [plan_loop].
  - eexists. reflexivity.
  - destruct Hne as [Hne | Hne]; [discriminate |].
    destruct (day_loop_returns catalog target_cals budgets Hne Hint Ht k [] 0%Z) as [r ->].
    cbn [bind ret]. apply IH. now right.
Qed.

(** On a catalogue of [int64] calories, of which the diet filter leaves
    something, and with a target a float can hold, the planner returns a
    plan. *)
Lemma generate_meal_plan_returns (df_food : list food_row) (target_cals : Z)
    (goal diet_pref : string) (days : Z) :
  rank (diet_filter df_food diet_pref) goal <> [] ->
  Forall (fun row => is_int64 (Calories_per_Serving row)) df_food ->
  returns (float_of_int target_cals) ->
  returns (generate_meal_plan draws df_food target_cals goal diet_pref days).
Proof.
  intros Hne Hint Ht. unfold generate_meal_plan.
  apply plan_loop_returns; auto.
  rewrite List.Forall_forall in *. intros row Hin. apply Hint.
  apply catalog_In in Hin. tauto.
Qed.

(** Every meal of a returned plan was planned for one of the four slots. *)
Lemma generate_meal_plan_meal (df_food : list food_row) (target_cals : Z)
    (goal diet_pref : string) (days : Z) (plan : list (string * day_plan))
    (key : string) (d : day_plan) (m : meal) :
  generate_meal_plan draws df_food target_cals goal diet_pref days = ret plan ->
  In (key, d) plan -> In m (Meals d) ->
  exists slot,
    In slot budgets /\
    Spec.planned_meal (rank (diet_filter df_food diet_pref) goal) target_cals slot m.
Proof.
  intros H Hd Hm. apply generate_meal_plan_planned in H.
  destruct (Forall2_In_r _ _ _ _ H Hd) as (day & _ & _ & Hday & _). cbn in Hday.
  exact (Forall2_In_r _ _ _ _ Hday Hm).
Qed.

End PlannerClaims.

Section PlannerTheorems.

Local Open Scope string_scope.
Local Open Scope float_scope.

(** C3.  On a non-empty filtered catalogue, whatever the random draws:
    sampling the candidate set never fails and yields one of its rows.
    When some row of the catalogue has its calories within 150 kcal of the
    budget ([budget - 150 <= calories <= budget + 150]), the candidate set
    is exactly the set of such rows; when no row has, it is the whole
    filtered catalogue.  Every meal of a returned plan records a row
    selected from the candidate set of the budget of its own slot (target
    calories times 0.25, 0.35, 0.30 or 0.10 for breakfast, lunch, dinner
    or snack): a row of the catalogue, within 150 kcal of that budget
    whenever some row is.  And the planner does return a plan (for [int64]
    calories and a target a float can hold). *)
Theorem generate_meal_plan_selection (draws : nat -> nat) (df_food : list food_row)
    (target_cals : Z) (goal diet_pref : string) :
  let catalog := rank (diet_filter df_food diet_pref) goal in
  catalog <> [] ->
  (forall k budget, exists row,
      sample1 draws k (candidates_for catalog budget) = ret row /\
      In row (candidates_for catalog budget)) /\
  (forall budget,
      (exists row, In row catalog /\
         (budget - 150 <=? of_Z (Calories_per_Serving row)) = true /\
         (of_Z (Calories_per_Serving row) <=? budget + 150) = true) ->
      forall row,
        In row (candidates_for catalog budget) <->
        In row catalog /\
        (budget - 150 <=? of_Z (Calories_per_Serving row)) = true /\
        (of_Z (Calories_per_Serving row) <=? budget + 150) = true) /\
  (forall budget,
      (forall row, In row catalog ->
         ~ ((budget - 150 <=? of_Z (Calories_per_Serving row)) = true /\
            (of_Z (Calories_per_Serving row) <=? budget + 150) = true)) ->
      candidates_for catalog budget = catalog) /\
  (forall days plan key d m,
      generate_meal_plan draws df_food target_cals goal diet_pref days = ret plan ->
      In (key, d) plan -> In m (Meals d) ->
      exists slot t selected,
        In slot [("Breakfast", 0.25); ("Lunch", 0.35); ("Dinner", 0.30); ("Snack", 0.10)] /\
        Type_ m = fst slot /\
        float_of_int target_cals = ret t /\
        Dish m = Dish_Name selected /\
        In selected (candidates_for catalog (t * snd slot)) /\
        In selected catalog /\
        ((exists row, In row catalog /\
            (t * snd slot - 150 <=? of_Z (Calories_per_Serving row)) = true /\
            (of_Z (Calories_per_Serving row) <=? t * snd slot + 150) = true) ->
         (t * snd slot - 150 <=? of_Z (Calories_per_Serving selected)) = true /\
         (of_Z (Calories_per_Serving selected) <=? t * snd slot + 150) = true)) /\
  (Forall (fun row => is_int64 (Calories_per_Serving row)) df_food ->
   returns (float_of_int target_cals) ->
   forall days,
     returns (generate_meal_plan draws df_food target_cals goal diet_pref days)).
Proof.
  intros catalog Hne. split; [| split; [| split; [| split]]].
  - intros k budget. apply sample1_returns. now apply candidates_for_nonempty.
  - intros budget. apply candidates_for_in_window.
  - intros budget. apply candidates_for_no_window.
  - intros days plan key d m H Hd Hm.
    destruct (generate_meal_plan_meal draws _ _ _ _ _ _ _ _ _ H Hd Hm)
      as (slot & Hslot & t & selected & Ht & Hsel & Hty & Hdish & _).
    exists slot, t, selected.
    split; [exact Hslot |]. split; [exact Hty |]. split; [exact Ht |].
    split; [exact Hdish |]. split; [exact Hsel |].
    split; [exact (candidates_for_In _ _ _ Hsel) |].
    intros Hsome. now apply (candidates_for_in_window catalog (t * snd slot) Hsome selected).
  - intros Hint Ht days. now apply generate_meal_plan_returns.
Qed.

(** C3, at the default catalogue: a vegetarian three-day plan for 2000
    kcal is returned. *)
Lemma generate_meal_plan_selection_witness :
  rank (diet_filter default_food_db "Vegetarian") "Weight Loss" <> [] /\
  returns (generate_meal_plan (fun k => (7 * k + 3)%nat) default_food_db 2000
             "Weight Loss" "Vegetarian" 3).
Proof.
  assert (H : rank (diet_filter default_food_db "Vegetarian") "Weight Loss" <> [])
    by (vm_compute; discriminate).
  split; [exact H |].
  apply (generate_meal_plan_selection (fun k => (7 * k + 3)%nat) default_food_db 2000
           "Weight Loss" "Vegetarian" H).
  - apply List.Forall_forall. intros row Hin.
    repeat (destruct Hin as [<- | Hin]; [vm_compute; split; congruence |]).
    destruct Hin.
  - eexists. vm_compute. reflexivity.
Defined.

(** C4, counterexample.  With the custom food of 275 kcal in the catalogue
    and a target of 1500 kcal, the snack (budget 150 kcal) is half a
    serving of it, recorded as [int(275 x 0.5) = 137] kcal: less than 0.5
    times the 275 kcal of a serving, which is 137.5. *)
Lemma generate_meal_plan_snack_below_half :
  exists d m,
    generate_meal_plan (fun _ => 0%nat) catalog_with_custom 1500 "Maintain"
      "Non-Vegetarian" 1 = ret [("Day 1", d)] /\
    nth_error (Meals d) 3 = Some m /\
    Type_ m = "Snack" /\ Dish m = Dish_Name custom_khakhra /\
    Qty m = 0.5 /\ Cals m = 137%Z /\
    (of_Z (Cals m) <? 0.5 * of_Z (Calories_per_Serving custom_khakhra)) = true /\
    (2 * Cals m < Calories_per_Serving custom_khakhra)%Z.
Proof.
  eexists. eexists. split; [vm_compute; reflexivity |].
  split; [reflexivity |]. repeat split.
Qed.

(** C4, as the code has it.  In every day of a returned plan there are
    four meals, for breakfast, lunch, dinner and snack in this order, and
    the day total is the sum of their calories.  Each meal records a
    catalogue row; its quantity is the ratio of the budget of its own slot
    (target calories times 0.25, 0.35, 0.30 or 0.10) to the row's
    calories, rounded to one decimal and clamped to [0.5, 3.0]; its
    calories are the row's calories times that quantity, truncated toward
    zero: for a row of 0 to [2^50] kcal, at least [(calories - 1) / 2] and
    at most 3 times the row's calories. *)
Theorem generate_meal_plan_quantities (draws : nat -> nat) (df_food : list food_row)
    (target_cals : Z) (goal diet_pref : string) (days : Z)
    (plan : list (string * day_plan)) (key : string) (d : day_plan) :
  generate_meal_plan draws df_food target_cals goal diet_pref days = ret plan ->
  In (key, d) plan ->
  length (Meals d) = 4%nat /\
  map Type_ (Meals d) = ["Breakfast"; "Lunch"; "Dinner"; "Snack"] /\
  Total d = fold_right Z.add 0%Z (map Cals (Meals d)) /\
  forall m, In m (Meals d) ->
    exists slot t selected,
      In slot [("Breakfast", 0.25); ("Lunch", 0.35); ("Dinner", 0.30); ("Snack", 0.10)] /\
      Type_ m = fst slot /\
      float_of_int target_cals = ret t /\
      In selected (rank (diet_filter df_food diet_pref) goal) /\
      Dish m = Dish_Name selected /\
      let budget := t * snd slot in
      let r := np_round1 (budget / of_Z (Calories_per_Serving selected)) in
      Qty m = py_max 0.5 (py_min r 3.0) /\
      ((0.5 <=? r) = true -> (r <=? 3.0) = true -> Qty m = r) /\
      ((r <? 0.5) = true -> Qty m = 0.5) /\
      ((3.0 <? r) = true -> Qty m = 3.0) /\
      (0.5 <=? Qty m) = true /\ (Qty m <=? 3.0) = true /\
      py_int (of_Z (Calories_per_Serving selected) * Qty m) = ret (Cals m) /\
      ((0 <= Calories_per_Serving selected < 2 ^ 50)%Z ->
       (Calories_per_Serving selected <= 2 * Cals m + 1)%Z /\
       (Cals m <= 3 * Calories_per_Serving selected)%Z).
Proof.
  intros H Hd. pose proof (generate_meal_plan_planned draws _ _ _ _ _ _ H) as Hall.
  destruct (Forall2_In_r _ _ _ _ Hall Hd) as (day & _ & _ & Hday & Htot). cbn in Hday, Htot.
  split; [| split; [| split; [exact Htot |]]].
  - apply Forall2_length in Hday. now rewrite <- Hday.
  - clear Htot. change ["Breakfast"; "Lunch"; "Dinner"; "Snack"] with (map fst budgets).
    induction Hday as [| slot m slots meals Hm _ IH]; [reflexivity |].
    cbn [map]. rewrite IH. f_equal.
    destruct Hm as (t & selected & _ & _ & Hty & _). exact Hty.
  - intros m Hm.
    destruct (Forall2_In_r _ _ _ _ Hday Hm)
      as (slot & Hslot & t & selected & Ht & Hsel & Hty & Hdish & Hq & Hc & _).
    exists slot, t, selected.
    destruct (quantity_clamped (t * snd slot) selected) as (Hin & Hlo & Hhi).
    destruct (quantity_bounds (t * snd slot) selected) as [Hb1 Hb2].
    cbn zeta in *. rewrite Hq in Hc |- *.
    assert (Hbounds : (0 <= Calories_per_Serving selected < 2 ^ 50)%Z ->
                      (Calories_per_Serving selected <= 2 * Cals m + 1)%Z /\
                      (Cals m <= 3 * Calories_per_Serving selected)%Z)
      by (intros Hcps; exact (py_int_scaled_bounds _ _ _ Hcps Hb1 Hb2 Hc)).
    split; [exact Hslot |]. split; [exact Hty |]. split; [exact Ht |].
    split; [eapply candidates_for_In; eassumption |].
    repeat split; auto; now apply Hbounds.
Qed.

(** C4, at the catalogue with the custom food: the day of the plan above. *)
Lemma generate_meal_plan_quantities_witness :
  exists d,
    generate_meal_plan (fun _ => 0%nat) catalog_with_custom 1500 "Maintain"
      "Non-Vegetarian" 1 = ret [("Day 1", d)] /\
    length (Meals d) = 4%nat /\
    map Type_ (Meals d) = ["Breakfast"; "Lunch"; "Dinner"; "Snack"] /\
    Total d = fold_right Z.add 0%Z (map Cals (Meals d)).
Proof.
  eexists. split; [vm_compute; reflexivity |].
  match goal with
  | |- length (Meals ?d) = _ /\ _ =>
      assert (H : generate_meal_plan (fun _ => 0%nat) catalog_with_custom 1500 "Maintain"
                    "Non-Vegetarian" 1 = ret [("Day 1", d)])
        by (vm_compute; reflexivity);
      destruct (generate_meal_plan_quantities _ _ _ _ _ _ _ "Day 1" d H (or_introl eq_refl))
        as (Hlen & Htypes & Htot & _)
  end.
  split; [exact Hlen |]. split; [exact Htypes | exact Htot].
Defined.

(** C5.  With the preference [Vegetarian], every meal of a returned plan
    is of diet-class [Veg] and names a [Veg] row of the catalogue, and a
    plan is returned as soon as the catalogue has a [Veg] row; with the
    preference [Non-Vegetarian] (any preference but [Vegetarian]) the diet
    filter keeps the whole catalogue, which the ranking only permutes. *)
Theorem generate_meal_plan_diet (draws : nat -> nat) (df_food : list food_row)
    (target_cals : Z) (goal : string) :
  (forall days plan key d m,
      generate_meal_plan draws df_food target_cals goal "Vegetarian" days = ret plan ->
      In (key, d) plan -> In m (Meals d) ->
      meal_Diet m = "Veg" /\
      exists row, In row df_food /\ Diet row = "Veg" /\ Dish m = Dish_Name row) /\
  ((exists row, In row df_food /\ Diet row = "Veg") ->
   Forall (fun row => is_int64 (Calories_per_Serving row)) df_food ->
   returns (float_of_int target_cals) ->
   forall days,
     returns (generate_meal_plan draws df_food target_cals goal "Vegetarian" days)) /\
  diet_filter df_food "Non-Vegetarian" = df_food /\
  Permutation (rank (diet_filter df_food "Non-Vegetarian") goal) df_food /\
  (forall diet_pref, diet_pref <> "Vegetarian" ->
     forall row, In row (rank (diet_filter df_food diet_pref) goal) <-> In row df_food).
Proof.
  split; [| split; [| split; [| split]]].
  - intros days plan key d m H Hd Hm.
    destruct (generate_meal_plan_meal draws _ _ _ _ _ _ _ _ _ H Hd Hm)
      as (slot & _ & t & selected & _ & Hsel & _ & Hdish & _ & _ & _ & Hdiet).
    apply candidates_for_In, catalog_In in Hsel as [Hin Hveg].
    specialize (Hveg eq_refl). rewrite Hdiet. eauto.
  - intros (row & Hin & Hveg) Hint Ht days.
    apply generate_meal_plan_returns; auto.
    intros Hnil. assert (Hr : In row (rank (diet_filter df_food "Vegetarian") goal))
      by (apply catalog_In; auto).
    rewrite Hnil in Hr. destruct Hr.
  - reflexivity.
  - apply rank_perm.
  - intros diet_pref Hne row. rewrite catalog_In. tauto.
Qed.

End PlannerTheorems.

(** ** The streak counter *)

Section StreakFacts.

Local Open Scope string_scope.
Local Open Scope Z_scope.

Lemma contains_In (valid_dates : list Z) (x : Z) :
  contains valid_dates x = true <-> In x valid_dates.
Proof.
  unfold contains. rewrite existsb_exists. split.
  - intros (y & Hin & Heq). apply Z.eqb_eq in Heq. now subst.
  - intros Hin. exists x. split; [assumption | apply Z.eqb_refl].
Qed.

Lemma contains_false (valid_dates : list Z) (x : Z) :
  contains valid_dates x = false <-> ~ In x valid_dates.
Proof.
  rewrite <- contains_In. destruct (contains valid_dates x); split; congruence.
Qed.

Lemma contains_sort_values (le : Z -> Z -> bool) (valid_dates : list Z) (x : Z) :
  contains (sort_values le valid_dates) x = contains valid_dates x.
Proof.
  destruct (contains valid_dates x) eqn:E.
  - apply contains_In. apply contains_In in E.
    exact (Permutation_in _ (Permutation_sym (sort_values_perm le valid_dates)) E).
  - apply contains_false. apply contains_false in E. intros Hin. apply E.
    exact (Permutation_in _ (sort_values_perm le valid_dates) Hin).
Qed.

(** The loop counts a run of [n] consecutive days that ends at a gap. *)
Lemma streak_loop_run (valid_dates : list Z) (n : nat) :
  forall (fuel : nat) (check_date streak : Z),
    (n < fuel)%nat ->
    (forall i, 0 <= i < Z.of_nat n -> In (check_date - i) valid_dates) ->
    ~ In (check_date - Z.of_nat n) valid_dates ->
    streak_loop fuel valid_dates check_date streak = Some (streak + Z.of_nat n).
Proof.
  induction n as [| n IH]; intros fuel check_date streak Hfuel Hrun Hgap.
  - destruct fuel as [| fuel]; [lia |]. cbn [streak_loop].
    replace (check_date - Z.of_nat 0) with check_date in Hgap by lia.
    apply contains_false in Hgap. rewrite Hgap. f_equal. lia.
  - destruct fuel as [| fuel]; [lia |]. cbn [streak_loop].
    assert (Hc : contains valid_dates check_date = true).
    { apply contains_In. replace check_date with (check_date - 0) by lia. apply Hrun. lia. }
    rewrite Hc, (IH fuel (check_date - 1) (streak + 1)).
    + f_equal. lia.
    + lia.
    + intros i Hi. replace (check_date - 1 - i) with (check_date - (i + 1)) by lia.
      apply Hrun. lia.
    + replace (check_date - 1 - Z.of_nat n) with (check_date - Z.of_nat (S n)) by lia.
      assumption.
Qed.

(** The days of the log that are not after [check_date]. *)
Lemma not_after_shrinks (valid_dates : list Z) (check_date : Z) :
  In check_date valid_dates ->
  (length (List.filter (fun d => (d <=? check_date - 1)%Z) valid_dates)
   < length (List.filter (fun d => (d <=? check_date)%Z) valid_dates))%nat.
Proof.
  induction valid_dates as [| d rest IH]; cbn; [tauto |].
  assert (Hle : forall l : list Z,
            (length (List.filter (fun d => (d <=? check_date - 1)%Z) l)
             <= length (List.filter (fun d => (d <=? check_date)%Z) l))%nat).
  { induction l as [| y l IHl]; cbn; [lia |].
    destruct (Z.leb_spec y (check_date - 1)), (Z.leb_spec y check_date); cbn; lia. }
  intros [-> | Hin].
  - destruct (Z.leb_spec check_date (check_date - 1)), (Z.leb_spec check_date check_date);
      try lia. cbn. specialize (Hle rest). lia.
  - specialize (IH Hin).
    destruct (Z.leb_spec d (check_date - 1)), (Z.leb_spec d check_date); cbn; lia.
Qed.

(** With more fuel than logged days the loop reaches its exit. *)
Lemma streak_loop_exits (valid_dates : list Z) (fuel : nat) :
  forall (check_date streak : Z),
    (length (List.filter (fun d => (d <=? check_date)%Z) valid_dates) < fuel)%nat ->
    exists n, streak_loop fuel valid_dates check_date streak = Some n.
Proof.
  induction fuel as [| fuel IH]; intros check_date streak Hfuel; [lia |].
  cbn [streak_loop]. destruct (contains valid_dates check_date) eqn:E; [| eauto].
  apply IH. apply contains_In in E.
  pose proof (not_after_shrinks valid_dates check_date E). lia.
Qed.

Lemma filter_length_le {A : Type} (f : A -> bool) (l : list A) :
  (length (List.filter f l) <= length l)%nat.
Proof. induction l as [| x l IH]; cbn; [lia |]. destruct (f x); cbn; lia. Qed.

Lemma streak_loop_mono (valid_dates : list Z) (fuel : nat) :
  forall (fuel' : nat) (check_date streak n : Z),
    streak_loop fuel valid_dates check_date streak = Some n ->
    (fuel <= fuel')%nat ->
    streak_loop fuel' valid_dates check_date streak = Some n.
Proof.
  induction fuel as [| fuel IH]; intros fuel' check_date streak n H Hle; [discriminate |].
  destruct fuel' as [| fuel']; [lia |]. cbn [streak_loop] in *.
  destruct (contains valid_dates check_date); [| assumption].
  apply IH; [assumption | lia].
Qed.

Lemma streak_loop_ext (valid_dates valid_dates' : list Z) (fuel : nat) :
  (forall x, contains valid_dates x = contains valid_dates' x) ->
  forall (check_date streak : Z),
    streak_loop fuel valid_dates check_date streak
    = streak_loop fuel valid_dates' check_date streak.
Proof.
  intros Hext. induction fuel as [| fuel IH]; intros check_date streak; [reflexivity |].
  cbn [streak_loop]. rewrite Hext, IH. reflexivity.
Qed.

(** With enough fuel to exit, the loop returns the length of the run. *)
Lemma streak_loop_counts (valid_dates : list Z) (fuel n : nat) (check_date : Z) :
  (length valid_dates < fuel)%nat ->
  (forall i, 0 <= i < Z.of_nat n -> In (check_date - i) valid_dates) ->
  ~ In (check_date - Z.of_nat n) valid_dates ->
  streak_loop fuel valid_dates check_date 0 = Some (Z.of_nat n).
Proof.
  intros Hfuel Hrun Hgap.
  destruct (streak_loop_exits valid_dates fuel check_date 0) as [n' Hn'].
  { pose proof (filter_length_le (fun d => (d <=? check_date)%Z) valid_dates). lia. }
  pose proof (streak_loop_mono _ _ (Nat.max fuel (S n)) _ _ _ Hn' ltac:(lia)) as H1.
  rewrite (streak_loop_run valid_dates n) in H1; try assumption; [| lia].
  rewrite Hn'. rewrite <- H1. reflexivity.
Qed.

End StreakFacts.

Section StreakTheorems.

Local Open Scope string_scope.
Local Open Scope Z_scope.

Variable to_datetime : list cell -> list (option Z).

(** What the call does on a non-empty table with a [Date] column: the
    table gains [DateObj], and the count starts today, or yesterday, or is
    zero. *)
Lemma calculate_streak_nonempty (fuel : nat) (today : Z) (h : heap) (l : nat)
    (df : DataFrame) (dates : list cell) :
  h !! l = Some df -> df_empty df = false -> columns df !! "Date" = Some dates ->
  calculate_streak to_datetime fuel today (Some l) h =
  let h' := <[l := set_column df "DateObj" (map CTime (to_datetime dates))]> h in
  let days := logged_days to_datetime dates in
  if contains days today
  then streak ← streak_loop fuel days today 0; Some (ret streak, h')
  else if contains days (today - 1)
  then streak ← streak_loop fuel days (today - 1) 0; Some (ret streak, h')
  else Some (ret 0, h').
Proof.
  intros Hl He Hd. unfold calculate_streak. rewrite Hl. cbn [mbind option_bind].
  rewrite He, Hd. cbn zeta.
  set (days := logged_days to_datetime dates).
  rewrite !contains_sort_values.
  rewrite !(streak_loop_ext (sort_values Z.leb days) days)
    by (intros x; apply contains_sort_values).
  destruct days as [| d rest]; [reflexivity |].
  cbn [length Nat.eqb].
  destruct (contains (d :: rest) today); cbn [negb]; [reflexivity |].
  destruct (contains (d :: rest) (today - 1)); reflexivity.
Qed.

(** With more fuel than logged days the call returns a count, and leaves
    the heap with the table updated. *)
Lemma calculate_streak_returns (fuel : nat) (today : Z) (h : heap) (l : nat)
    (df : DataFrame) (dates : list cell) :
  h !! l = Some df -> df_empty df = false -> columns df !! "Date" = Some dates ->
  (length (logged_days to_datetime dates) < fuel)%nat ->
  exists n,
    calculate_streak to_datetime fuel today (Some l) h =
    Some (ret n, <[l := set_column df "DateObj" (map CTime (to_datetime dates))]> h).
Proof.
  intros Hl He Hd Hfuel.
  rewrite (calculate_streak_nonempty _ _ _ _ _ _ Hl He Hd). cbn zeta.
  set (days := logged_days to_datetime dates) in *.
  destruct (contains days today).
  - destruct (streak_loop_exits days fuel today 0) as [n ->]; [| cbn; eauto].
    pose proof (filter_length_le (fun d => (d <=? today)%Z) days). lia.
  - destruct (contains days (today - 1)); [| eauto].
    destruct (streak_loop_exits days fuel (today - 1) 0) as [n ->]; [| cbn; eauto].
    pose proof (filter_length_le (fun d => (d <=? today - 1)%Z) days). lia.
Qed.

(** C8.  The streak is 0 for a missing or an empty food log.  For a log
    with a [Date] column whose distinct parseable days are [days] (and
    more fuel than days): the call returns; it returns 1 if only today is
    logged; it returns [N] when the [N] days ending today are logged and
    the day before them is not; when today is not logged, it returns [N]
    for the [N] days ending yesterday; and it returns 0 when neither today
    nor yesterday is logged. *)
Theorem calculate_streak_counts (fuel : nat) (today : Z) (h : heap) :
  calculate_streak to_datetime fuel today None h = Some (ret 0, h) /\
  (forall l df,
     h !! l = Some df -> df_empty df = true ->
     calculate_streak to_datetime fuel today (Some l) h = Some (ret 0, h)) /\
  (forall l df dates,
     h !! l = Some df -> df_empty df = false -> columns df !! "Date" = Some dates ->
     (length (logged_days to_datetime dates) < fuel)%nat ->
     let days := logged_days to_datetime dates in
     let outcome := fst <$> calculate_streak to_datetime fuel today (Some l) h in
     (exists n, outcome = Some (ret n)) /\
     (days = [today] -> outcome = Some (ret 1)) /\
     (forall N : nat,
        (1 <= N)%nat ->
        (forall i, 0 <= i < Z.of_nat N -> In (today - i) days) ->
        ~ In (today - Z.of_nat N) days ->
        outcome = Some (ret (Z.of_nat N))) /\
     (forall N : nat,
        ~ In today days ->
        (forall i, 0 <= i < Z.of_nat N -> In (today - 1 - i) days) ->
        ~ In (today - 1 - Z.of_nat N) days ->
        outcome = Some (ret (Z.of_nat N))) /\
     (~ In today days -> ~ In (today - 1) days -> outcome = Some (ret 0))).
Proof.
  split; [reflexivity | split].
  - intros l df Hl He. unfold calculate_streak. rewrite Hl. cbn. now rewrite He.
  - intros l df dates Hl He Hd Hfuel days outcome.
    change (length days < fuel)%nat in Hfuel.
    assert (Hrun : forall N : nat,
              (1 <= N)%nat ->
              (forall i, 0 <= i < Z.of_nat N -> In (today - i) days) ->
              ~ In (today - Z.of_nat N) days ->
              outcome = Some (ret (Z.of_nat N))).
    { intros N HN Hdays Hgap. unfold outcome.
      rewrite (calculate_streak_nonempty _ _ _ _ _ _ Hl He Hd). cbn zeta. fold days.
      assert (Hc : contains days today = true).
      { apply contains_In. replace today with (today - 0) by lia. apply Hdays. lia. }
      rewrite Hc, (streak_loop_counts days fuel N today Hfuel Hdays Hgap). reflexivity. }
    assert (Hyest : forall N : nat,
              ~ In today days ->
              (forall i, 0 <= i < Z.of_nat N -> In (today - 1 - i) days) ->
              ~ In (today - 1 - Z.of_nat N) days ->
              outcome = Some (ret (Z.of_nat N))).
    { intros N Hno Hdays Hgap. unfold outcome.
      rewrite (calculate_streak_nonempty _ _ _ _ _ _ Hl He Hd). cbn zeta. fold days.
      apply contains_false in Hno. rewrite Hno.
      destruct (contains days (today - 1)) eqn:Hc.
      - rewrite (streak_loop_counts days fuel N (today - 1) Hfuel Hdays Hgap). reflexivity.
      - apply contains_false in Hc. destruct N as [| N]; [reflexivity |].
        exfalso. apply Hc. replace (today - 1) with (today - 1 - 0) by lia.
        apply Hdays. lia. }
    repeat split.
    + destruct (calculate_streak_returns fuel today h l df dates Hl He Hd Hfuel) as [n Hn].
      exists n. unfold outcome. now rewrite Hn.
    + intros Honly. apply (Hrun 1%nat); [lia | |]; rewrite Honly.
      * intros i Hi. left. lia.
      * intros [Heq | []]. lia.
    + exact Hrun.
    + exact Hyest.
    + intros Hno Hno'. apply (Hyest 0%nat Hno).
      * intros i Hi. lia.
      * now replace (today - 1 - Z.of_nat 0) with (today - 1) by lia.
Qed.

(** C10.  On a non-empty table with a [Date] column, the call leaves the
    caller's table with a column [DateObj] holding the parsed dates, and
    every other object of the heap as it was. *)
Theorem calculate_streak_adds_DateObj (fuel : nat) (today : Z) (h : heap) (l : nat)
    (df : DataFrame) (dates : list cell) :
  h !! l = Some df -> df_empty df = false -> columns df !! "Date" = Some dates ->
  (length (logged_days to_datetime dates) < fuel)%nat ->
  exists r h' df',
    calculate_streak to_datetime fuel today (Some l) h = Some (ret r, h') /\
    h' !! l = Some df' /\
    columns df' !! "DateObj" = Some (map CTime (to_datetime dates)) /\
    (forall name, name <> "DateObj" -> columns df' !! name = columns df !! name) /\
    nrows df' = nrows df /\
    (forall l', l' <> l -> h' !! l' = h !! l') /\
    (columns df !! "DateObj" = None -> h' <> h).
Proof.
  intros Hl He Hd Hfuel.
  destruct (calculate_streak_returns fuel today h l df dates Hl He Hd Hfuel) as [r Hr].
  set (h' := <[l := set_column df "DateObj" (map CTime (to_datetime dates))]> h) in *.
  exists r, h', (set_column df "DateObj" (map CTime (to_datetime dates))).
  split; [exact Hr |]. unfold h', set_column. cbn [columns nrows].
  repeat split.
  - apply lookup_insert_eq.
  - apply lookup_insert_eq.
  - intros name Hne. now apply lookup_insert_ne.
  - intros l' Hne. now apply lookup_insert_ne.
  - intros Hnone Heq. apply (f_equal (fun m => m !! l)) in Heq.
    rewrite lookup_insert_eq, Hl in Heq. injection Heq as Heq.
    apply (f_equal (fun d => columns d !! "DateObj")) in Heq. cbn in Heq.
    rewrite lookup_insert_eq, Hnone in Heq. discriminate.
Qed.

End StreakTheorems.

(** C8, on the example log read on 2024-03-10: its two parseable days are
    today and yesterday, and the streak is 2. *)
Lemma calculate_streak_counts_witness :
  fst <$> calculate_streak Examples.iso_to_datetime 10 Examples.march_10 (Some 1%nat) Examples.heap_with_log
  = Some (ret 2%Z).
Proof.
  destruct (calculate_streak_counts Examples.iso_to_datetime 10 Examples.march_10 Examples.heap_with_log)
    as (_ & _ & H).
  destruct (H 1%nat Examples.food_log
              [CStr "2024-03-09"%string; CStr "09/03/2024"%string; CStr "2024-03-10"%string]
              ltac:(reflexivity) ltac:(reflexivity) ltac:(reflexivity)
              ltac:(vm_compute; lia)) as (_ & _ & Hrun & _).
  apply (Hrun 2%nat); [lia | |].
  - intros i Hi. assert (Hi' : (i = 0 \/ i = 1)%Z) by lia.
    destruct Hi' as [-> | ->]; vm_compute; tauto.
  - vm_compute. intros [H1 | [H1 | []]]; discriminate.
Defined.

(** C10, on the example log: after the call the table at location 1 has
    the column [DateObj], with [NaT] for the malformed date. *)
Lemma calculate_streak_adds_DateObj_witness :
  exists r h' df',
    calculate_streak Examples.iso_to_datetime 10 Examples.march_10 (Some 1%nat) Examples.heap_with_log
      = Some (ret r, h') /\
    h' !! 1%nat = Some df' /\
    columns df' !! "DateObj"%string
      = Some [CTime (Some 1709942400000000000%Z); CTime None;
              CTime (Some 1710028800000000000%Z)].
Proof.
  destruct (calculate_streak_adds_DateObj Examples.iso_to_datetime 10 Examples.march_10 Examples.heap_with_log 1%nat Examples.food_log
              [CStr "2024-03-09"%string; CStr "09/03/2024"%string; CStr "2024-03-10"%string]
              ltac:(reflexivity) ltac:(reflexivity) ltac:(reflexivity)
              ltac:(vm_compute; lia))
    as (r & h' & df' & Hr & Hl & Hc & _).
  exists r, h', df'. repeat split; assumption.
Defined.


(** ** The loader *)

Section LoaderTheorems.

Local Open Scope string_scope.

Variable read_csv : string -> result DataFrame.

(** pandas raises [EmptyDataError] on a zero-length file. *)
Hypothesis read_csv_zero_length : read_csv "" = raise EmptyDataError.

(** C9.  [load_data_safe] returns [None], without raising, for a missing
    file, for a zero-length file and for a table without rows (a header
    only); it returns the parsed table when it has rows.  (Exceptions of
    the reader other than [EmptyDataError] are not caught.) *)
Theorem load_data_safe_no_data (fs : files) (filepath : string) :
  (fs !! filepath = None -> load_data_safe read_csv fs filepath = ret None) /\
  (fs !! filepath = Some "" -> load_data_safe read_csv fs filepath = ret None) /\
  (forall content df,
     fs !! filepath = Some content -> read_csv content = ret df -> nrows df = 0%nat ->
     load_data_safe read_csv fs filepath = ret None) /\
  (forall content df,
     fs !! filepath = Some content -> read_csv content = ret df -> df_empty df = false ->
     load_data_safe read_csv fs filepath = ret (Some df)) /\
  (forall content e,
     fs !! filepath = Some content -> read_csv content = raise e -> e <> EmptyDataError ->
     load_data_safe read_csv fs filepath = raise e).
Proof.
  unfold load_data_safe. repeat split.
  - intros ->. reflexivity.
  - intros ->. now rewrite read_csv_zero_length.
  - intros content df -> -> Hrows. unfold ret, df_empty. now rewrite Hrows.
  - intros content df -> -> He. unfold ret at 1. now rewrite He.
  - intros content e -> -> Hne. unfold raise at 1. destruct e; congruence.
Qed.

End LoaderTheorems.

(** C9, with the simple reader on the example directory: the missing
    weight log, the zero-length exercise log and the header-only water log
    all load as [None], and the food log loads as a table of three rows. *)
Lemma load_data_safe_no_data_witness :
  load_data_safe Examples.simple_read_csv Examples.working_directory "weight_log.csv"
    = ret None /\
  load_data_safe Examples.simple_read_csv Examples.working_directory "exercise_log.csv"
    = ret None /\
  load_data_safe Examples.simple_read_csv Examples.working_directory
    "water_log_detailed.csv" = ret None /\
  rmap (option_map nrows)
    (load_data_safe Examples.simple_read_csv Examples.working_directory "food_log.csv")
    = ret (Some 3%nat).
Proof.
  pose proof (fun p => load_data_safe_no_data Examples.simple_read_csv eq_refl
                         Examples.working_directory p) as H.
  split; [exact (proj1 (H "weight_log.csv"%string) eq_refl) |].
  split; [exact (proj1 (proj2 (H "exercise_log.csv"%string)) eq_refl) |].
  split.
  - destruct (H "water_log_detailed.csv"%string) as (_ & _ & H3 & _).
    eapply H3; [reflexivity | vm_compute; reflexivity | reflexivity].
  - vm_compute. reflexivity.
Defined.

(** ** The symptom matcher *)

Section MatcherFacts.

Local Open Scope Q_scope.

Variable scorer : string -> string -> Q.

(** rapidfuzz's scorers are normalised: no score exceeds 100. *)
Hypothesis scorer_le_100 : forall query choice, scorer query choice <= 100.

Lemma loop_state_cutoff (query : string) (seen : list (option string)) (score_cutoff : Q)
    (result : option (string * Q * nat)) :
  Chatbot.loop_state scorer query seen score_cutoff result -> 70 <= score_cutoff.
Proof.
  destruct result as [[[name best] idx] |]; cbn.
  - intros (Hc & Hb & _). rewrite Hc. exact Hb.
  - intros (Hc & _). rewrite Hc. lra.
Qed.

(** A missing name changes nothing. *)
Lemma loop_state_skip (query : string) (seen : list (option string)) (score_cutoff : Q)
    (result : option (string * Q * nat)) :
  Chatbot.loop_state scorer query seen score_cutoff result ->
  Chatbot.loop_state scorer query (seen ++ [None]) score_cutoff result.
Proof.
  assert (Hsnoc : forall j name,
            (seen ++ [None]) !! j = Some (Some name) -> seen !! j = Some (Some name)).
  { intros j name H. apply lookup_app_Some in H as [H | [_ H]]; [exact H |].
    destruct (j - length seen)%nat; cbn in H; discriminate. }
  destruct result as [[[name best] idx] |]; cbn.
  - intros (Hc & Hb & He & Hi & Hmax & Hfirst). repeat split; auto.
    + now apply lookup_app_l_Some.
    + intros j other Hj. eapply Hmax, Hsnoc, Hj.
    + intros j other Hlt Hj. eapply Hfirst; [exact Hlt | apply Hsnoc, Hj].
  - intros (Hc & Hlow). split; [exact Hc |].
    intros j name Hj. eapply Hlow, Hsnoc, Hj.
Qed.

(** The state after a choice that does not beat the result. *)
Lemma loop_state_keep (query choice : string) (seen : list (option string))
    (score_cutoff : Q) (result : option (string * Q * nat)) :
  Chatbot.loop_state scorer query seen score_cutoff result ->
  match result with
  | None => scorer query choice < 70
  | Some (_, best, _) => scorer query choice <= best
  end ->
  Chatbot.loop_state scorer query (seen ++ [Some choice]) score_cutoff result.
Proof.
  assert (Hsnoc : forall j name,
            (seen ++ [Some choice]) !! j = Some (Some name) ->
            seen !! j = Some (Some name) \/ name = choice).
  { intros j name H. apply lookup_app_Some in H as [H | [_ H]]; [now left |].
    destruct (j - length seen)%nat as [| k]; cbn in H; [| destruct k; discriminate].
    right. congruence. }
  destruct result as [[[name best] idx] |]; cbn.
  - intros (Hc & Hb & He & Hi & Hmax & Hfirst) Hle. repeat split; auto.
    + now apply lookup_app_l_Some.
    + intros j other Hj. destruct (Hsnoc _ _ Hj) as [H | ->]; eauto.
    + intros j other Hlt Hj. apply lookup_lt_Some in Hi.
      rewrite lookup_app_l in Hj by lia. eauto.
  - intros (Hc & Hlow) Hlt. split; [exact Hc |].
    intros j name Hj. destruct (Hsnoc _ _ Hj) as [H | ->]; eauto.
Qed.

(** The state after a choice that reaches the cutoff and beats the
    result. *)
Lemma loop_state_replace (query choice : string) (seen : list (option string))
    (score_cutoff : Q) (result : option (string * Q * nat)) :
  Chatbot.loop_state scorer query seen score_cutoff result ->
  score_cutoff <= scorer query choice ->
  match result with
  | None => True
  | Some (_, best, _) => best < scorer query choice
  end ->
  Chatbot.loop_state scorer query (seen ++ [Some choice]) (scorer query choice)
    (Some (choice, scorer query choice, length seen)).
Proof.
  intros Hst Hcut Hbeat. pose proof (loop_state_cutoff _ _ _ _ Hst) as H70.
  assert (Hold : forall j other, seen !! j = Some (Some other) ->
                                 scorer query other < scorer query choice).
  { destruct result as [[[name best] idx] |]; cbn in Hst.
    - destruct Hst as (_ & _ & _ & _ & Hmax & _). intros j other Hj.
      specialize (Hmax j other Hj). lra.
    - destruct Hst as (_ & Hlow). intros j other Hj. specialize (Hlow j other Hj). lra. }
  cbn. repeat split; try reflexivity.
  - lra.
  - rewrite lookup_app_r by lia. now rewrite Nat.sub_diag.
  - intros j other Hj. apply lookup_app_Some in Hj as [Hj | [_ Hj]].
    + specialize (Hold j other Hj). lra.
    + destruct (j - length seen)%nat as [| k]; cbn in Hj; [| destruct k; discriminate].
      injection Hj as <-. lra.
  - intros j other Hlt Hj. rewrite lookup_app_l in Hj by lia. eauto.
Qed.

(** Once the result scores 100, the choices still to come cannot beat
    it. *)
Lemma loop_state_optimal (query : string) (seen rest : list (option string))
    (score_cutoff : Q) (name : string) (best : Q) (idx : nat) :
  Chatbot.loop_state scorer query seen score_cutoff (Some (name, best, idx)) ->
  best == 100 ->
  Chatbot.loop_state scorer query (seen ++ rest) score_cutoff (Some (name, best, idx)).
Proof.
  cbn. intros (Hc & Hb & He & Hi & Hmax & Hfirst) H100. repeat split; auto.
  - now apply lookup_app_l_Some.
  - intros j other Hj. rewrite H100. apply scorer_le_100.
  - intros j other Hlt Hj. apply lookup_lt_Some in Hi.
    rewrite lookup_app_l in Hj by lia. eauto.
Qed.

(** The loop keeps its state: its result is in the state of the whole
    list. *)
Lemma extractOne_from_state (query : string) (rest : list (option string)) :
  forall (seen : list (option string)) (score_cutoff : Q)
         (result : option (string * Q * nat)),
    Chatbot.loop_state scorer query seen score_cutoff result ->
    exists score_cutoff',
      Chatbot.loop_state scorer query (seen ++ rest) score_cutoff'
        (Chatbot.extractOne_from scorer query (length seen) rest score_cutoff result).
Proof.
  induction rest as [| [choice |] rest IH]; intros seen score_cutoff result Hst.
  - rewrite app_nil_r. cbn. eauto.
  - cbn [Chatbot.extractOne_from]. unfold Chatbot.score_with_cutoff.
    pose proof (loop_state_cutoff _ _ _ _ Hst) as H70.
    replace (seen ++ Some choice :: rest) with ((seen ++ [Some choice]) ++ rest)
      by (rewrite <- app_assoc; reflexivity).
    replace (S (length seen)) with (length (seen ++ [Some choice]))
      by (rewrite length_app; cbn; lia).
    destruct (Qle_bool score_cutoff (scorer query choice)) eqn:Ecut.
    + apply Qle_bool_iff in Ecut. rewrite (proj2 (Qle_bool_iff _ _) Ecut). cbn [andb].
      assert (Hcase :
        match result with
        | None => true
        | Some (_, best, _) => negb (Qle_bool (scorer query choice) best)
        end = true /\
        match result with
        | None => True
        | Some (_, best, _) => best < scorer query choice
        end \/
        match result with
        | None => true
        | Some (_, best, _) => negb (Qle_bool (scorer query choice) best)
        end = false /\
        match result with
        | None => scorer query choice < 70
        | Some (_, best, _) => scorer query choice <= best
        end).
      { destruct result as [[[name best] idx] |]; [| now left].
        destruct (Qle_bool (scorer query choice) best) eqn:E; [right | left]; split;
          try reflexivity.
        - now apply Qle_bool_iff.
        - apply Qnot_le_lt. intros H. apply Qle_bool_iff in H. congruence. }
      destruct Hcase as [[-> Hbeat] | [-> Hkeep]].
      * pose proof (loop_state_replace _ _ _ _ _ Hst Ecut Hbeat) as Hnew.
        destruct (Qeq_bool (scorer query choice) 100) eqn:E100.
        -- apply Qeq_bool_iff in E100. eexists.
           apply loop_state_optimal; [exact Hnew | exact E100].
        -- apply IH. exact Hnew.
      * pose proof (loop_state_keep _ choice _ _ _ Hst Hkeep) as Hsame.
        destruct (Qeq_bool (scorer query choice) 100) eqn:E100.
        -- apply Qeq_bool_iff in E100.
           destruct result as [[[name best] idx] |].
           ++ eexists. apply loop_state_optimal; [exact Hsame |].
              pose proof (scorer_le_100 query name) as Hn. cbn in Hst.
              destruct Hst as (_ & _ & -> & _). lra.
           ++ lra.
        -- apply IH. exact Hsame.
    + assert (Hlt : scorer query choice < score_cutoff).
      { apply Qnot_le_lt. intros H. apply Qle_bool_iff in H. congruence. }
      assert (E0 : Qle_bool score_cutoff 0 = false).
      { destruct (Qle_bool score_cutoff 0) eqn:E; [| reflexivity].
        apply Qle_bool_iff in E. lra. }
      rewrite E0. cbn [andb].
      change (Qeq_bool 0 100) with false. cbv iota.
      apply IH. apply loop_state_keep; [exact Hst |].
      destruct result as [[[name best] idx] |]; cbn in Hst.
      * destruct Hst as (Hc & _). lra.
      * destruct Hst as (Hc & _). lra.
  - cbn [Chatbot.extractOne_from].
    replace (seen ++ None :: rest) with ((seen ++ [None]) ++ rest)
      by (rewrite <- app_assoc; reflexivity).
    replace (S (length seen)) with (length (seen ++ [None]))
      by (rewrite length_app; cbn; lia).
    apply IH. now apply loop_state_skip.
Qed.

Lemma extractOne_state (query : string) (symptoms : list (option string)) :
  exists score_cutoff,
    Chatbot.loop_state scorer query symptoms score_cutoff
      (Chatbot.extractOne scorer query symptoms 70).
Proof.
  apply (extractOne_from_state query symptoms [] 70 None).
  cbn. split; [reflexivity |]. intros j name H. destruct j; discriminate.
Qed.

End MatcherFacts.

Section MatcherTheorems.

Local Open Scope Q_scope.

Variable scorer : string -> string -> Q.

(** rapidfuzz's scorers are normalised: no score exceeds 100. *)
Hypothesis scorer_le_100 : forall query choice, scorer query choice <= 100.

(** C6.  When [Matcher] returns a position, the entry there scores at
    least 70 and no entry scores more (it is the first of those that score
    as much); [Matcher] returns [None] exactly when no entry scores at
    least 70, so an entry that does is enough for a match. *)
Theorem Matcher_best_or_none (symptoms : list (option string)) (inp : string) :
  (forall idx,
     Chatbot.Matcher scorer symptoms inp = Some idx ->
     exists name,
       symptoms !! idx = Some (Some name) /\
       70 <= scorer inp name /\
       (forall j other, symptoms !! j = Some (Some other) ->
                        scorer inp other <= scorer inp name) /\
       (forall j other, (j < idx)%nat -> symptoms !! j = Some (Some other) ->
                        scorer inp other < scorer inp name)) /\
  (Chatbot.Matcher scorer symptoms inp = None <->
   forall j name, symptoms !! j = Some (Some name) -> scorer inp name < 70) /\
  ((exists j name, symptoms !! j = Some (Some name) /\ 70 <= scorer inp name) ->
   exists idx, Chatbot.Matcher scorer symptoms inp = Some idx).
Proof.
  destruct (extractOne_state scorer scorer_le_100 inp symptoms) as [cutoff Hst].
  unfold Chatbot.Matcher.
  destruct (Chatbot.extractOne scorer inp symptoms 70) as [[[name best] i] |]; cbn in Hst.
  - destruct Hst as (_ & Hb & -> & Hi & Hmax & Hfirst).
    split; [| split; [split |]].
    + intros idx H. injection H as <-. exists name. auto.
    + discriminate.
    + intros Hlow. specialize (Hlow i name Hi). lra.
    + eauto.
  - destruct Hst as (_ & Hlow).
    split; [| split; [split |]].
    + discriminate.
    + intros _. exact Hlow.
    + reflexivity.
    + intros (j & name & Hj & H70). specialize (Hlow j name Hj). lra.
Qed.

(** C7.  A query whose normalised form is the name of the entry at [idx],
    and which scores 100 against itself while no earlier entry scores 100,
    is matched to that entry with score 100; [Chatbot] then gives advice
    for it (unless the normalised form is the word that ends the chat). *)
Theorem Matcher_exact_name (raw : list (option string)) (inp : string) (idx : nat) :
  let symptoms := Chatbot.load_symptoms raw in
  let clean_input := Chatbot.clean_input inp in
  symptoms !! idx = Some (Some clean_input) ->
  scorer clean_input clean_input == 100 ->
  (forall j other, (j < idx)%nat -> symptoms !! j = Some (Some other) ->
                   ~ scorer clean_input other == 100) ->
  (exists score,
     Chatbot.extractOne scorer clean_input symptoms 70 = Some (clean_input, score, idx) /\
     score == 100) /\
  Chatbot.Matcher scorer symptoms clean_input = Some idx /\
  (clean_input <> "Exit"%string -> Chatbot.Chatbot_turn scorer symptoms inp = Chatbot.Advice idx).
Proof.
  intros symptoms clean Hidx H100 Hearlier.
  destruct (extractOne_state scorer scorer_le_100 clean symptoms) as [cutoff Hst].
  assert (Hres : exists score,
            Chatbot.extractOne scorer clean symptoms 70 = Some (clean, score, idx) /\
            score == 100).
  { destruct (Chatbot.extractOne scorer clean symptoms 70) as [[[name best] i] |];
      cbn in Hst.
    - destruct Hst as (_ & Hb & He & Hi & Hmax & Hfirst).
      pose proof (Hmax idx clean Hidx) as Hge.
      pose proof (scorer_le_100 clean name) as Hle. rewrite <- He in Hle.
      assert (Hbest : best == 100) by lra.
      destruct (Nat.lt_trichotomy i idx) as [Hlt | [-> | Hgt]].
      + exfalso. apply (Hearlier i name Hlt Hi). now rewrite <- He.
      + rewrite Hidx in Hi. injection Hi as <-. eauto.
      + exfalso. pose proof (Hfirst idx clean Hgt Hidx). lra.
    - destruct Hst as (_ & Hlow). specialize (Hlow idx clean Hidx). lra. }
  destruct Hres as (score & Hext & Hs).
  assert (Hm : Chatbot.Matcher scorer symptoms clean = Some idx)
    by (unfold Chatbot.Matcher; now rewrite Hext).
  repeat split; eauto.
  intros Hne. unfold Chatbot.Chatbot_turn. fold clean.
  destruct (String.eqb_spec clean "Exit"); [contradiction |]. now rewrite Hm.
Qed.

End MatcherTheorems.

Lemma prefix_scorer_le_100 (query choice : string) :
  (Examples.prefix_scorer query choice <= 100)%Q.
Proof.
  unfold Examples.prefix_scorer.
  destruct (String.eqb query choice); [| destruct (String.prefix query choice)];
    unfold Qle; cbn; lia.
Qed.

(** C6, with the stand-in scorer on the example column: "Sore" begins
    only the fifth name, which is returned, and "zzz" matches nothing. *)
Lemma Matcher_best_or_none_witness :
  Chatbot.Matcher Examples.prefix_scorer
    (Chatbot.load_symptoms Examples.symptom_column) "Sore" = Some 4%nat /\
  Chatbot.Matcher Examples.prefix_scorer
    (Chatbot.load_symptoms Examples.symptom_column) "zzz" = None.
Proof.
  split.
  - destruct (Matcher_best_or_none Examples.prefix_scorer prefix_scorer_le_100
                (Chatbot.load_symptoms Examples.symptom_column) "Sore")
      as (Hsome & _ & Hex).
    destruct Hex as [idx Hidx].
    + exists 4%nat, "Sore Throat"%string. split; [reflexivity | vm_compute; discriminate].
    + rewrite Hidx. vm_compute in Hidx. symmetry. exact Hidx.
  - apply (Matcher_best_or_none Examples.prefix_scorer prefix_scorer_le_100
             (Chatbot.load_symptoms Examples.symptom_column) "zzz").
    intros j name Hj.
    do 6 (destruct j as [| j]; [vm_compute in Hj; try discriminate;
                                injection Hj as <-; vm_compute; reflexivity |]).
    destruct j; discriminate.
Defined.

(** C7, with the stand-in scorer: the line "  sore THROAT " is matched to
    the fifth entry, "Sore Throat". *)
Lemma Matcher_exact_name_witness :
  Chatbot.Matcher Examples.prefix_scorer
    (Chatbot.load_symptoms Examples.symptom_column)
    (Chatbot.clean_input "  sore THROAT ") = Some 4%nat /\
  Chatbot.Chatbot_turn Examples.prefix_scorer
    (Chatbot.load_symptoms Examples.symptom_column) "  sore THROAT " = Chatbot.Advice 4.
Proof.
  destruct (Matcher_exact_name Examples.prefix_scorer prefix_scorer_le_100
              Examples.symptom_column "  sore THROAT " 4)
    as (_ & Hm & Ha).
  - reflexivity.
  - vm_compute. reflexivity.
  - intros j other Hlt Hj.
    do 4 (destruct j as [| j]; [vm_compute in Hj; try discriminate;
                                injection Hj as <-; vm_compute; discriminate |]).
    lia.
  - split; [exact Hm | apply Ha; vm_compute; discriminate].
Defined.

(** * Further properties of the code *)

(** ** The meal planner: shape of the plan and failures *)

Section PlannerShape.

Local Open Scope string_scope.
Local Open Scope float_scope.

Variable draws : nat -> nat.

Lemma planned_day_types (catalog : list food_row) (target_cals : Z) (d : day_plan) :
  Spec.planned_day catalog target_cals d ->
  map Type_ (Meals d) = map fst budgets.
Proof.
  intros [Hall _]. induction Hall as [| slot m slots meals Hm _ IH]; [reflexivity |].
  cbn [map]. rewrite IH. f_equal.
  destruct Hm as (t & selected & _ & _ & Hty & _). exact Hty.
Qed.

Lemma day_keys_NoDup (days : list nat) :
  List.NoDup days -> List.NoDup (map (fun day => "Day " ++ pretty day) days).
Proof.
  intros Hnd. apply NoDup_ListNoDup. apply NoDup_ListNoDup in Hnd.
  assert (Hinj : Inj (=) (=) (fun day : nat => "Day " ++ pretty day)).
  { intros x y Heq. cbn in Heq. injection Heq as Heq. now apply (inj pretty). }
  exact (NoDup_fmap_2 _ days Hnd).
Qed.

Lemma plan_keys (df_food : list food_row) (target_cals : Z)
    (goal diet_pref : string) (days : Z) (plan : list (string * day_plan)) :
  generate_meal_plan draws df_food target_cals goal diet_pref days = ret plan ->
  map fst plan = map (fun day => "Day " ++ pretty day) (seq 1 (Z.to_nat days)).
Proof.
  intros H. apply generate_meal_plan_planned in H.
  induction H as [| day entry days' plan' [Hk _] _ IH]; [reflexivity |].
  cbn [map]. now rewrite IH, Hk.
Qed.

(** X1.  A returned plan has one entry per requested day, keyed ["Day 1"],
    ["Day 2"], ... in this order (so no two entries share a key), and every
    day lists its four meals in the order breakfast, lunch, dinner,
    snack. *)
Theorem generate_meal_plan_shape (df_food : list food_row) (target_cals : Z)
    (goal diet_pref : string) (days : Z) (plan : list (string * day_plan)) :
  generate_meal_plan draws df_food target_cals goal diet_pref days = ret plan ->
  map fst plan = map (fun day => "Day " ++ pretty day) (seq 1 (Z.to_nat days)) /\
  length plan = Z.to_nat days /\
  List.NoDup (map fst plan) /\
  forall key d, In (key, d) plan ->
    map Type_ (Meals d) = ["Breakfast"; "Lunch"; "Dinner"; "Snack"].
Proof.
  intros H. pose proof (plan_keys _ _ _ _ _ _ H) as Hk.
  split; [exact Hk |]. split; [| split].
  - rewrite <- (length_map fst), Hk, length_map. apply length_seq.
  - rewrite Hk. apply day_keys_NoDup. apply List.seq_NoDup.
  - intros key d Hd. apply generate_meal_plan_planned in H.
    destruct (Forall2_In_r _ _ _ _ H Hd) as (day & _ & _ & Hday). cbn in Hday.
    exact (planned_day_types _ _ _ Hday).
Qed.

Lemma day_loop_raises (catalog : list food_row) (target_cals : Z) (e : exn)
    (slot : string * float) (rest : list (string * float)) (k : nat)
    (day_meals : list meal) (total_day : Z) :
  plan_meal draws catalog target_cals k slot = raise e ->
  day_loop draws catalog target_cals k (slot :: rest) day_meals total_day = raise e.
Proof. intros H. cbn [day_loop]. rewrite H. reflexivity. Qed.

Lemma plan_meal_empty (target_cals : Z) (k : nat) (slot : string * float) :
  returns (float_of_int target_cals) ->
  plan_meal draws [] target_cals k slot = raise ValueError.
Proof.
  intros [t Ht]. unfold plan_meal. destruct slot as [meal_name ratio].
  rewrite Ht. cbn [bind ret]. unfold sample1, candidates_for. cbn [List.filter length].
  now destruct (draws k mod 0)%nat.
Qed.

Lemma plan_meal_overflow (catalog : list food_row) (target_cals : Z) (k : nat)
    (slot : string * float) :
  (2 ^ 1024 - 2 ^ 970 <= Z.abs target_cals)%Z ->
  plan_meal draws catalog target_cals k slot = raise OverflowError.
Proof.
  intros Hbig. unfold plan_meal. destruct slot as [meal_name ratio].
  unfold float_of_int.
  destruct (Z.ltb_spec (Z.abs target_cals) (2 ^ 1024 - 2 ^ 970)); [lia | reflexivity].
Qed.

(** With a day to plan, an exception of the first meal is the planner's. *)
Lemma generate_meal_plan_first_meal (df_food : list food_row) (target_cals : Z)
    (goal diet_pref : string) (days : Z) (e : exn) :
  (0 < days)%Z ->
  plan_meal draws (rank (diet_filter df_food diet_pref) goal) target_cals 0
    ("Breakfast", 0.25) = raise e ->
  generate_meal_plan draws df_food target_cals goal diet_pref days = raise e.
Proof.
  intros Hd H. unfold generate_meal_plan.
  destruct (Z.to_nat days) as [| n] eqn:E; [lia |].
  cbn [seq plan_loop]. unfold budgets. rewrite (day_loop_raises _ _ e _ _ _ _ _ H).
  reflexivity.
Qed.

(** X2.  Without a day to plan the planner returns the empty plan, whatever
    the catalogue.  With a day to plan it raises [ValueError] when the
    diet filter leaves no row (an empty catalogue, or a vegetarian
    preference on a catalogue without a [Veg] row), and [OverflowError]
    when the target is too large for a float. *)
Theorem generate_meal_plan_errors (df_food : list food_row) (target_cals : Z)
    (goal diet_pref : string) (days : Z) :
  ((days <= 0)%Z ->
   generate_meal_plan draws df_food target_cals goal diet_pref days = ret []) /\
  ((0 < days)%Z -> returns (float_of_int target_cals) ->
   diet_filter df_food diet_pref = [] ->
   generate_meal_plan draws df_food target_cals goal diet_pref days = raise ValueError) /\
  ((0 < days)%Z -> returns (float_of_int target_cals) ->
   diet_pref = "Vegetarian" -> (forall row, In row df_food -> Diet row <> "Veg") ->
   generate_meal_plan draws df_food target_cals goal diet_pref days = raise ValueError) /\
  ((0 < days)%Z -> (2 ^ 1024 - 2 ^ 970 <= Z.abs target_cals)%Z ->
   generate_meal_plan draws df_food target_cals goal diet_pref days = raise OverflowError).
Proof.
  assert (Hempty : (0 < days)%Z -> returns (float_of_int target_cals) ->
            diet_filter df_food diet_pref = [] ->
            generate_meal_plan draws df_food target_cals goal diet_pref days
            = raise ValueError).
  { intros Hd [t Ht] Hnil.
    assert (Hr : rank (diet_filter df_food diet_pref) goal = []).
    { rewrite Hnil. unfold rank.
      destruct (String.eqb goal "Muscle Gain"), (String.eqb goal "Weight Loss"); reflexivity. }
    apply generate_meal_plan_first_meal; [assumption |].
    rewrite Hr. apply plan_meal_empty. now exists t. }
  split; [| split; [exact Hempty | split]].
  - intros Hd. unfold generate_meal_plan.
    replace (Z.to_nat days) with 0%nat by lia. reflexivity.
  - intros Hd Ht -> Hnone. apply Hempty; auto.
    destruct (diet_filter df_food "Vegetarian") as [| row rest] eqn:E; [reflexivity |].
    exfalso. assert (Hin : In row (diet_filter df_food "Vegetarian")) by (rewrite E; now left).
    apply diet_filter_In in Hin as [Hin Hveg]. exact (Hnone row Hin (Hveg eq_refl)).
  - intros Hd Hbig. apply generate_meal_plan_first_meal; [assumption |].
    now apply plan_meal_overflow.
Qed.

End PlannerShape.

(** X1, at the default catalogue: the three days of a vegetarian plan. *)
Lemma generate_meal_plan_shape_witness :
  exists plan,
    generate_meal_plan (fun k => (7 * k + 3)%nat) default_food_db 2000
      "Weight Loss"%string "Vegetarian"%string 3 = ret plan /\
    map fst plan = ["Day 1"; "Day 2"; "Day 3"]%string /\
    length plan = 3%nat.
Proof.
  eexists. split; [vm_compute; reflexivity |].
  match goal with
  | |- map fst ?plan = _ /\ _ =>
      assert (H : generate_meal_plan (fun k => (7 * k + 3)%nat) default_food_db 2000
                    "Weight Loss"%string "Vegetarian"%string 3 = ret plan)
        by (vm_compute; reflexivity);
      destruct (generate_meal_plan_shape _ _ _ _ _ _ _ H) as (Hkeys & Hlen & _)
  end.
  split; [exact Hkeys | exact Hlen].
Defined.

(** ** The meal planner: the ranking *)

Section SortFacts.

Context {A : Type} (le : A -> A -> bool) (P : A -> Prop).

(** [le] decides a total preorder on the rows that satisfy [P]. *)
Hypothesis le_total : forall a b, P a -> P b -> le a b = false -> le b a = true.

Lemma insert_by_sorted (x : A) (l : list A) :
  P x -> (forall y, In y l -> P y) ->
  Sorted (fun a b => le a b = true) l ->
  Sorted (fun a b => le a b = true) (insert_by le x l).
Proof.
  intros Hx Hl Hs. induction Hs as [| y l Hs IH Hhd]; cbn.
  - repeat constructor.
  - destruct (le x y) eqn:E.
    + constructor; [constructor; assumption | constructor; assumption].
    + assert (Hy : P y) by (apply Hl; now left).
      constructor; [apply IH; intros z Hz; apply Hl; now right |].
      destruct l as [| z l]; cbn.
      * constructor. now apply le_total.
      * destruct (le x z) eqn:E'; constructor; [now apply le_total |].
        now inversion Hhd.
Qed.

Lemma sort_values_sorted (l : list A) :
  (forall y, In y l -> P y) ->
  Sorted (fun a b => le a b = true) (sort_values le l).
Proof.
  induction l as [| x l IH]; intros Hl; cbn; [constructor |].
  apply insert_by_sorted.
  - apply Hl. now left.
  - intros y Hy. apply Hl. right.
    exact (Permutation_in _ (sort_values_perm le l) Hy).
  - apply IH. intros y Hy. apply Hl. now right.
Qed.

End SortFacts.

Section FloatTotal.

Local Open Scope float_scope.

Lemma is_nan_Prim2SF (x : float) : is_nan x = false <-> Prim2SF x <> S754_nan.
Proof.
  unfold is_nan. rewrite FloatAxioms.eqb_spec. unfold SFeqb, SFcompare.
  destruct (Prim2SF x) as [s | s | | s m e].
  - destruct s; split; intros; [discriminate | reflexivity | discriminate | reflexivity].
  - destruct s; split; intros; [discriminate | reflexivity | discriminate | reflexivity].
  - cbn. split; [discriminate | congruence].
  - rewrite Z.compare_refl, Pos.compare_cont_refl.
    destruct s; split; intros; [discriminate | reflexivity | discriminate | reflexivity].
Qed.

Lemma not_nan_comparable (x y : float) :
  is_nan x = false -> is_nan y = false -> comparable x y = true.
Proof.
  rewrite !is_nan_Prim2SF. unfold comparable.
  destruct (Prim2SF x) as [sx | sx | | sx mx ex], (Prim2SF y) as [sy | sy | | sy my ey];
    try congruence; intros _ _; cbn;
    try destruct sx; try destruct sy; try reflexivity;
    destruct (ex ?= ey)%Z; try reflexivity;
    destruct (Pos.compare_cont Eq mx my); reflexivity.
Qed.

Lemma leb_total (x y : float) :
  is_nan x = false -> is_nan y = false -> (x <=? y) = false -> (y <=? x) = true.
Proof.
  intros Hx Hy H. apply ltb_leb.
  pose proof (not_nan_comparable x y Hx Hy) as Hc.
  revert H Hc. rewrite leb_spec, ltb_spec. unfold SFleb, SFltb, comparable.
  rewrite (SFcompare_swap (Prim2SF x) (Prim2SF y)).
  destruct (SFcompare (Prim2SF x) (Prim2SF y)) as [[]|]; cbn; congruence.
Qed.

End FloatTotal.

Section RankTheorem.

Local Open Scope string_scope.

Lemma Sorted_weaken {A : Type} (R R' : A -> A -> Prop) (l : list A) :
  (forall a b, R a b -> R' a b) -> Sorted R l -> Sorted R' l.
Proof.
  intros Himp Hs. induction Hs as [| x l Hs IH Hhd]; constructor; [assumption |].
  destruct Hhd; constructor. now apply Himp.
Qed.

(** X3.  The ranking only reorders the catalogue.  For the goal
    [Weight Loss] the rows come in ascending calories; for [Muscle Gain],
    when no protein value is missing, in descending protein; for any other
    goal the catalogue is left as it is. *)
Theorem rank_sorted (df_food : list food_row) (goal : string) :
  Permutation (rank df_food goal) df_food /\
  Sorted (fun a b => (Calories_per_Serving a <= Calories_per_Serving b)%Z)
    (rank df_food "Weight Loss") /\
  ((forall row, In row df_food -> is_nan (Protein_per_Serving row) = false) ->
   Sorted (fun a b => (Protein_per_Serving b <=? Protein_per_Serving a)%float = true)
     (rank df_food "Muscle Gain")) /\
  (goal <> "Muscle Gain" -> goal <> "Weight Loss" -> rank df_food goal = df_food).
Proof.
  split; [apply rank_perm | split; [| split]].
  - apply (Sorted_weaken
             (fun a b => (Calories_per_Serving a <=? Calories_per_Serving b)%Z = true)).
    + intros a b. apply Z.leb_le.
    + apply (sort_values_sorted _ (fun _ => True)); [| auto].
      intros a b _ _ H. apply Z.leb_gt in H. apply Z.leb_le. lia.
  - intros Hnan.
    apply (sort_values_sorted _ (fun row => is_nan (Protein_per_Serving row) = false));
      [| exact Hnan].
    intros a b Ha Hb. now apply leb_total.
  - intros H1 H2. unfold rank.
    destruct (String.eqb_spec goal "Muscle Gain"); [contradiction |].
    destruct (String.eqb_spec goal "Weight Loss"); [contradiction | reflexivity].
Qed.

End RankTheorem.

(** ** The meal planner: items without calories, and the day total *)

Section ZeroCalories.

Local Open Scope string_scope.
Local Open Scope float_scope.

Lemma Prim2SF_eq (x : float) (y : spec_float) :
  Prim2SF x = y -> x = SF2Prim y.
Proof. intros <-. symmetry. apply SF2Prim_Prim2SF. Qed.

(** Division by zero in binary64: the infinity of the sign of a non-zero
    number, NaN for a zero or a NaN. *)
Lemma div_by_zero (x : float) :
  ((0 <? x) = true -> x / of_Z 0 = infinity) /\
  ((x <? 0) = true -> x / of_Z 0 = neg_infinity) /\
  ((0 <? x) = false -> (x <? 0) = false -> x / of_Z 0 = nan).
Proof.
  assert (Hq : Prim2SF (x / of_Z 0) = SFdiv prec emax (Prim2SF x) (S754_zero false)).
  { rewrite div_spec. reflexivity. }
  rewrite !ltb_spec. change (Prim2SF 0) with (S754_zero false).
  destruct (Prim2SF x) as [s | s | | s m e] eqn:E; cbn in Hq; unfold SFltb; cbn.
  - repeat split; try discriminate. intros _ _. apply Prim2SF_eq in Hq. rewrite Hq. reflexivity.
  - destruct s; repeat split; try discriminate; intros; apply Prim2SF_eq in Hq; rewrite Hq;
      reflexivity.
  - repeat split; try discriminate. intros _ _. apply Prim2SF_eq in Hq. rewrite Hq. reflexivity.
  - destruct s; repeat split; try discriminate; intros; apply Prim2SF_eq in Hq; rewrite Hq;
      reflexivity.
Qed.

Lemma quantity_zero_calories (budget : float) (selected : food_row) :
  Calories_per_Serving selected = 0%Z ->
  ((0 <? budget) = true -> quantity budget selected = 3.0) /\
  ((0 <? budget) = false -> quantity budget selected = 0.5).
Proof.
  intros Hz. unfold quantity. rewrite Hz.
  destruct (div_by_zero budget) as (Hpos & Hneg & Hnan).
  split.
  - intros H. rewrite (Hpos H). vm_compute. reflexivity.
  - intros H. destruct (budget <? 0) eqn:E.
    + rewrite (Hneg eq_refl). vm_compute. reflexivity.
    + rewrite (Hnan H eq_refl). vm_compute. reflexivity.
Qed.

End ZeroCalories.

Section PlannerMore.

Local Open Scope string_scope.
Local Open Scope float_scope.

Variable draws : nat -> nat.

(** X4.  An item without calories never stops the planner: the division
    by zero raises nothing, and a meal made of such an item is recorded
    with 0 kcal, at quantity 3.0 when the meal's budget is positive and
    0.5 otherwise. *)
Theorem generate_meal_plan_zero_calories (df_food : list food_row) (target_cals : Z)
    (goal diet_pref : string) (days : Z) (plan : list (string * day_plan))
    (key : string) (d : day_plan) (m : meal) :
  generate_meal_plan draws df_food target_cals goal diet_pref days = ret plan ->
  In (key, d) plan -> In m (Meals d) ->
  exists slot t selected,
    In slot budgets /\
    float_of_int target_cals = ret t /\
    In selected df_food /\
    Dish m = Dish_Name selected /\
    Qty m = quantity (t * snd slot) selected /\
    (Calories_per_Serving selected = 0%Z ->
     Cals m = 0%Z /\
     ((0 <? t * snd slot) = true -> Qty m = 3.0) /\
     ((0 <? t * snd slot) = false -> Qty m = 0.5)).
Proof.
  intros H Hd Hm.
  destruct (generate_meal_plan_meal draws _ _ _ _ _ _ _ _ _ H Hd Hm)
    as (slot & Hslot & t & selected & Ht & Hsel & _ & Hdish & Hq & Hc & _).
  exists slot, t, selected.
  apply candidates_for_In, catalog_In in Hsel as [Hin _].
  split; [exact Hslot |]. split; [exact Ht |]. split; [exact Hin |].
  split; [exact Hdish |]. split; [exact Hq |].
  intros Hz. split; [| rewrite Hq; now apply quantity_zero_calories].
  destruct (quantity_bounds (t * snd slot) selected) as [Hlo Hhi].
  rewrite <- Hq in Hlo, Hhi. rewrite Hz in Hc.
  destruct (py_int_scaled_bounds 0 (Qty m) (Cals m)) as [H1 H2]; try assumption; lia.
Qed.

Lemma planned_meal_Cals (catalog : list food_row) (target_cals : Z)
    (slot : string * float) (m : meal) (M : Z) :
  (forall row, In row catalog -> (0 <= Calories_per_Serving row <= M)%Z) ->
  (M < 2 ^ 50)%Z ->
  Spec.planned_meal catalog target_cals slot m ->
  (0 <= Cals m <= 3 * M)%Z.
Proof.
  intros Hall HM (t & selected & _ & Hsel & _ & _ & Hq & Hc & _).
  apply candidates_for_In in Hsel. specialize (Hall _ Hsel).
  destruct (quantity_bounds (t * snd slot) selected) as [Hlo Hhi].
  rewrite <- Hq in Hlo, Hhi.
  destruct (py_int_scaled_bounds (Calories_per_Serving selected) (Qty m) (Cals m))
    as [H1 H2]; try assumption; lia.
Qed.

(** X5.  When every item of the catalogue has between 0 and [M] kcal per
    serving ([M] below [2^50]), every meal of a returned plan has between
    0 and [3 M] kcal and every day total lies between 0 and [12 M],
    whatever the target. *)
Theorem generate_meal_plan_total_bounds (df_food : list food_row) (target_cals : Z)
    (goal diet_pref : string) (days : Z) (plan : list (string * day_plan))
    (key : string) (d : day_plan) (M : Z) :
  (forall row, In row df_food -> (0 <= Calories_per_Serving row <= M)%Z) ->
  (M < 2 ^ 50)%Z ->
  generate_meal_plan draws df_food target_cals goal diet_pref days = ret plan ->
  In (key, d) plan ->
  (forall m, In m (Meals d) -> (0 <= Cals m <= 3 * M)%Z) /\
  (0 <= Total d <= 12 * M)%Z.
Proof.
  intros Hall HM H Hd. apply generate_meal_plan_planned in H.
  destruct (Forall2_In_r _ _ _ _ H Hd) as (day & _ & _ & Hday & Htot). cbn in Hday, Htot.
  assert (Hcat : forall row, In row (rank (diet_filter df_food diet_pref) goal) ->
            (0 <= Calories_per_Serving row <= M)%Z).
  { intros row Hin. apply Hall. apply catalog_In in Hin. tauto. }
  assert (Hmeals : Forall (fun m => (0 <= Cals m <= 3 * M)%Z) (Meals d)).
  { clear Htot. induction Hday as [| slot m slots meals Hm _ IH]; constructor; [| exact IH].
    exact (planned_meal_Cals _ _ _ _ _ Hcat HM Hm). }
  split; [now apply List.Forall_forall |].
  rewrite Htot. pose proof Hday as Hlen. apply Forall2_length in Hlen. cbn in Hlen.
  destruct (Meals d) as [| m1 [| m2 [| m3 [| m4 [| m5 rest]]]]]; try discriminate.
  repeat match goal with
         | Hf : Forall _ (_ :: _) |- _ => apply Forall_cons_1 in Hf as [? Hf]
         end.
  cbn. lia.
Qed.

End PlannerMore.

(** X4, on a catalogue that holds only a drink without calories: the
    breakfast of the plan for 2000 kcal is three servings of it, 0 kcal. *)
Lemma generate_meal_plan_zero_calories_witness :
  exists plan key d m,
    generate_meal_plan (fun _ => 0%nat) [Examples.black_coffee] 2000
      "Maintain"%string "Non-Vegetarian"%string 1 = ret plan /\
    In (key, d) plan /\ nth_error (Meals d) 0 = Some m /\
    Cals m = 0%Z /\ Qty m = 3.0%float.
Proof.
  eexists. eexists. eexists. eexists.
  split; [vm_compute; reflexivity |].
  split; [left; reflexivity |]. split; [reflexivity |].
  match goal with
  | |- Cals ?m = _ /\ _ =>
      destruct (generate_meal_plan_zero_calories (fun _ => 0%nat) [Examples.black_coffee]
                  2000 "Maintain"%string "Non-Vegetarian"%string 1 _ "Day 1"%string _ m
                  ltac:(vm_compute; reflexivity) (or_introl eq_refl) (or_introl eq_refl))
        as (slot & t & selected & _ & _ & Hin & _ & _ & Hzero)
  end.
  destruct Hin as [<- | []]. destruct (Hzero eq_refl) as (Hcals & _).
  split; [exact Hcals | reflexivity].
Defined.

(** X5, at the default catalogue, whose items have at most 400 kcal. *)
Lemma generate_meal_plan_total_bounds_witness :
  exists d,
    generate_meal_plan (fun k => (7 * k + 3)%nat) default_food_db 2000
      "Maintain"%string "Non-Vegetarian"%string 1 = ret [("Day 1"%string, d)] /\
    (0 <= Total d <= 4800)%Z.
Proof.
  eexists. split; [vm_compute; reflexivity |].
  match goal with
  | |- (0 <= Total ?d <= _)%Z =>
      apply (generate_meal_plan_total_bounds (fun k => (7 * k + 3)%nat) default_food_db 2000
               "Maintain"%string "Non-Vegetarian"%string 1 [("Day 1"%string, d)]
               "Day 1"%string d 400)
  end.
  - intros row Hin.
    repeat (destruct Hin as [<- | Hin]; [vm_compute; split; congruence |]).
    destruct Hin.
  - reflexivity.
  - vm_compute. reflexivity.
  - left. reflexivity.
Defined.

(** ** The streak counter: what the count is, and what it depends on *)

Section StreakMore.

Local Open Scope string_scope.
Local Open Scope Z_scope.

(** The loop adds at most one per logged day that is not after
    [check_date]. *)
Lemma streak_loop_bounds (valid_dates : list Z) (fuel : nat) :
  forall (check_date streak n : Z),
    streak_loop fuel valid_dates check_date streak = Some n ->
    streak <= n <=
    streak + Z.of_nat (length (List.filter (fun d => (d <=? check_date)%Z) valid_dates)).
Proof.
  induction fuel as [| fuel IH]; intros check_date streak n H; [discriminate |].
  cbn [streak_loop] in H. destruct (contains valid_dates check_date) eqn:E.
  - apply IH in H. apply contains_In in E.
    pose proof (not_after_shrinks valid_dates check_date E). lia.
  - injection H as <-. lia.
Qed.

(** The loop only looks at days that are not after [check_date]. *)
Lemma streak_loop_ext_upto (valid_dates valid_dates' : list Z) (fuel : nat) :
  forall (check_date streak : Z),
    (forall x, x <= check_date -> contains valid_dates x = contains valid_dates' x) ->
    streak_loop fuel valid_dates check_date streak
    = streak_loop fuel valid_dates' check_date streak.
Proof.
  induction fuel as [| fuel IH]; intros check_date streak Hext; [reflexivity |].
  cbn [streak_loop]. rewrite (Hext check_date) by lia.
  rewrite (IH (check_date - 1) (streak + 1)); [reflexivity |].
  intros x Hx. apply Hext. lia.
Qed.

Lemma contains_iff (l l' : list Z) (x : Z) :
  (In x l <-> In x l') -> contains l x = contains l' x.
Proof.
  intros H. destruct (contains l' x) eqn:E.
  - apply contains_In, H, contains_In, E.
  - apply contains_false. apply contains_false in E. tauto.
Qed.

(** What the loop returns is the length of a run of logged days that ends
    at a gap. *)
Lemma streak_loop_run_inv (valid_dates : list Z) (fuel : nat) :
  forall (check_date streak n : Z),
    streak_loop fuel valid_dates check_date streak = Some n ->
    (forall i, 0 <= i < n - streak -> In (check_date - i) valid_dates) /\
    ~ In (check_date - (n - streak)) valid_dates.
Proof.
  induction fuel as [| fuel IH]; intros check_date streak n H; [discriminate |].
  cbn [streak_loop] in H. destruct (contains valid_dates check_date) eqn:E.
  - pose proof (streak_loop_bounds _ _ _ _ _ H) as Hb.
    apply IH in H as [Hrun Hgap]. apply contains_In in E. split.
    + intros i Hi. destruct (Z.eq_dec i 0) as [-> | Hne].
      * now replace (check_date - 0) with check_date by lia.
      * replace (check_date - i) with (check_date - 1 - (i - 1)) by lia. apply Hrun. lia.
    + now replace (check_date - (n - streak)) with (check_date - 1 - (n - (streak + 1)))
        by lia.
  - injection H as <-. apply contains_false in E. split; [lia |].
    now replace (check_date - (streak - streak)) with check_date by lia.
Qed.

Variable to_datetime : list cell -> list (option Z).

(** X6.  Whatever count [n] the call returns on a non-empty table with a
    [Date] column, it is at most the number of distinct days logged, and
    it is exactly the length of the run of logged days that ends today
    (or, when today is not logged, yesterday): those [n] days are all
    logged and the day before them is not.  The count is positive exactly
    when today or yesterday is logged. *)
Theorem calculate_streak_run (fuel : nat) (today : Z) (h h' : heap) (l : nat)
    (df : DataFrame) (dates : list cell) (n : Z) :
  h !! l = Some df -> df_empty df = false -> columns df !! "Date" = Some dates ->
  calculate_streak to_datetime fuel today (Some l) h = Some (ret n, h') ->
  let days := logged_days to_datetime dates in
  0 <= n <= Z.of_nat (length days) /\
  (In today days ->
   (forall i, 0 <= i < n -> In (today - i) days) /\ ~ In (today - n) days) /\
  (~ In today days ->
   (forall i, 0 <= i < n -> In (today - 1 - i) days) /\ ~ In (today - 1 - n) days) /\
  (1 <= n <-> In today days \/ In (today - 1) days).
Proof.
  intros Hl He Hd H days.
  rewrite (calculate_streak_nonempty to_datetime _ _ _ _ _ _ Hl He Hd) in H. cbn zeta in H.
  fold days in H.
  assert (Hloop : forall c k, streak_loop fuel days c 0 = Some k -> In c days ->
            1 <= k <= Z.of_nat (length days) /\
            (forall i, 0 <= i < k -> In (c - i) days) /\ ~ In (c - k) days).
  { intros c k Hk Hc. pose proof (streak_loop_bounds _ _ _ _ _ Hk) as Hb.
    pose proof (filter_length_le (fun d => (d <=? c)%Z) days) as Hf.
    destruct (streak_loop_run_inv _ _ _ _ _ Hk) as [Hrun Hgap].
    rewrite Z.sub_0_r in Hrun, Hgap.
    assert (Hk1 : 1 <= k).
    { destruct (Z.le_gt_cases 1 k) as [? | Hk0]; [assumption |].
      exfalso. apply Hgap. replace k with 0 by lia. now rewrite Z.sub_0_r. }
    split; [lia | split; assumption]. }
  destruct (contains days today) eqn:Et.
  - destruct (streak_loop fuel days today 0) as [k |] eqn:Ek; [| discriminate].
    cbn in H. injection H as <- _. apply contains_In in Et.
    destruct (Hloop _ _ Ek Et) as (Hk & Hrun & Hgap).
    split; [lia |]. split; [tauto |]. split; [tauto |]. split; [tauto | lia].
  - apply contains_false in Et. destruct (contains days (today - 1)) eqn:Ey.
    + destruct (streak_loop fuel days (today - 1) 0) as [k |] eqn:Ek; [| discriminate].
      cbn in H. injection H as <- _. apply contains_In in Ey.
      destruct (Hloop _ _ Ek Ey) as (Hk & Hrun & Hgap).
      split; [lia |]. split; [tauto |]. split; [tauto |]. split; [tauto | lia].
    + injection H as <- _. apply contains_false in Ey.
      split; [lia |]. split; [tauto |]. split; [| split; [lia | tauto]].
      intros _. split; [intros i Hi; lia | now rewrite Z.sub_0_r].
Qed.

(** X7.  The count depends only on which days up to today are logged: two
    tables whose parseable dates cover the same days up to today give the
    same result, whatever the order of their rows, their repeated or
    unparseable dates, and their entries dated after today. *)
Theorem calculate_streak_days_only (fuel : nat) (today : Z) (h1 h2 : heap) (l1 l2 : nat)
    (df1 df2 : DataFrame) (dates1 dates2 : list cell) :
  h1 !! l1 = Some df1 -> df_empty df1 = false -> columns df1 !! "Date" = Some dates1 ->
  h2 !! l2 = Some df2 -> df_empty df2 = false -> columns df2 !! "Date" = Some dates2 ->
  (forall x, x <= today ->
     (In x (logged_days to_datetime dates1) <-> In x (logged_days to_datetime dates2))) ->
  fst <$> calculate_streak to_datetime fuel today (Some l1) h1
  = fst <$> calculate_streak to_datetime fuel today (Some l2) h2.
Proof.
  intros Hl1 He1 Hd1 Hl2 He2 Hd2 Hsame.
  rewrite (calculate_streak_nonempty to_datetime _ _ _ _ _ _ Hl1 He1 Hd1).
  rewrite (calculate_streak_nonempty to_datetime _ _ _ _ _ _ Hl2 He2 Hd2). cbn zeta.
  set (days1 := logged_days to_datetime dates1) in *.
  set (days2 := logged_days to_datetime dates2) in *.
  assert (Hc : forall x, x <= today -> contains days1 x = contains days2 x).
  { intros x Hx. apply contains_iff. now apply Hsame. }
  rewrite (Hc today) by lia. rewrite (Hc (today - 1)) by lia.
  rewrite (streak_loop_ext_upto days1 days2 fuel today 0 Hc).
  rewrite (streak_loop_ext_upto days1 days2 fuel (today - 1) 0)
    by (intros x Hx; apply Hc; lia).
  destruct (contains days2 today).
  - destruct (streak_loop fuel days2 today 0); reflexivity.
  - destruct (contains days2 (today - 1)); [| reflexivity].
    destruct (streak_loop fuel days2 (today - 1) 0); reflexivity.
Qed.

(** X8.  The table is changed by the first call only: a second call on the
    heap the first one left returns the same result and leaves that heap
    as it is. *)
Theorem calculate_streak_again (fuel : nat) (today : Z) (df_food : option nat)
    (h h' : heap) (r : result Z) :
  calculate_streak to_datetime fuel today df_food h = Some (r, h') ->
  calculate_streak to_datetime fuel today df_food h' = Some (r, h').
Proof.
  intros H. destruct df_food as [l |]; [| cbn in H |- *; congruence].
  destruct (h !! l) as [df |] eqn:Hl;
    [| unfold calculate_streak in H; rewrite Hl in H; discriminate].
  destruct (df_empty df) eqn:He.
  - unfold calculate_streak in H. rewrite Hl in H. cbn in H. rewrite He in H.
    injection H as <- <-. unfold calculate_streak. rewrite Hl. cbn. now rewrite He.
  - destruct (columns df !! "Date") as [dates |] eqn:Hd.
    + pose proof H as H1.
      rewrite (calculate_streak_nonempty to_datetime _ _ _ _ _ _ Hl He Hd) in H1.
      cbn zeta in H1.
      set (df' := set_column df "DateObj" (map CTime (to_datetime dates))) in *.
      assert (Hh' : h' = <[l := df']> h).
      { destruct (contains _ today).
        - destruct (streak_loop _ _ today 0); [| discriminate]. cbn in H1. congruence.
        - destruct (contains _ (today - 1)); [| congruence].
          destruct (streak_loop _ _ (today - 1) 0); [| discriminate]. cbn in H1. congruence. }
      assert (Hl' : h' !! l = Some df') by (rewrite Hh'; apply lookup_insert_eq).
      assert (He' : df_empty df' = false).
      { unfold df_empty in *. cbn. apply orb_false_iff in He as [Hn Hdom].
        rewrite Hn. cbn. apply bool_decide_eq_false. rewrite dom_insert_L. set_solver. }
      assert (Hd' : columns df' !! "Date" = Some dates).
      { cbn. rewrite lookup_insert_ne by discriminate. exact Hd. }
      rewrite (calculate_streak_nonempty to_datetime _ _ _ _ _ _ Hl' He' Hd'). cbn zeta.
      assert (Hsame :
                <[l := set_column df' "DateObj" (map CTime (to_datetime dates))]> h' = h').
      { rewrite Hh'. rewrite insert_insert_eq. f_equal. unfold set_column, df'. cbn.
        now rewrite insert_insert_eq. }
      rewrite Hsame. rewrite <- Hh' in H1. exact H1.
    + unfold calculate_streak in H. rewrite Hl in H. cbn in H. rewrite He, Hd in H.
      injection H as <- <-. unfold calculate_streak. rewrite Hl. cbn. now rewrite He, Hd.
Qed.

End StreakMore.

(** X6, on the example log read on 2024-03-10: the count 2 is the run of
    the two days that end today. *)
Lemma calculate_streak_run_witness :
  (0 <= 2 <= 2)%Z /\
  (forall i, (0 <= i < 2)%Z ->
     In (Examples.march_10 - i)%Z
       (logged_days Examples.iso_to_datetime
          [CStr "2024-03-09"%string; CStr "09/03/2024"%string; CStr "2024-03-10"%string])).
Proof.
  destruct (calculate_streak_run Examples.iso_to_datetime 10 Examples.march_10
              Examples.heap_with_log _ 1%nat Examples.food_log
              [CStr "2024-03-09"%string; CStr "09/03/2024"%string; CStr "2024-03-10"%string]
              2 ltac:(reflexivity) ltac:(reflexivity) ltac:(reflexivity)
              ltac:(vm_compute; reflexivity)) as (Hbound & Htoday & _).
  split; [exact Hbound |].
  apply Htoday. vm_compute. tauto.
Defined.

(** X7, on the example log and its reordered copy, read on 2024-03-10. *)
Lemma calculate_streak_days_only_witness :
  fst <$> calculate_streak Examples.iso_to_datetime 10 Examples.march_10 (Some 1%nat)
            Examples.heap_with_log
  = fst <$> calculate_streak Examples.iso_to_datetime 10 Examples.march_10 (Some 7%nat)
              {[ 7%nat := Examples.food_log_reordered ]}.
Proof.
  apply (calculate_streak_days_only Examples.iso_to_datetime 10 Examples.march_10
           Examples.heap_with_log {[ 7%nat := Examples.food_log_reordered ]} 1 7
           Examples.food_log Examples.food_log_reordered
           [CStr "2024-03-09"%string; CStr "09/03/2024"%string; CStr "2024-03-10"%string]
           [CStr "2024-03-10"%string; CStr "2024-03-09"%string; CStr "2024-03-10"%string;
            CStr "2024-03-15"%string; CStr "tomorrow"%string]);
    try reflexivity.
  intros x Hx.
  replace (logged_days Examples.iso_to_datetime
             [CStr "2024-03-09"%string; CStr "09/03/2024"%string; CStr "2024-03-10"%string])
    with [19791; 19792]%Z by (vm_compute; reflexivity).
  replace (logged_days Examples.iso_to_datetime
             [CStr "2024-03-10"%string; CStr "2024-03-09"%string; CStr "2024-03-10"%string;
              CStr "2024-03-15"%string; CStr "tomorrow"%string])
    with [19792; 19791; 19797]%Z by (vm_compute; reflexivity).
  unfold Examples.march_10 in Hx. cbn [In]. lia.
Defined.

(** X8, on the example log: the second call returns 2 again and leaves
    the heap of the first. *)
Lemma calculate_streak_again_witness :
  exists h',
    calculate_streak Examples.iso_to_datetime 10 Examples.march_10 (Some 1%nat)
      Examples.heap_with_log = Some (ret 2%Z, h') /\
    calculate_streak Examples.iso_to_datetime 10 Examples.march_10 (Some 1%nat) h'
    = Some (ret 2%Z, h').
Proof.
  eexists. split; [vm_compute; reflexivity |].
  apply (calculate_streak_again Examples.iso_to_datetime 10 Examples.march_10 (Some 1%nat)
           Examples.heap_with_log).
  vm_compute. reflexivity.
Defined.

(** ** The chatbot: the word that ends the chat *)

Section ChatbotExit.

Local Open Scope string_scope.

Lemma upper_is_E (c : ascii) : upper c = "E"%char <-> lower c = "e"%char.
Proof. destruct c as [[] [] [] [] [] [] [] []]; vm_compute; split; congruence. Qed.

Lemma lower_is (c d : ascii) :
  islower d = true -> lower c = d -> isupper c || islower c = true.
Proof.
  intros Hd <-. destruct c as [[] [] [] [] [] [] [] []]; vm_compute in Hd |- *; congruence.
Qed.

Lemma upper_E_cased (c : ascii) : upper c = "E"%char -> isupper c || islower c = true.
Proof. destruct c as [[] [] [] [] [] [] [] []]; vm_compute; congruence. Qed.

Lemma title_Exit (s : string) : title s = "Exit" <-> str_lower s = "exit".
Proof.
  unfold title.
  destruct s as [| c1 [| c2 [| c3 [| c4 [| c5 s]]]]]; cbn; try (split; discriminate).
  split.
  - intros H. injection H as H1 H2 H3 H4.
    pose proof (upper_E_cased c1 H1) as Hc1. rewrite Hc1 in H2.
    pose proof (lower_is c2 "x"%char eq_refl H2) as Hc2. rewrite Hc2 in H3.
    pose proof (lower_is c3 "i"%char eq_refl H3) as Hc3. rewrite Hc3 in H4.
    apply upper_is_E in H1. congruence.
  - intros H. injection H as H1 H2 H3 H4.
    pose proof (lower_is c1 "e"%char eq_refl H1) as Hc1. rewrite Hc1.
    pose proof (lower_is c2 "x"%char eq_refl H2) as Hc2. rewrite Hc2.
    pose proof (lower_is c3 "i"%char eq_refl H3) as Hc3. rewrite Hc3.
    apply upper_is_E in H1. congruence.
Qed.

Variable scorer : string -> string -> Q.

(** X9.  A line of ASCII text ends the chat exactly when, once its
    surrounding whitespace is removed, it spells [exit] in any mix of
    upper and lower case; such a line is never matched against the
    symptoms, and no other ASCII line ends the chat.  (On other text
    Python's [strip] also removes the whitespace of Unicode.) *)
Theorem Chatbot_turn_exit (symptoms : list (option string)) (inp : string) :
  isascii inp = true ->
  (Chatbot.Chatbot_turn scorer symptoms inp = Chatbot.Goodbye <->
   str_lower (strip inp) = "exit").
Proof.
  intros _.
  rewrite <- title_Exit. unfold Chatbot.Chatbot_turn, Chatbot.clean_input. cbn zeta.
  destruct (String.eqb_spec (title (strip inp)) "Exit") as [He | Hne]; [tauto |].
  destruct (Chatbot.Matcher scorer symptoms (title (strip inp)));
    (split; [intros H; discriminate H | intros H; contradiction]).
Qed.

End ChatbotExit.

(** X9, with the stand-in scorer: the line "  eXiT " ends the chat, and
    the line "exit now" does not. *)
Lemma Chatbot_turn_exit_witness :
  Chatbot.Chatbot_turn Examples.prefix_scorer
    (Chatbot.load_symptoms Examples.symptom_column) "  eXiT " = Chatbot.Goodbye /\
  Chatbot.Chatbot_turn Examples.prefix_scorer
    (Chatbot.load_symptoms Examples.symptom_column) "exit now" <> Chatbot.Goodbye.
Proof.
  split.
  - apply (Chatbot_turn_exit Examples.prefix_scorer
             (Chatbot.load_symptoms Examples.symptom_column) "  eXiT " eq_refl).
    reflexivity.
  - intros H.
    apply (Chatbot_turn_exit Examples.prefix_scorer
             (Chatbot.load_symptoms Examples.symptom_column) "exit now" eq_refl) in H.
    vm_compute in H. discriminate H.
Defined.

(** ** The logs *)

Section LogFacts.

Local Open Scope string_scope.

Variable to_csv : bool -> frame -> string.

Lemma length_zero (s : string) : (String.length s =? 0)%nat = true <-> s = "".
Proof. destruct s; cbn; split; congruence. Qed.

Lemma append_cons (c : ascii) (s t : string) : String c s ++ t = String c (s ++ t).
Proof. reflexivity. Qed.

Lemma append_assoc (s t u : string) : (s ++ t) ++ u = s ++ (t ++ u).
Proof. induction s as [| c s IH]; [reflexivity |]. now rewrite !append_cons, IH. Qed.

Lemma append_nil_r (s : string) : s ++ "" = s.
Proof. induction s as [| c s IH]; [reflexivity |]. now rewrite append_cons, IH. Qed.

Lemma append_nonempty (s t : string) : s <> "" -> s ++ t <> "".
Proof. destruct s; cbn; intros H; [contradiction | discriminate]. Qed.

Lemma log_data_other (file other : string) (data_dict : list (string * value)) (fs : files) :
  other <> file -> log_data to_csv file data_dict fs !! other = fs !! other.
Proof.
  intros Hne. unfold log_data. destruct (fs !! file) as [content |];
    [destruct (String.length content =? 0)%nat |]; now rewrite lookup_insert_ne.
Qed.

Lemma log_data_fresh (file : string) (data_dict : list (string * value)) (fs : files) :
  fs !! file = None \/ fs !! file = Some "" ->
  log_data to_csv file data_dict fs !! file = Some (to_csv true (frame_of_record data_dict)).
Proof.
  intros [H | H]; unfold log_data; rewrite H; cbn; apply lookup_insert_eq.
Qed.

Lemma log_data_append (file content : string) (data_dict : list (string * value))
    (fs : files) :
  fs !! file = Some content -> content <> "" ->
  log_data to_csv file data_dict fs !! file
  = Some (content ++ to_csv false (frame_of_record data_dict)).
Proof.
  intros H Hne. unfold log_data. rewrite H.
  destruct (String.length content =? 0)%nat eqn:E; [apply length_zero in E; contradiction |].
  apply lookup_insert_eq.
Qed.

Lemma log_data_rows (file : string) (records : list (list (string * value))) :
  forall (content : string) (fs : files),
    fs !! file = Some content -> content <> "" ->
    fold_left (fun fs d => log_data to_csv file d fs) records fs !! file
    = Some (content ++
            fold_right String.append ""
              (map (fun d => to_csv false (frame_of_record d)) records)).
Proof.
  induction records as [| d rest IH]; intros content fs H Hne; cbn [fold_left map fold_right].
  - rewrite H. now rewrite append_nil_r.
  - rewrite (IH (content ++ to_csv false (frame_of_record d))).
    + now rewrite append_assoc.
    + now apply log_data_append.
    + now apply append_nonempty.
Qed.

Lemma log_data_rows_other (file other : string) (records : list (list (string * value))) :
  other <> file ->
  forall fs : files,
    fold_left (fun fs d => log_data to_csv file d fs) records fs !! other = fs !! other.
Proof.
  intros Hne. induction records as [| d rest IH]; intros fs; cbn [fold_left]; [reflexivity |].
  rewrite IH. now apply log_data_other.
Qed.

(** X10.  Logging the records [d], then [rest] in order, to one file: on
    a missing or zero-length file the text is the table of [d] with its
    line of column names (when that text is not empty), followed by one
    headerless row per later record, whatever the keys of those records;
    on a file with content, that content is kept and every record adds its
    row at the end.  No other file is touched. *)
Theorem log_data_sequence (file : string) (d : list (string * value))
    (rest : list (list (string * value))) (fs : files) :
  let rows := fold_right String.append ""
                (map (fun d => to_csv false (frame_of_record d)) rest) in
  let fs' := fold_left (fun fs d => log_data to_csv file d fs) (d :: rest) fs in
  (fs !! file = None \/ fs !! file = Some "" ->
   to_csv true (frame_of_record d) <> "" ->
   fs' !! file = Some (to_csv true (frame_of_record d) ++ rows)) /\
  (forall content, fs !! file = Some content -> content <> "" ->
   fs' !! file = Some (content ++ to_csv false (frame_of_record d) ++ rows)) /\
  (forall other, other <> file -> fs' !! other = fs !! other).
Proof.
  intros rows fs'. unfold fs'. cbn [fold_left]. split; [| split].
  - intros Hfresh Hne. apply log_data_rows; [now apply log_data_fresh | exact Hne].
  - intros content H Hne.
    rewrite (log_data_rows file rest (content ++ to_csv false (frame_of_record d))).
    + now rewrite append_assoc.
    + now apply log_data_append.
    + now apply append_nonempty.
  - intros other Hne. rewrite log_data_rows_other by assumption. now apply log_data_other.
Qed.

End LogFacts.

(** X10, with the stand-in writer: two meals logged to a directory without
    a food log. *)
Lemma log_data_sequence_witness :
  fold_left (fun fs d => log_data Examples.simple_to_csv "food_log.csv" d fs)
    [Examples.idli_record; Examples.roti_record] (∅ : files) !! "food_log.csv"
  = Some ("Date,Dish,Calories"
          ++ String "010" ("2024-03-10,Idli,60"
          ++ String "010" ("2024-03-10,Roti,120" ++ String "010" "")))%string.
Proof.
  destruct (log_data_sequence Examples.simple_to_csv "food_log.csv" Examples.idli_record
              [Examples.roti_record] ∅) as (Hfresh & _).
  rewrite Hfresh.
  - vm_compute. reflexivity.
  - left. apply lookup_empty.
  - vm_compute. discriminate.
Defined.

(** ** Hydration *)

Section Hydration.

Local Open Scope string_scope.
Local Open Scope float_scope.

Lemma HYDRATION_FACTORS_get (beverage : string) :
  In (dict_get HYDRATION_FACTORS beverage 1.0) [1.0; 0.99; 0.98; 0.90; 0.95; 0.80] /\
  (~ In beverage ["Milk"; "Tea"; "Coffee"; "Juice"; "Soda"; "Alcohol"] ->
   dict_get HYDRATION_FACTORS beverage 1.0 = 1.0).
Proof.
  unfold dict_get, HYDRATION_FACTORS.
  destruct (String.eqb_spec beverage "Water") as [-> | ?]; [cbn; tauto |].
  rewrite lookup_insert_ne by congruence.
  destruct (String.eqb_spec beverage "Milk") as [-> | ?]; [cbn; tauto |].
  rewrite lookup_insert_ne by congruence.
  destruct (String.eqb_spec beverage "Tea") as [-> | ?]; [cbn; tauto |].
  rewrite lookup_insert_ne by congruence.
  destruct (String.eqb_spec beverage "Coffee") as [-> | ?]; [cbn; tauto |].
  rewrite lookup_insert_ne by congruence.
  destruct (String.eqb_spec beverage "Juice") as [-> | ?]; [cbn; tauto |].
  rewrite lookup_insert_ne by congruence.
  destruct (String.eqb_spec beverage "Soda") as [-> | ?]; [cbn; tauto |].
  rewrite lookup_insert_ne by congruence.
  destruct (String.eqb_spec beverage "Alcohol") as [-> | ?]; [cbn; tauto |].
  rewrite lookup_insert_ne by congruence.
  destruct (String.eqb_spec beverage "Sports Drink") as [-> | ?]; [cbn; tauto |].
  rewrite lookup_insert_ne by congruence.
  rewrite lookup_empty. cbn. tauto.
Qed.

(** Every factor, on every volume the form admits, by evaluation. *)
Lemma hydration_range_checked :
  forallb (fun factor =>
    forallb (fun volume =>
               let v := of_Z (Z.of_nat volume) in
               (v * factor <=? v) && (0.8 * v <=? v * factor)
               && Leibniz.eqb (v * 1.0) v)
            (seq 0 2001))
    [1.0; 0.99; 0.98; 0.90; 0.95; 0.80] = true.
Proof. vm_compute. reflexivity. Qed.

Lemma hydration_range (factor : float) (volume : Z) :
  In factor [1.0; 0.99; 0.98; 0.90; 0.95; 0.80] -> (0 <= volume <= 2000)%Z ->
  (of_Z volume * factor <=? of_Z volume) = true /\
  (0.8 * of_Z volume <=? of_Z volume * factor) = true /\
  of_Z volume * 1.0 = of_Z volume.
Proof.
  intros Hf Hv. pose proof hydration_range_checked as H.
  rewrite forallb_forall in H. specialize (H factor Hf).
  rewrite forallb_forall in H. specialize (H (Z.to_nat volume)).
  rewrite Z2Nat.id in H by lia. cbn zeta in H.
  assert (Hin : In (Z.to_nat volume) (seq 0 2001)) by (apply in_seq; lia).
  apply H in Hin. apply andb_prop in Hin as [Hin H3]. apply andb_prop in Hin as [H1 H2].
  apply Leibniz.eqb_spec in H3. auto.
Qed.

Lemma float_of_int_small (z : Z) :
  (Z.abs z < 2 ^ 64)%Z -> float_of_int z = ret (of_Z z).
Proof.
  intros H. unfold float_of_int.
  destruct (Z.ltb_spec (Z.abs z) (2 ^ 1024 - 2 ^ 970)) as [_ | Hbig]; [reflexivity |].
  exfalso.
  assert (2 ^ 64 <= 2 ^ 1024 - 2 ^ 970)%Z by (apply Z.leb_le; vm_compute; reflexivity).
  lia.
Qed.

Variable to_csv : bool -> frame -> string.

(** X11.  For every beverage, known or not, and every volume of the form
    (up to 2000 ml), the drink is logged with an effective hydration that
    never exceeds the volume and is at least 0.8 times the volume; it is
    the volume itself for every beverage other than milk, tea, coffee,
    juice, soda and alcohol. *)
Theorem log_beverage_advanced_hydration (date time beverage : string) (volume : Z)
    (fs : files) :
  (0 <= volume <= 2000)%Z ->
  exists eff_vol,
    log_beverage_advanced to_csv date time beverage volume fs =
    ret (log_data to_csv "water_log_detailed.csv"
           [("Date", VStr date); ("Time", VStr time); ("Beverage", VStr beverage);
            ("Volume_ml", VInt volume); ("Effective_Hydration_ml", VFloat eff_vol)] fs) /\
    (eff_vol <=? of_Z volume) = true /\
    (0.8 * of_Z volume <=? eff_vol) = true /\
    (~ In beverage ["Milk"; "Tea"; "Coffee"; "Juice"; "Soda"; "Alcohol"] ->
     eff_vol = of_Z volume).
Proof.
  intros Hv. exists (of_Z volume * dict_get HYDRATION_FACTORS beverage 1.0).
  destruct (HYDRATION_FACTORS_get beverage) as [Hf Hone].
  destruct (hydration_range _ volume Hf Hv) as (Hhi & Hlo & Hid).
  split; [| split; [exact Hhi | split; [exact Hlo |]]].
  - unfold log_beverage_advanced. rewrite float_of_int_small by lia. reflexivity.
  - intros Hb. rewrite (Hone Hb). exact Hid.
Qed.

End Hydration.

(** X11, for a coffee of 250 ml: 225 ml of effective hydration. *)
Lemma log_beverage_advanced_hydration_witness :
  exists eff_vol,
    log_beverage_advanced Examples.simple_to_csv "2024-03-10" "08:30:00" "Coffee" 250 ∅ =
    ret (log_data Examples.simple_to_csv "water_log_detailed.csv"
           [("Date", VStr "2024-03-10"); ("Time", VStr "08:30:00");
            ("Beverage", VStr "Coffee"); ("Volume_ml", VInt 250);
            ("Effective_Hydration_ml", VFloat eff_vol)]%string ∅) /\
    (eff_vol <=? of_Z 250)%float = true.
Proof.
  destruct (log_beverage_advanced_hydration Examples.simple_to_csv "2024-03-10" "08:30:00"
              "Coffee" 250 ∅ ltac:(lia)) as (eff_vol & Hlog & Hhi & _).
  exists eff_vol. split; [exact Hlog | exact Hhi].
Defined.

(** ** The files: initialisation and reset *)

Section FileFacts.

Local Open Scope string_scope.

Lemma path_exists_spec (fs : files) (path : string) :
  path_exists fs path = true <-> is_Some (fs !! path).
Proof. unfold path_exists. apply bool_decide_eq_true. Qed.

(** Writing the files of a list that are missing. *)
Lemma create_missing_lookup (l : list (string * string)) :
  forall (fs : files) (path : string),
    let fs' := fold_left (fun fs pc =>
                            if negb (path_exists fs (fst pc))
                            then <[fst pc := snd pc]> fs else fs) l fs in
    (forall content, fs !! path = Some content -> fs' !! path = Some content) /\
    (In path (map fst l) -> is_Some (fs' !! path)) /\
    (~ In path (map fst l) -> fs' !! path = fs !! path).
Proof.
  induction l as [| [p c] l IH]; intros fs path; cbn [fold_left map fst snd In].
  - repeat split; tauto.
  - set (fs1 := if negb (path_exists fs p) then <[p := c]> fs else fs).
    destruct (IH fs1 path) as (Hkeep & Hex & Hother). cbn zeta in *.
    assert (Hk1 : forall content, fs !! path = Some content -> fs1 !! path = Some content).
    { intros content H. unfold fs1. destruct (path_exists fs p) eqn:E; cbn; [exact H |].
      rewrite lookup_insert_ne; [exact H |]. intros ->.
      assert (Hs : is_Some (fs !! path)) by eauto.
      apply path_exists_spec in Hs. congruence. }
    assert (Hp : is_Some (fs1 !! p)).
    { unfold fs1. destruct (path_exists fs p) eqn:E; cbn.
      - now apply path_exists_spec.
      - rewrite lookup_insert_eq. eauto. }
    split; [| split].
    + intros content H. apply Hkeep, Hk1, H.
    + intros [<- | Hin]; [| now apply Hex].
      destruct Hp as [x Hx]. rewrite (Hkeep x Hx). eauto.
    + intros Hnot. rewrite Hother by tauto.
      unfold fs1. destruct (path_exists fs p); cbn; [reflexivity |].
      apply lookup_insert_ne. tauto.
Qed.

(** A missing file of the list is written with the text listed for it. *)
Lemma create_missing_content (l : list (string * string)) :
  List.NoDup (map fst l) ->
  forall (fs : files) (path content : string),
    In (path, content) l -> fs !! path = None ->
    fold_left (fun fs pc =>
                 if negb (path_exists fs (fst pc)) then <[fst pc := snd pc]> fs else fs)
      l fs !! path = Some content.
Proof.
  induction l as [| [p c] l IH]; intros Hnd fs path content Hin Hnone; [destruct Hin |].
  cbn [fold_left fst snd]. cbn [map fst] in Hnd.
  apply List.NoDup_cons_iff in Hnd as [Hp Hnd].
  assert (He : path_exists fs path = false).
  { unfold path_exists. apply bool_decide_eq_false. rewrite Hnone.
    intros [x Hx]. discriminate. }
  destruct Hin as [Heq | Hin].
  - injection Heq as -> ->. rewrite He. cbn [negb].
    destruct (create_missing_lookup l (<[path := content]> fs) path) as (Hkeep & _).
    apply Hkeep. apply lookup_insert_eq.
  - apply IH; [assumption | assumption |].
    assert (Hne : path <> p).
    { intros ->. apply Hp. apply in_map_iff. now exists (p, content). }
    destruct (path_exists fs p); cbn [negb]; [assumption |].
    now rewrite lookup_insert_ne.
Qed.

(** Removing the files of a list that pass a guard. *)
Lemma remove_all_lookup (guard : string -> bool) (l : list string) :
  (forall f, In f l -> guard f = true) ->
  forall (fs : files) (path : string),
    let fs' := fold_left (fun fs f => if guard f && path_exists fs f then delete f fs else fs)
                 l fs in
    (In path l -> fs' !! path = None) /\
    (~ In path l -> fs' !! path = fs !! path).
Proof.
  induction l as [| f l IH]; intros Hg fs path; cbn [fold_left In].
  - split; tauto.
  - set (fs1 := if guard f && path_exists fs f then delete f fs else fs).
    assert (Hf : fs1 !! f = None).
    { unfold fs1. rewrite (Hg f) by now left. cbn.
      destruct (path_exists fs f) eqn:E; [apply lookup_delete_eq |].
      unfold path_exists in E. apply bool_decide_eq_false in E.
      destruct (fs !! f) eqn:E'; [exfalso; apply E; eauto | reflexivity]. }
    assert (Ho : forall q, q <> f -> fs1 !! q = fs !! q).
    { intros q Hq. unfold fs1. destruct (guard f && path_exists fs f); [| reflexivity].
      now apply lookup_delete_ne. }
    destruct (IH (fun g Hin => Hg g (or_intror Hin)) fs1 path) as [Hin Hout]. cbn zeta in *.
    split.
    + intros [<- | H]; [| now apply Hin].
      destruct (in_dec string_dec f l) as [Hl | Hl]; [now apply Hin |].
      now rewrite Hout.
    + intros Hnot. rewrite Hout by tauto. apply Ho. intros ->. tauto.
Qed.

(** No path of [FILES] contains ["db"]. *)
Lemma FILES_guard (f : string) : In f (map snd FILES) -> negb (str_in "db" f) = true.
Proof.
  intros Hin. cbn in Hin.
  repeat (destruct Hin as [<- | Hin]; [vm_compute; reflexivity |]). destruct Hin.
Qed.

Lemma reset_all_data_lookup (fs : files) (path : string) :
  (In path (map snd FILES) -> reset_all_data fs !! path = None) /\
  (~ In path (map snd FILES) -> reset_all_data fs !! path = fs !! path).
Proof.
  exact (remove_all_lookup (fun f => negb (str_in "db" f)) (map snd FILES) FILES_guard fs path).
Qed.

Variable to_csv : bool -> frame -> string.

Lemma initialize_databases_fold (fs : files) :
  initialize_databases to_csv fs =
  fold_left (fun fs pc =>
               if negb (path_exists fs (fst pc)) then <[fst pc := snd pc]> fs else fs)
    (default_files to_csv) fs.
Proof.
  unfold initialize_databases, default_files. cbn [fold_left fst snd]. reflexivity.
Qed.

Lemma initialize_databases_lookup (fs : files) (path : string) :
  (forall content, fs !! path = Some content ->
     initialize_databases to_csv fs !! path = Some content) /\
  (In path (map fst (default_files to_csv)) ->
     is_Some (initialize_databases to_csv fs !! path)) /\
  (~ In path (map fst (default_files to_csv)) ->
     initialize_databases to_csv fs !! path = fs !! path).
Proof.
  rewrite initialize_databases_fold.
  apply (create_missing_lookup (default_files to_csv) fs path).
Qed.

Lemma default_files_NoDup : List.NoDup (map fst (default_files to_csv)).
Proof.
  apply NoDup_ListNoDup. apply (bool_decide_unpack _). vm_compute. exact I.
Qed.

(** X12.  [initialize_databases] never changes a file that exists;
    afterwards the four logs and the three databases exist; no other path
    is touched (the profile and the custom foods are not created); and
    running it a second time changes nothing. *)
Theorem initialize_databases_keeps (fs : files) (path : string) :
  (forall content, fs !! path = Some content ->
     initialize_databases to_csv fs !! path = Some content) /\
  (In path ["water_log_detailed.csv"; "weight_log.csv"; "food_log.csv"; "exercise_log.csv";
            "symptom_database.csv"; "Enhanced_Indian_Food_Nutrition.csv";
            "Compendium_of_Physical_Activities_2024.csv"] ->
   is_Some (initialize_databases to_csv fs !! path)) /\
  (~ In path ["water_log_detailed.csv"; "weight_log.csv"; "food_log.csv"; "exercise_log.csv";
              "symptom_database.csv"; "Enhanced_Indian_Food_Nutrition.csv";
              "Compendium_of_Physical_Activities_2024.csv"] ->
   initialize_databases to_csv fs !! path = fs !! path) /\
  initialize_databases to_csv (initialize_databases to_csv fs)
  = initialize_databases to_csv fs.
Proof.
  destruct (initialize_databases_lookup fs path) as (Hkeep & Hex & Hother).
  split; [exact Hkeep | split; [exact Hex | split; [exact Hother |]]].
  apply map_eq. intros q.
  destruct (initialize_databases_lookup (initialize_databases to_csv fs) q)
    as (Hkeep' & _ & Hother').
  destruct (initialize_databases to_csv fs !! q) as [x |] eqn:E; [now apply Hkeep' |].
  rewrite Hother'; [reflexivity |].
  intros Hin. destruct (initialize_databases_lookup fs q) as (_ & Hex' & _).
  destruct (Hex' Hin) as [x Hx]. congruence.
Qed.

(** X13.  A record logged to a file that [initialize_databases] has just
    created lands under the column names that [initialize_databases]
    wrote: the record's own keys are not written, only its row. *)
Theorem log_data_after_initialize (fs : files) (file header : string)
    (data_dict : list (string * value)) :
  In (file, header) (default_files to_csv) ->
  header <> "" ->
  fs !! file = None ->
  log_data to_csv file data_dict (initialize_databases to_csv fs) !! file
  = Some (header ++ to_csv false (frame_of_record data_dict)).
Proof.
  intros Hin Hne Hnone. apply (log_data_append to_csv); [| exact Hne].
  rewrite initialize_databases_fold.
  apply create_missing_content; [apply default_files_NoDup | assumption | assumption].
Qed.

(** X14.  The reset removes every file of [FILES], the three databases
    included: its test on ["db"] holds back none of them, since no path
    contains these two letters.  Files outside [FILES] are left alone. *)
Theorem reset_all_data_removes (fs : files) (path : string) :
  (In path (map snd FILES) -> reset_all_data fs !! path = None) /\
  (~ In path (map snd FILES) -> reset_all_data fs !! path = fs !! path) /\
  Forall (fun f => str_in "db" f = false) (map snd FILES).
Proof.
  destruct (reset_all_data_lookup fs path) as [Hin Hout].
  split; [exact Hin | split; [exact Hout |]].
  apply List.Forall_forall. intros f Hf. apply FILES_guard in Hf.
  now destruct (str_in "db" f).
Qed.

(** X15.  After a reset, the next initialisation leaves the application
    as new: each log and each database holds the default text, whatever
    it held before, and there is no profile and no custom food. *)
Theorem initialize_after_reset (fs : files) (path : string) :
  (forall content, In (path, content) (default_files to_csv) ->
     initialize_databases to_csv (reset_all_data fs) !! path = Some content) /\
  initialize_databases to_csv (reset_all_data fs) !! "user_profile.json" = None /\
  initialize_databases to_csv (reset_all_data fs) !! "custom_foods.csv" = None /\
  (~ In path (map snd FILES) ->
   initialize_databases to_csv (reset_all_data fs) !! path = fs !! path).
Proof.
  assert (Hreset : forall q, In q (map snd FILES) -> reset_all_data fs !! q = None).
  { intros q. apply (reset_all_data_lookup fs q). }
  assert (Hother : forall q, ~ In q (map fst (default_files to_csv)) ->
            initialize_databases to_csv (reset_all_data fs) !! q = reset_all_data fs !! q).
  { intros q. apply (initialize_databases_lookup (reset_all_data fs) q). }
  split; [| split; [| split]].
  - intros content Hin. rewrite initialize_databases_fold.
    apply create_missing_content; [apply default_files_NoDup | assumption |].
    apply Hreset. cbn in Hin |- *.
    repeat (destruct Hin as [Heq | Hin]; [injection Heq as <- _; tauto |]). destruct Hin.
  - rewrite Hother; [apply Hreset; cbn; tauto |].
    cbn. intuition discriminate.
  - rewrite Hother; [apply Hreset; cbn; tauto |].
    cbn. intuition discriminate.
  - intros Hnot. rewrite Hother.
    + now apply (reset_all_data_lookup fs path).
    + intros Hin. apply Hnot. cbn in Hin |- *. tauto.
Qed.

End FileFacts.

(** X13, with the stand-in writer: a meal logged after initialisation of
    an empty directory follows the nine column names of the food log. *)
Lemma log_data_after_initialize_witness :
  log_data Examples.simple_to_csv "food_log.csv" Examples.idli_record
    (initialize_databases Examples.simple_to_csv ∅) !! "food_log.csv"
  = Some ("Date,Time,Dish,Meal Type,Quantity,Calories,Protein,Carbs,Fats"
          ++ String "010" ("2024-03-10,Idli,60" ++ String "010" ""))%string.
Proof.
  rewrite (log_data_after_initialize Examples.simple_to_csv ∅ "food_log.csv"
             (Examples.simple_to_csv true
                (frame_of_columns ["Date"; "Time"; "Dish"; "Meal Type"; "Quantity";
                                   "Calories"; "Protein"; "Carbs"; "Fats"]%string))
             Examples.idli_record).
  - vm_compute. reflexivity.
  - right. right. left. reflexivity.
  - vm_compute. discriminate.
  - apply lookup_empty.
Defined.

(** ** The stored profile *)

Section ProfileFacts.

Local Open Scope string_scope.

Variable json_load : string -> result (gmap string json).
Variable json_dump : gmap string json -> string.

(** X16.  A profile that [load_profile] returns always has a
    [Start_Weight].  A stored profile that has one is returned as it is
    and nothing is written.  One that has none is returned with
    [Start_Weight] and [Current_Weight] both set to its [Weight], or to 70
    when it has no [Weight], every other entry kept, and this profile is
    written back. *)
Theorem load_profile_repairs (fs : files) (p : gmap string json) :
  fst (load_profile json_load json_dump fs) = ret (Some p) ->
  exists content stored,
    fs !! "user_profile.json" = Some content /\
    json_load content = ret stored /\
    is_Some (p !! "Start_Weight") /\
    (is_Some (stored !! "Start_Weight") ->
     p = stored /\ snd (load_profile json_load json_dump fs) = fs) /\
    (stored !! "Start_Weight" = None ->
     p !! "Start_Weight" = Some (default (JInt 70) (stored !! "Weight")) /\
     p !! "Current_Weight" = Some (default (JInt 70) (stored !! "Weight")) /\
     (forall key, key <> "Start_Weight" -> key <> "Current_Weight" ->
                  p !! key = stored !! key) /\
     snd (load_profile json_load json_dump fs)
     = <["user_profile.json" := json_dump p]> fs).
Proof.
  unfold load_profile. change (FILES_at "profile") with "user_profile.json".
  destruct (fs !! "user_profile.json") as [content |] eqn:Hc;
    [| cbn; unfold ret; discriminate].
  destruct (json_load content) as [e | stored] eqn:Hj;
    [cbn; unfold ret, raise; discriminate |].
  destruct (stored !! "Start_Weight") as [w |] eqn:Hs; cbn.
  - intros H. unfold ret in H. injection H as <-. exists content, stored.
    split; [reflexivity |]. split; [assumption |]. split; [eauto |].
    split; [auto | intros Hn; congruence].
  - intros H. unfold ret in H. injection H as <-. exists content, stored.
    rewrite (lookup_insert_ne stored "Start_Weight" "Weight") by discriminate.
    split; [reflexivity |]. split; [assumption |]. split.
    + rewrite lookup_insert_ne by discriminate. rewrite lookup_insert_eq. eauto.
    + split; [intros [x Hx]; congruence |]. intros _.
      split; [rewrite lookup_insert_ne by discriminate; apply lookup_insert_eq |].
      split; [apply lookup_insert_eq |]. split; [| reflexivity].
      intros key H1 H2. now rewrite !lookup_insert_ne by congruence.
Qed.

Lemma load_profile_repaired (fs : files) (profile : gmap string json) :
  fs !! FILES_at "profile" = Some (json_dump profile) ->
  json_load (json_dump profile) = ret profile ->
  is_Some (profile !! "Start_Weight") ->
  load_profile json_load json_dump fs = (ret (Some profile), fs).
Proof.
  intros Hc Hj Hs. unfold load_profile. rewrite Hc, Hj. unfold ret.
  now rewrite bool_decide_eq_true_2.
Qed.

(** X17.  When [json.load] reads back the profile that was written, a
    second [load_profile] returns what the first returned and writes
    nothing: the repair is done once. *)
Theorem load_profile_again (fs : files) :
  (forall p, fst (load_profile json_load json_dump fs) = ret (Some p) ->
             json_load (json_dump p) = ret p) ->
  load_profile json_load json_dump (snd (load_profile json_load json_dump fs))
  = load_profile json_load json_dump fs.
Proof.
  intros Hround.
  destruct (load_profile json_load json_dump fs) as [r fs'] eqn:E. cbn [fst snd] in *.
  unfold load_profile in E.
  destruct (fs !! FILES_at "profile") as [content |] eqn:Hc.
  - destruct (json_load content) as [e | stored] eqn:Hj.
    + injection E as <- <-. unfold load_profile. now rewrite Hc, Hj.
    + destruct (bool_decide (is_Some (stored !! "Start_Weight"))) eqn:Hs; cbn [negb] in E.
      * injection E as <- <-. unfold load_profile. now rewrite Hc, Hj, Hs.
      * injection E as <- <-. apply load_profile_repaired.
        -- apply lookup_insert_eq.
        -- now apply Hround.
        -- rewrite lookup_insert_ne by discriminate. rewrite lookup_insert_eq. eauto.
  - injection E as <- <-. unfold load_profile. now rewrite Hc.
Qed.

End ProfileFacts.

(** X16, with the stand-in JSON library: the profile of the earlier
    version comes back with both weights set to its [Weight]. *)
Lemma load_profile_repairs_witness :
  fst (load_profile Examples.example_json_load Examples.example_json_dump
         Examples.old_profile_directory)
  = ret (Some Examples.repaired_profile) /\
  is_Some (Examples.repaired_profile !! "Start_Weight"%string).
Proof.
  assert (H : fst (load_profile Examples.example_json_load Examples.example_json_dump
                     Examples.old_profile_directory)
              = ret (Some Examples.repaired_profile)) by reflexivity.
  split; [exact H |].
  destruct (load_profile_repairs _ _ _ _ H) as (content & stored & _ & _ & Hs & _).
  exact Hs.
Defined.

(** X17, on the same directory: the second call finds the repaired
    profile. *)
Lemma load_profile_again_witness :
  load_profile Examples.example_json_load Examples.example_json_dump
    (snd (load_profile Examples.example_json_load Examples.example_json_dump
            Examples.old_profile_directory))
  = load_profile Examples.example_json_load Examples.example_json_dump
      Examples.old_profile_directory.
Proof.
  apply load_profile_again.
  intros p Hp. change (ret (Some Examples.repaired_profile) = ret (Some p)) in Hp.
  unfold ret in Hp. injection Hp as <-. reflexivity.
Defined.

(** ** The catalogues *)

Section CatalogueFacts.

Local Open Scope string_scope.

Variable read_csv : string -> result DataFrame.
Variable py_str : cell -> string.

Lemma infer_diet_cases (x : string) : infer_diet x = "Veg" \/ infer_diet x = "Non-Veg".
Proof. unfold infer_diet. destruct (existsb _ _); auto. Qed.

(** X18.  Whenever [load_databases] returns a food table, that table has
    a [Diet] column.  It is the combined table itself when that already
    has the column; otherwise it is the combined table with a [Diet]
    column added, holding for each dish name [Veg] or [Non-Veg].  No food
    table is returned exactly when neither the catalogue nor the custom
    foods yield one. *)
Theorem load_databases_Diet (fs : files)
    (df_food df_ex df_sym : option DataFrame) :
  load_databases read_csv py_str fs = ret (df_food, df_ex, df_sym) ->
  exists food custom,
    load_data_safe read_csv fs "Enhanced_Indian_Food_Nutrition.csv" = ret food /\
    load_data_safe read_csv fs "custom_foods.csv" = ret custom /\
    load_data_safe read_csv fs "Compendium_of_Physical_Activities_2024.csv" = ret df_ex /\
    load_data_safe read_csv fs "symptom_database.csv" = ret df_sym /\
    (df_food = None <-> food = None /\ custom = None) /\
    (forall table, df_food = Some table ->
       exists combined diet,
         combined_food food custom = Some combined /\
         columns table !! "Diet" = Some diet /\
         nrows table = nrows combined /\
         (forall name, name <> "Diet" -> columns table !! name = columns combined !! name) /\
         (columns combined !! "Diet" = None ->
          exists names,
            columns combined !! "Dish Name" = Some names /\
            diet = map (fun x => CStr (infer_diet (py_str x))) names /\
            Forall (fun c => c = CStr "Veg" \/ c = CStr "Non-Veg") diet) /\
         (is_Some (columns combined !! "Diet") -> table = combined)).
Proof.
  unfold load_databases.
  change (FILES_at "food_db") with "Enhanced_Indian_Food_Nutrition.csv".
  change (FILES_at "custom_food") with "custom_foods.csv".
  change (FILES_at "exercise_db") with "Compendium_of_Physical_Activities_2024.csv".
  change (FILES_at "symptom_db") with "symptom_database.csv".
  intros H. bind_inv H as food Hf. bind_inv H as custom Hc. cbn zeta in H.
  bind_inv H as ex He. bind_inv H as sym Hs. bind_inv H as table Ht.
  unfold ret in H. injection H as <- <- <-.
  exists food, custom. repeat (split; [assumption |]).
  destruct (combined_food food custom) as [combined |] eqn:Ec.
  - assert (Hsome : food <> None \/ custom <> None).
    { destruct food, custom; try discriminate; auto; left; discriminate. }
    destruct (columns combined !! "Diet") as [diet |] eqn:Ed.
    + rewrite bool_decide_eq_true_2 in Ht by eauto. cbn in Ht.
      unfold ret in Ht. injection Ht as <-. split.
      * split; [discriminate | intros [-> ->]; destruct Hsome; contradiction].
      * intros t Heq. injection Heq as <-. exists combined, diet.
        split; [reflexivity |]. split; [exact Ed |]. split; [reflexivity |].
        split; [reflexivity |]. split; [intros Hn; congruence | reflexivity].
    + rewrite bool_decide_eq_false_2 in Ht by (intros [x Hx]; discriminate). cbn [negb] in Ht.
      destruct (columns combined !! "Dish Name") as [names |] eqn:En;
        [| unfold raise, ret in Ht; discriminate].
      unfold ret in Ht. injection Ht as <-. split.
      * split; [discriminate | intros [-> ->]; destruct Hsome; contradiction].
      * intros t Heq. injection Heq as <-.
        exists combined, (map (fun x => CStr (infer_diet (py_str x))) names).
        split; [reflexivity |]. cbn [set_column columns nrows].
        split; [apply lookup_insert_eq |]. split; [reflexivity |].
        split; [intros name Hne; now apply lookup_insert_ne |].
        split.
        -- intros _. exists names. split; [exact En |]. split; [reflexivity |].
           apply List.Forall_forall. intros c Hin. apply in_map_iff in Hin as (x & <- & _).
           destruct (infer_diet_cases (py_str x)) as [-> | ->]; auto.
        -- intros [x Hx]. congruence.
  - unfold ret in Ht. injection Ht as <-. split; [| discriminate].
    split; [| reflexivity]. intros _.
    destruct food, custom; try discriminate. auto.
Qed.

Lemma load_databases_loaded (fs : files) (food custom df_ex df_sym : option DataFrame) :
  load_data_safe read_csv fs "Enhanced_Indian_Food_Nutrition.csv" = ret food ->
  load_data_safe read_csv fs "custom_foods.csv" = ret custom ->
  load_data_safe read_csv fs "Compendium_of_Physical_Activities_2024.csv" = ret df_ex ->
  load_data_safe read_csv fs "symptom_database.csv" = ret df_sym ->
  load_databases read_csv py_str fs =
  (df_food <-
     match combined_food food custom with
     | Some table =>
         if negb (bool_decide (is_Some (columns table !! "Diet")))
         then
           match columns table !! "Dish Name" with
           | Some names =>
               ret (Some (set_column table "Diet"
                            (map (fun x => CStr (infer_diet (py_str x))) names)))
           | None => raise KeyError
           end
         else ret (Some table)
     | None => ret None
     end ;;
   ret (df_food, df_ex, df_sym)).
Proof.
  intros Hf Hc He Hs. unfold load_databases.
  change (FILES_at "food_db") with "Enhanced_Indian_Food_Nutrition.csv".
  change (FILES_at "custom_food") with "custom_foods.csv".
  change (FILES_at "exercise_db") with "Compendium_of_Physical_Activities_2024.csv".
  change (FILES_at "symptom_db") with "symptom_database.csv".
  rewrite Hf, Hc. cbn [bind ret]. rewrite He, Hs. reflexivity.
Qed.

(** X19.  When the four files load and the combined food table has
    neither a [Diet] nor a [Dish Name] column, [load_databases] raises
    [KeyError]: the diet class cannot be inferred. *)
Theorem load_databases_KeyError (fs : files)
    (food custom df_ex df_sym : option DataFrame) (combined : DataFrame) :
  load_data_safe read_csv fs "Enhanced_Indian_Food_Nutrition.csv" = ret food ->
  load_data_safe read_csv fs "custom_foods.csv" = ret custom ->
  load_data_safe read_csv fs "Compendium_of_Physical_Activities_2024.csv" = ret df_ex ->
  load_data_safe read_csv fs "symptom_database.csv" = ret df_sym ->
  combined_food food custom = Some combined ->
  columns combined !! "Diet" = None ->
  columns combined !! "Dish Name" = None ->
  load_databases read_csv py_str fs = raise KeyError.
Proof.
  intros Hf Hc He Hs Hcomb Hd Hn.
  rewrite (load_databases_loaded fs food custom df_ex df_sym Hf Hc He Hs), Hcomb.
  rewrite bool_decide_eq_false_2 by (rewrite Hd; intros [x Hx]; discriminate).
  cbn [negb]. rewrite Hn. reflexivity.
Qed.

(** X20.  When the custom foods carry a [Diet] column and the catalogue
    does not, no diet class is inferred: the food table is the custom
    rows followed by the catalogue rows, and its [Diet] column holds the
    custom classes followed by one missing value per catalogue row. *)
Theorem load_databases_custom_diet (fs : files) (food custom : DataFrame)
    (df_ex df_sym : option DataFrame) (diet : list cell) :
  load_data_safe read_csv fs "Enhanced_Indian_Food_Nutrition.csv" = ret (Some food) ->
  load_data_safe read_csv fs "custom_foods.csv" = ret (Some custom) ->
  load_data_safe read_csv fs "Compendium_of_Physical_Activities_2024.csv" = ret df_ex ->
  load_data_safe read_csv fs "symptom_database.csv" = ret df_sym ->
  columns custom !! "Diet" = Some diet ->
  columns food !! "Diet" = None ->
  exists table,
    load_databases read_csv py_str fs = ret (Some table, df_ex, df_sym) /\
    nrows table = (nrows custom + nrows food)%nat /\
    columns table !! "Diet" = Some (diet ++ replicate (nrows food) NaN)%list /\
    (forall name c f,
       columns custom !! name = Some c -> columns food !! name = Some f ->
       columns table !! name = Some (c ++ f)%list) /\
    (forall name f,
       columns custom !! name = None -> columns food !! name = Some f ->
       columns table !! name = Some (replicate (nrows custom) NaN ++ f)%list).
Proof.
  intros Hf Hc He Hs Hcd Hfd. exists (pd_concat custom food).
  assert (Hdiet : columns (pd_concat custom food) !! "Diet"
                  = Some (diet ++ replicate (nrows food) NaN)%list).
  { cbn [pd_concat columns]. rewrite lookup_merge, Hcd, Hfd. reflexivity. }
  split; [| split; [reflexivity | split; [exact Hdiet | split]]].
  - rewrite (load_databases_loaded fs _ _ df_ex df_sym Hf Hc He Hs). cbn [combined_food].
    rewrite bool_decide_eq_true_2 by (rewrite Hdiet; eauto). reflexivity.
  - intros name c f H1 H2. cbn [pd_concat columns]. rewrite lookup_merge, H1, H2. reflexivity.
  - intros name f H1 H2. cbn [pd_concat columns]. rewrite lookup_merge, H1, H2. reflexivity.
Qed.

End CatalogueFacts.

(** X18, with the simple reader: a catalogue without diet classes gets
    them from its dish names. *)
Lemma load_databases_Diet_witness :
  load_databases Examples.simple_read_csv Examples.cell_text Examples.plain_directory
  = ret (Some (set_column Examples.plain_catalogue "Diet"
                 [CStr "Non-Veg"%string; CStr "Veg"%string]), None, None) /\
  is_Some (columns (set_column Examples.plain_catalogue "Diet"
                      [CStr "Non-Veg"%string; CStr "Veg"%string]) !! "Diet"%string).
Proof.
  assert (H : load_databases Examples.simple_read_csv Examples.cell_text
                Examples.plain_directory
              = ret (Some (set_column Examples.plain_catalogue "Diet"
                             [CStr "Non-Veg"%string; CStr "Veg"%string]), None, None))
    by (vm_compute; reflexivity).
  split; [exact H |].
  destruct (load_databases_Diet Examples.simple_read_csv Examples.cell_text _ _ _ _ H)
    as (food & custom & _ & _ & _ & _ & _ & Htable).
  destruct (Htable _ eq_refl) as (combined & diet & _ & Hdiet & _).
  rewrite Hdiet. eauto.
Defined.

(** X19, with the simple reader: a catalogue that names its dishes under
    another column. *)
Lemma load_databases_KeyError_witness :
  load_databases Examples.simple_read_csv Examples.cell_text Examples.foreign_directory
  = raise KeyError.
Proof.
  apply (load_databases_KeyError Examples.simple_read_csv Examples.cell_text
           Examples.foreign_directory
           (Some {| nrows := 1;
                    columns := list_to_map [("Name"%string, [CStr "Roti"%string]);
                                            ("Calories"%string, [CStr "120"%string])] |})
           None None None
           {| nrows := 1;
              columns := list_to_map [("Name"%string, [CStr "Roti"%string]);
                                      ("Calories"%string, [CStr "120"%string])] |});
    vm_compute; reflexivity.
Defined.

(** X20, with the simple reader: one custom food of class [Veg] in front
    of the two dishes of a catalogue without classes. *)
Lemma load_databases_custom_diet_witness :
  exists table,
    load_databases Examples.simple_read_csv Examples.cell_text Examples.custom_directory
    = ret (Some table, None, None) /\
    nrows table = 3%nat /\
    columns table !! "Diet"%string = Some [CStr "Veg"%string; NaN; NaN].
Proof.
  destruct (load_databases_custom_diet Examples.simple_read_csv Examples.cell_text
              Examples.custom_directory Examples.plain_catalogue Examples.custom_foods
              None None [CStr "Veg"%string])
    as (table & Hload & Hrows & Hdiet & _); try (vm_compute; reflexivity).
  exists table. split; [exact Hload |]. split; [exact Hrows | exact Hdiet].
Defined.
